(** * The Dojo: room allocation, reallocation and persistence mapping

    A shallow embedding of the allocation engine ([models/room.py],
    [models/fellow.py], [models/staff.py], [models/dojo.py]), of the
    application layer ([cli.py]: [create_room], [add_person],
    [reallocate_person], [load_people], the three listings, [load_state])
    and of the persistence mapper ([models/db/utils.py],
    [models/db/service.py]).

    Python objects are shared by reference.  A room object is referenced only
    from the list that owns it ([Dojo.offices] or [Dojo.living_spaces]), so a
    room is denoted by its position in that list and mutated with [alter].
    Every person object is appended to [Dojo.people] when it is created, so a
    person is denoted by its position in [people]; [Dojo.staff] and
    [Dojo.fellows] hold such positions.

    The two sources of non-determinism, [uuid.uuid4] and [random.choice], are
    taken as extra arguments of the operation that calls them. *)

From Stdlib Require Import Ascii.
From stdpp Require Import list strings pretty.

(** ** Python values and string methods *)

(** Text is ASCII: [Py.lower] and [Py.upper] map the 26 letters, every other
    character is left alone, and the white space of [str.split] and
    [str.strip] is the ASCII white space of [str.isspace]. *)
Module Py.

Inductive value : Type :=
| PNone
| PStr (s : string)
| PBool (b : bool).

Inductive exn : Type :=
| IndexError
| NameError
| ValueError
| SQLAlchemyError.

Inductive outcome (A : Type) : Type :=
| Ret (a : A)
| Raise (e : exn).
Arguments Ret {A} a.
Arguments Raise {A} e.

Definition truthy (v : value) : bool :=
  match v with
  | PNone => false
  | PStr s => negb (bool_decide (s = ""))
  | PBool b => b
  end.

Definition is_upper (c : ascii) : bool :=
  let n := nat_of_ascii c in (65 <=? n) && (n <=? 90).

Definition is_lower (c : ascii) : bool :=
  let n := nat_of_ascii c in (97 <=? n) && (n <=? 122).

Definition lower_char (c : ascii) : ascii :=
  if is_upper c then ascii_of_nat (nat_of_ascii c + 32) else c.

Definition upper_char (c : ascii) : ascii :=
  if is_lower c then ascii_of_nat (nat_of_ascii c - 32) else c.

Fixpoint map_chars (f : ascii → ascii) (s : string) : string :=
  match s with
  | EmptyString => EmptyString
  | String c rest => String (f c) (map_chars f rest)
  end.

Definition lower : string → string := map_chars lower_char.
Definition upper : string → string := map_chars upper_char.

(** [s.replace(' ', '_')] *)
Definition replace_space (s : string) : string :=
  map_chars (λ c, if bool_decide (c = " "%char) then "_"%char else c) s.

Definition isspace (c : ascii) : bool :=
  let n := nat_of_ascii c in
  ((9 <=? n) && (n <=? 13)) || ((28 <=? n) && (n <=? 32)).

(** [s.split()]: the maximal runs of characters that are not white space.
    [cur] is the word being read, in reverse. *)
Fixpoint split_go (cur : option string) (s : string) : list string :=
  match s with
  | EmptyString => option_list (String.rev <$> cur)
  | String c rest =>
      if isspace c
      then option_list (String.rev <$> cur) ++ split_go None rest
      else split_go (Some (String c (default EmptyString cur))) rest
  end.

Definition split : string → list string := split_go None.

(** [s.strip()] is empty exactly when [s] has no word. *)
Definition strip_is_empty (s : string) : bool :=
  match split s with [] => true | _ => false end.

(** [l.remove(x)]: drops the first occurrence; [None] stands for the
    [ValueError] raised when there is none. *)
Fixpoint list_remove (x : string) (l : list string) : option (list string) :=
  match l with
  | [] => None
  | y :: rest =>
      if bool_decide (y = x) then Some rest
      else cons y <$> list_remove x rest
  end.

(** [random.choice(l)] on the outcome [r] of the generator. *)
Definition choice {A} (r : nat) (l : list A) : option A :=
  l !! (r `mod` length l).

End Py.

Import Py.

(** ** Rooms ([models/room.py], [office.py], [living_space.py]) *)

Inductive RoomType : Type := office | living_space.

Global Instance RoomType_eq_dec : EqDecision RoomType.
Proof. solve_decision. Defined.

Module Room.

Record t : Type := mk {
  name : string;
  room_type : RoomType;
  capacity : nat;
  occupants : list string
}.

Definition Office (name : string) : t := mk name office 6 [].
Definition LivingSpace (name : string) : t := mk name living_space 4 [].

Definition set_occupants (r : t) (l : list string) : t :=
  mk (name r) (room_type r) (capacity r) l.

Definition is_full (r : t) : bool :=
  bool_decide (capacity r ≤ length (occupants r)).

Definition available_space (r : t) : Z :=
  (Z.of_nat (capacity r) - Z.of_nat (length (occupants r)))%Z.

(** [person_id] is [None] for Python's [None]. *)
Definition add_occupant (r : t) (person_id : option string) : bool * t :=
  match person_id with
  | None => (false, r)
  | Some pid =>
      if bool_decide (pid = "") then (false, r)
      else if bool_decide (pid ∈ occupants r) then (true, r)
      else if is_full r then (false, r)
      else (true, set_occupants r (occupants r ++ [pid]))
  end.

Definition remove_occupant (r : t) (person_id : option string) : bool * t :=
  match person_id with
  | None => (false, r)
  | Some pid =>
      if bool_decide (pid = "") || bool_decide (occupants r = []) then (false, r)
      else match list_remove pid (occupants r) with
           | Some l => (true, set_occupants r l)
           | None => (false, r)
           end
  end.

End Room.

(** ** People ([models/person.py], [fellow.py], [staff.py]) *)

Inductive PersonType : Type := FELLOW | STAFF.

Global Instance PersonType_eq_dec : EqDecision PersonType.
Proof. solve_decision. Defined.

Module Person.

(** [wants_accommodation] and [living_space_allocated] are attributes of a
    [Fellow] only: [None] says the object has no such attribute. *)
Record t : Type := mk {
  name : string;
  person_id : string;
  person_type : PersonType;
  wants_accommodation : option bool;
  office_allocated : value;
  living_space_allocated : option value
}.

(** [uuid] is the value of [str(uuid.uuid4())[:8]]. *)
Definition Fellow (name : string) (wants : value) (uuid : string) : t :=
  mk name uuid FELLOW
     (Some match wants with
           | PStr s => bool_decide (upper s = "Y")
           | v => truthy v
           end)
     PNone (Some PNone).

Definition Staff (name : string) (uuid : string) : t :=
  mk name uuid STAFF None PNone None.

Definition set_person_id (p : t) (i : string) : t :=
  mk (name p) i (person_type p) (wants_accommodation p)
     (office_allocated p) (living_space_allocated p).

Definition set_office_allocated (v : value) (p : t) : t :=
  mk (name p) (person_id p) (person_type p) (wants_accommodation p)
     v (living_space_allocated p).

Definition set_living_space_allocated (v : value) (p : t) : t :=
  mk (name p) (person_id p) (person_type p) (wants_accommodation p)
     (office_allocated p) (Some v).

(** [person.person_type == 'FELLOW' and person.wants_accommodation] *)
Definition fellow_wanting (p : t) : bool :=
  bool_decide (person_type p = FELLOW) && default false (wants_accommodation p).

End Person.

(** ** The allocation engine ([models/dojo.py]) *)

Module Dojo.

Record t : Type := mk {
  offices : list Room.t;
  living_spaces : list Room.t;
  people : list Person.t;
  staff : list nat;
  fellows : list nat
}.

Definition init : t := mk [] [] [] [] [].

Definition rooms_of (k : RoomType) (d : t) : list Room.t :=
  match k with office => offices d | living_space => living_spaces d end.

Definition set_rooms (k : RoomType) (l : list Room.t) (d : t) : t :=
  match k with
  | office => mk l (living_spaces d) (people d) (staff d) (fellows d)
  | living_space => mk (offices d) l (people d) (staff d) (fellows d)
  end.

Definition set_people (l : list Person.t) (d : t) : t :=
  mk (offices d) (living_spaces d) l (staff d) (fellows d).

Definition alter_room (k : RoomType) (i : nat) (f : Room.t → Room.t) (d : t) : t :=
  set_rooms k (alter f i (rooms_of k d)) d.

Definition alter_person (i : nat) (f : Person.t → Person.t) (d : t) : t :=
  set_people (alter f i (people d)) d.

(** Returns the reference of the registered person. *)
Definition _add_person_to_lists (d : t) (person : Person.t) : nat * t :=
  let ref := length (people d) in
  (ref,
   match Person.person_type person with
   | FELLOW => mk (offices d) (living_spaces d) (people d ++ [person])
                  (staff d) (fellows d ++ [ref])
   | STAFF => mk (offices d) (living_spaces d) (people d ++ [person])
                 (staff d ++ [ref]) (fellows d)
   end).

Inductive room_names : Type :=
| NamesStr (s : string)
| NamesList (l : list value)
| NamesOther.

Definition name_exists (d : t) (name : string) : bool :=
  bool_decide (Exists (λ room, lower (Room.name room) = lower name)
                      (offices d ++ living_spaces d)).

(** The body of [for name in room_names], with [rooms_created] threaded. *)
Fixpoint create_room_loop (k : RoomType) (names : list value)
    (rooms_created : bool) (d : t) : bool * t :=
  match names with
  | [] => (rooms_created, d)
  | PStr name :: rest =>
      if bool_decide (name = "") || strip_is_empty name
      then create_room_loop k rest rooms_created d
      else if name_exists d name
      then create_room_loop k rest rooms_created d
      else
        let d' := match k with
                  | office => set_rooms office (offices d ++ [Room.Office name]) d
                  | living_space =>
                      set_rooms living_space
                                (living_spaces d ++ [Room.LivingSpace name]) d
                  end in
        create_room_loop k rest true d'
  | _ :: rest => create_room_loop k rest rooms_created d
  end.

Definition parse_room_type (s : string) : option RoomType :=
  if bool_decide (s = "office") then Some office
  else if bool_decide (s = "living_space") then Some living_space
  else None.

Definition create_room (d : t) (room_type : string) (names : room_names)
    : bool * t :=
  match parse_room_type room_type with
  | None => (false, d)
  | Some k =>
      match names with
      | NamesStr s => create_room_loop k [PStr s] false d
      | NamesList l => create_room_loop k l false d
      | NamesOther => (false, d)
      end
  end.

(** The references of the rooms that are not full, in list order;
    [i] is the position of the head of [rooms]. *)
Fixpoint available_from (i : nat) (rooms : list Room.t) : list nat :=
  match rooms with
  | [] => []
  | r :: rest =>
      if Room.is_full r then available_from (S i) rest
      else i :: available_from (S i) rest
  end.

(** [_allocate_office] and [_allocate_living_space] differ in the list of
    rooms searched and in the attribute set on the person, nothing else. *)
Definition _allocate (k : RoomType) (d : t) (person : nat) (r : nat)
    : option nat * t :=
  match available_from 0 (rooms_of k d) with
  | [] => (None, d)
  | available =>
      match choice r available with
      | None => (None, d)
      | Some i =>
          match rooms_of k d !! i, people d !! person with
          | Some room, Some p =>
              let d1 := alter_room k i
                          (λ o, (Room.add_occupant o (Some (Person.person_id p))).2) d in
              let d2 := alter_person person
                          (match k with
                           | office => Person.set_office_allocated (PStr (Room.name room))
                           | living_space =>
                               Person.set_living_space_allocated (PStr (Room.name room))
                           end) d1 in
              (Some i, d2)
          | _, _ => (None, d)
          end
      end
  end.

Definition _allocate_office := _allocate office.
Definition _allocate_living_space := _allocate living_space.

Definition parse_person_type (s : string) : option PersonType :=
  if bool_decide (s = "FELLOW") then Some FELLOW
  else if bool_decide (s = "STAFF") then Some STAFF
  else None.

(** The [try] block of [add_person]. *)
Definition add_person_try (d : t) (name : string) (k : PersonType)
    (wants : value) (uuid : string) (r1 r2 : nat) : outcome bool * t :=
  let created :=
    match k with
    | FELLOW => Some (Person.Fellow name wants uuid)
    | STAFF =>
        match wants with
        | PStr s => if bool_decide (upper s = "Y") then None
                    else Some (Person.Staff name uuid)
        | _ => Some (Person.Staff name uuid)
        end
    end in
  match created with
  | None => (Ret false, d)
  | Some person =>
      let '(ref, d1) := _add_person_to_lists d person in
      let '(_, d2) := _allocate_office d1 ref r1 in
      match split name with
      | [] => (Raise IndexError, d2)
      | first_name :: _ =>
          if Person.fellow_wanting person
          then (Ret true, (_allocate_living_space d2 ref r2).2)
          else (Ret true, d2)
      end
  end.

(** [except Exception as e: print(..., file=sys.stderr)]: the module does not
    import [sys], so the handler itself raises [NameError]. *)
Definition add_person (d : t) (name person_type : string) (wants : value)
    (uuid : string) (r1 r2 : nat) : outcome bool * t :=
  match parse_person_type (upper person_type) with
  | None => (Ret false, d)
  | Some k =>
      match add_person_try d name k wants uuid r1 r2 with
      | (Raise _, d') => (Raise NameError, d')
      | res => res
      end
  end.

End Dojo.

(** ** The persistence mapper ([models/db/person_models.py],
       [room_models.py], [utils.py]) *)

Module RoomDB.

(** A row of [rooms] as the ORM presents it.  [type] is [None] when the
    column holds no value.  [occupants] is the relationship through
    [person_room_association], one entry per associated person; nothing in
    the program writes that table.  An entry stands for the [PersonDB]
    object of the relationship, which [to_domain_room] hands to
    [add_occupant] as it is: what a load restores in a room is that object,
    not the id of the person. *)
Record t : Type := mk {
  id : string;
  name : string;
  type : option string;
  capacity : Z;
  occupants : list string
}.

Definition OfficeDB (room_id name : string) : t :=
  mk room_id name (Some (lower "office")) 6 [].

Definition LivingSpaceDB (room_id name : string) : t :=
  mk room_id name (Some (lower "living_space")) 4 [].

End RoomDB.

Module PersonDB.

(** A row of [people].  [fellow] is [Some w] when the ORM object is a
    [FellowDB] carrying [wants_accommodation = w]. *)
Record t : Type := mk {
  id : string;
  name : string;
  type : string;
  office_id : value;
  living_space_id : value;
  fellow : option bool
}.

Definition StaffDB (person_id name : string) : t :=
  mk person_id name (upper "STAFF") PNone PNone None.

Definition FellowDB (person_id name : string) (wants_accommodation : bool) : t :=
  mk person_id name (upper "FELLOW") PNone PNone (Some wants_accommodation).

Definition set_office_id (v : value) (r : t) : t :=
  mk (id r) (name r) (type r) v (living_space_id r) (fellow r).

Definition set_living_space_id (v : value) (r : t) : t :=
  mk (id r) (name r) (type r) (office_id r) v (fellow r).

End PersonDB.

Module DB.

Definition to_db_person (person : Person.t) : PersonDB.t :=
  let db_person :=
    match Person.person_type person with
    | STAFF => PersonDB.StaffDB (Person.person_id person) (Person.name person)
    | FELLOW =>
        PersonDB.FellowDB (Person.person_id person) (Person.name person)
                          (default false (Person.wants_accommodation person))
    end in
  let db_person :=
    if truthy (Person.office_allocated person)
    then PersonDB.set_office_id (Person.office_allocated person) db_person
    else db_person in
  match Person.living_space_allocated person with
  | Some v => if truthy v then PersonDB.set_living_space_id v db_person
              else db_person
  | None => db_person
  end.

(** The class of a room object and its [room_type] always agree, so the
    first two branches of the source cover every room. *)
Definition to_db_room (room : Room.t) : RoomDB.t :=
  let room_id := replace_space (lower (Room.name room)) in
  match Room.room_type room with
  | office => RoomDB.OfficeDB room_id (Room.name room)
  | living_space => RoomDB.LivingSpaceDB room_id (Room.name room)
  end.

(** Appends the person to [people] and returns its reference. *)
Definition to_domain_person (db_person : PersonDB.t) (d : Dojo.t)
    : nat * Dojo.t :=
  let uuid := PersonDB.id db_person in
  let person :=
    match PersonDB.fellow db_person with
    | Some w => Person.Fellow (PersonDB.name db_person) (PBool w) uuid
    | None =>
        if bool_decide (PersonDB.type db_person = "STAFF")
        then Person.Staff (PersonDB.name db_person) uuid
        else Person.Fellow (PersonDB.name db_person) (PBool false) uuid
    end in
  let person :=
    if truthy (PersonDB.office_id db_person)
    then Person.set_office_allocated (PersonDB.office_id db_person) person
    else person in
  let person :=
    if truthy (PersonDB.living_space_id db_person)
    then Person.set_living_space_allocated (PersonDB.living_space_id db_person) person
    else person in
  (length (Dojo.people d), Dojo.set_people (Dojo.people d ++ [person]) d).

(** The kind of room built for a row: the discriminator first, the capacity
    as a fallback, [None] for the [ValueError]. *)
Definition room_kind_of_row (db_room : RoomDB.t) : option RoomType :=
  let room_type :=
    match RoomDB.type db_room with
    | Some s => if bool_decide (s = "") then None else Some s
    | None => None
    end in
  if bool_decide (room_type = Some "office") then Some office
  else if bool_decide (room_type = Some "living_space")
          || bool_decide (room_type = Some "living space")
  then Some living_space
  else if bool_decide (RoomDB.capacity db_room = 6%Z) then Some office
  else if bool_decide (RoomDB.capacity db_room = 4%Z) then Some living_space
  else None.

Definition to_domain_room (db_room : RoomDB.t) (d : Dojo.t)
    : outcome Room.t * Dojo.t :=
  let room_name := RoomDB.name db_room in
  match list_find (λ o, Room.name o = room_name) (Dojo.offices d) with
  | Some (_, existing_room) => (Ret existing_room, d)
  | None =>
      match list_find (λ o, Room.name o = room_name) (Dojo.living_spaces d) with
      | Some (_, existing_room) => (Ret existing_room, d)
      | None =>
          match room_kind_of_row db_room with
          | None => (Raise ValueError, d)
          | Some k =>
              let room := match k with
                          | office => Room.Office room_name
                          | living_space => Room.LivingSpace room_name
                          end in
              let room :=
                foldl (λ r occupant_id, (Room.add_occupant r (Some occupant_id)).2)
                      room (RoomDB.occupants db_room) in
              (Ret room, Dojo.set_rooms k (Dojo.rooms_of k d ++ [room]) d)
          end
      end
  end.

(** ** The storage service ([models/db/service.py]) *)

(** What the two queries of [load_state] return, or the error they raise. *)
Record store : Type := mkStore {
  rooms : outcome (list RoomDB.t);
  persons : outcome (list PersonDB.t)
}.

(** A path names nothing, a directory, or a regular file.  [header] is what
    [f.read(16)] returns, [None] when opening or reading fails. *)
Inductive node : Type :=
| Directory
| File (header : option string) (content : store).

Definition filesystem : Type := string → option node.

Definition sqlite_header : string :=
  "SQLite format 3" +:+ String Ascii.zero EmptyString.

Definition _is_valid_sqlite_db (fs : filesystem) (file_path : string) : bool :=
  match fs file_path with
  | Some (File (Some header) _) => bool_decide (header = sqlite_header)
  | _ => false
  end.

(** The rows [save_state] adds to the session: rooms (offices, then living
    spaces), then people.  No row is given occupants.  These are the
    objects built in memory; what a later [load_state] reads from the file
    has gone through the ORM and its queries. *)
Definition saved_store (d : Dojo.t) : store :=
  mkStore (Ret (to_db_room <$> (Dojo.offices d ++ Dojo.living_spaces d)))
          (Ret (to_db_person <$> Dojo.people d)).

(** The loop over [room_dbs].  The room returned by [to_domain_room] is
    already in the list of its kind, so neither [append] below is taken; when
    taken it would add a second reference to the same object. *)
Fixpoint load_rooms (room_dbs : list RoomDB.t) (loaded_rooms : list string)
    (d : Dojo.t) : outcome unit * Dojo.t :=
  match room_dbs with
  | [] => (Ret (), d)
  | room_db :: rest =>
      if bool_decide (RoomDB.name room_db ∈ loaded_rooms)
      then load_rooms rest loaded_rooms d
      else
        match to_domain_room room_db d with
        | (Raise e, d1) => (Raise e, d1)
        | (Ret room, d1) =>
            let k := Room.room_type room in
            let d2 :=
              if bool_decide (Exists (λ r, Room.name r = Room.name room)
                                     (Dojo.rooms_of k d1))
              then d1
              else Dojo.set_rooms k (Dojo.rooms_of k d1 ++ [room]) d1 in
            load_rooms rest (RoomDB.name room_db :: loaded_rooms) d2
        end
  end.

Definition load_person (d : Dojo.t) (person_db : PersonDB.t) : Dojo.t :=
  match list_find (λ p, Person.person_id p = PersonDB.id person_db)
                  (Dojo.people d) with
  | Some _ => d
  | None =>
      let '(ref, d1) := to_domain_person person_db d in
      match Person.person_type <$> Dojo.people d1 !! ref with
      | Some FELLOW =>
          if bool_decide (ref ∈ Dojo.fellows d1) then d1
          else Dojo.mk (Dojo.offices d1) (Dojo.living_spaces d1) (Dojo.people d1)
                       (Dojo.staff d1) (Dojo.fellows d1 ++ [ref])
      | _ =>
          if bool_decide (ref ∈ Dojo.staff d1) then d1
          else Dojo.mk (Dojo.offices d1) (Dojo.living_spaces d1) (Dojo.people d1)
                       (Dojo.staff d1 ++ [ref]) (Dojo.fellows d1)
      end
  end.

(** [DatabaseService.load_state(dojo, db_path)]: the result and the state of
    [dojo] afterwards. *)
Definition load_state (d : Dojo.t) (fs : filesystem) (db_path : string)
    : bool * Dojo.t :=
  match fs db_path with
  | None => (false, d)
  | Some nd =>
      if negb (_is_valid_sqlite_db fs db_path) then (false, d)
      else
        match nd with
        | Directory => (false, d)
        | File _ st =>
            let d0 := Dojo.init in
            match rooms st with
            | Raise _ => (false, d0)
            | Ret room_dbs =>
                match load_rooms room_dbs [] d0 with
                | (Raise _, d1) => (false, d1)
                | (Ret _, d1) =>
                    match persons st with
                    | Raise _ => (false, d1)
                    | Ret person_dbs => (true, foldl load_person d1 person_dbs)
                    end
                end
            end
        end
  end.

End DB.

(** ** The application layer ([cli.py]) *)

Module DojoApp.

Definition create_room (d : Dojo.t) (room_type : string)
    (room_names : Dojo.room_names) : bool * Dojo.t :=
  match Dojo.parse_room_type room_type with
  | None => (false, d)
  | Some _ => Dojo.create_room d room_type room_names
  end.

Definition add_person (d : Dojo.t) (name person_type wants_accommodation : string)
    (uuid : string) (r1 r2 : nat) : outcome bool * Dojo.t :=
  let person_type := upper person_type in
  match Dojo.parse_person_type person_type with
  | None => (Ret false, d)
  | Some k =>
      let wants_accommodation := upper wants_accommodation in
      if negb (bool_decide (wants_accommodation = "Y")
               || bool_decide (wants_accommodation = "N"))
      then (Ret false, d)
      else if bool_decide (k = STAFF) && bool_decide (wants_accommodation = "Y")
      then (Ret false, d)
      else Dojo.add_person d name person_type (PStr wants_accommodation) uuid r1 r2
  end.

(** The outcome of the search for the new room. *)
Inductive target : Type :=
| Found (new_room_type : RoomType) (i : nat) (new_room : Room.t)
| Ineligible
| NotFound.

Definition find_new_room (d : Dojo.t) (person : Person.t)
    (new_room_name : string) : target :=
  match list_find (λ o, lower (Room.name o) = lower new_room_name)
                  (Dojo.offices d) with
  | Some (i, o) => Found office i o
  | None =>
      match list_find (λ o, lower (Room.name o) = lower new_room_name)
                      (Dojo.living_spaces d) with
      | Some (i, ls) =>
          if Person.fellow_wanting person then Found living_space i ls
          else Ineligible
      | None => NotFound
      end
  end.

Definition set_allocated (k : RoomType) (v : value) : Person.t → Person.t :=
  match k with
  | office => Person.set_office_allocated v
  | living_space => Person.set_living_space_allocated v
  end.

(** The [try] block of [reallocate_person].  [person] and [ti] are the
    references of the person and of the new room, [current] the current room
    with its reference.  A [ValueError] of [remove] is caught by the handler,
    which returns [False]; nothing has been written at that point. *)
Definition perform_reallocation (d : Dojo.t) (k : RoomType) (person : nat)
    (person_id : string) (current : option (nat * Room.t)) (ti : nat)
    (new_room : Room.t) : outcome bool * Dojo.t :=
  let removed :=
    match current with
    | None => Some d
    | Some (ci, current_room) =>
        l ← list_remove person_id (Room.occupants current_room);
        let d1 := Dojo.alter_room k ci (λ r, Room.set_occupants r l) d in
        Some (Dojo.alter_person person
                (set_allocated (Room.room_type current_room) (PBool false)) d1)
    end in
  match removed with
  | None => (Ret false, d)
  | Some d2 =>
      let d3 := Dojo.alter_room k ti
                  (λ r, Room.set_occupants r (Room.occupants r ++ [person_id])) d2 in
      (Ret true,
       Dojo.alter_person person
         (set_allocated (Room.room_type new_room) (PBool true)) d3)
  end.

Definition reallocate_person (d : Dojo.t) (person_id new_room_name : string)
    : outcome bool * Dojo.t :=
  match list_find (λ p, Person.person_id p = person_id) (Dojo.people d) with
  | None => (Ret false, d)
  | Some (pi, person) =>
      match find_new_room d person new_room_name with
      | Ineligible | NotFound => (Ret false, d)
      | Found new_room_type ti new_room =>
          if bool_decide (Room.capacity new_room ≤ length (Room.occupants new_room))
          then (Ret false, d)
          else
            let rooms_to_check := Dojo.rooms_of new_room_type d in
            let current :=
              list_find (λ room, person_id ∈ Room.occupants room) rooms_to_check in
            match current with
            | Some (_, current_room) =>
                if bool_decide (lower (Room.name current_room)
                                = lower (Room.name new_room))
                then (Ret false, d)
                else perform_reallocation d new_room_type pi person_id current
                                          ti new_room
            | None =>
                perform_reallocation d new_room_type pi person_id current
                                     ti new_room
            end
      end
  end.

(** [DojoApp.load_state]: [self.dojo] is replaced by a new [Dojo] once the
    file has passed both checks. *)
Definition load_state (d : Dojo.t) (fs : DB.filesystem) (db_path : string)
    : bool * Dojo.t :=
  match fs db_path with
  | None => (false, d)
  | Some _ =>
      if negb (DB._is_valid_sqlite_db fs db_path) then (false, d)
      else DB.load_state Dojo.init fs db_path
  end.

End DojoApp.

(** ** Sequences of operations *)

Inductive Op : Type :=
| CreateRoom (room_type : string) (room_names : Dojo.room_names)
| AddPerson (name person_type : string) (wants_accommodation : value)
            (uuid : string) (r1 r2 : nat)
| ReallocatePerson (person_id new_room_name : string).

(** The state after one call; a call that raises leaves what it had written. *)
Definition step (d : Dojo.t) (o : Op) : Dojo.t :=
  match o with
  | CreateRoom room_type room_names => (Dojo.create_room d room_type room_names).2
  | AddPerson name person_type wants uuid r1 r2 =>
      (Dojo.add_person d name person_type wants uuid r1 r2).2
  | ReallocatePerson person_id new_room_name =>
      (DojoApp.reallocate_person d person_id new_room_name).2
  end.

Definition run (ops : list Op) : Dojo.t := foldl step Dojo.init ops.

(** [uuid4] yields an identifier that is not yet in use. *)
Definition fresh_op (d : Dojo.t) (o : Op) : bool :=
  match o with
  | AddPerson _ _ _ uuid _ _ =>
      negb (bool_decide (uuid ∈ Person.person_id <$> Dojo.people d))
  | _ => true
  end.

Fixpoint fresh_from (d : Dojo.t) (ops : list Op) : bool :=
  match ops with
  | [] => true
  | o :: rest => fresh_op d o && fresh_from (step d o) rest
  end.

Definition fresh (ops : list Op) : bool := fresh_from Dojo.init ops.

(** ** Reports ([cli.py]) *)

Module Reports.

(** [hasattr(person, 'wants_accommodation') and person.wants_accommodation
    and not person.living_space_allocated]; [None] stands for the
    [AttributeError] of a person that wants accommodation and has no
    [living_space_allocated] attribute. *)
Definition misses_living_space (person : Person.t) : option bool :=
  match Person.wants_accommodation person with
  | None | Some false => Some false
  | Some true =>
      v ← Person.living_space_allocated person; Some (negb (truthy v))
  end.

(** The test of the first loop of [print_unallocated]. *)
Definition is_unallocated (person : Person.t) : option bool :=
  if negb (truthy (Person.office_allocated person)) then Some true
  else misses_living_space person.

Fixpoint collect_unallocated (people : list Person.t) : option (list Person.t) :=
  match people with
  | [] => Some []
  | person :: rest =>
      b ← is_unallocated person;
      unallocated ← collect_unallocated rest;
      Some (if b : bool then person :: unallocated else unallocated)
  end.

(** [', '.join(reasons)] for the at most two reasons. *)
Definition reasons (person : Person.t) : option string :=
  m ← misses_living_space person;
  Some match negb (truthy (Person.office_allocated person)), m with
       | true, true => "office, living space"
       | true, false => "office"
       | false, true => "living space"
       | false, false => ""
       end.

Definition unallocated_line (person : Person.t) : option string :=
  r ← reasons person;
  Some ("- " +:+ Person.name person +:+ " (missing: " +:+ r +:+ ")").

(** ["=" * 50] *)
Definition rule : string :=
  "==================================================".

(** [print_unallocated]: the lines of the report and the value returned. *)
Definition print_unallocated (d : Dojo.t) : option (list string * bool) :=
  unallocated ← collect_unallocated (Dojo.people d);
  lines ← match unallocated with
          | [] => Some ["No unallocated people."]
          | _ => mapM unallocated_line unallocated
          end;
  Some ("Unallocated People" :: rule :: lines,
        negb (bool_decide (unallocated = []))).

(** [next((p for p in self.dojo.people if p.person_id == occupant_id), None)] *)
Definition find_person (d : Dojo.t) (occupant_id : string) : option Person.t :=
  snd <$> list_find (λ p, Person.person_id p = occupant_id) (Dojo.people d).

(** The loop [for occupant_id in room.occupants] of [print_room] and of
    [print_allocations]: a line, built by [fmt], for each id that a person
    bears; an id that nobody bears is passed over. *)
Definition occupant_lines (fmt : Person.t → string) (d : Dojo.t)
    (room : Room.t) : list string :=
  occupant_id ← Room.occupants room;
  match find_person d occupant_id with
  | Some person => [fmt person]
  | None => []
  end.

Definition person_type_name (t : PersonType) : string :=
  match t with FELLOW => "FELLOW" | STAFF => "STAFF" end.

Definition room_line (person : Person.t) : string :=
  "  - " +:+ Person.name person
  +:+ " (" +:+ person_type_name (Person.person_type person) +:+ ")".

(** [print_room]: the lines printed. *)
Definition print_room (d : Dojo.t) (room_name : string) : list string :=
  let room :=
    match list_find (λ o, lower (Room.name o) = lower room_name)
                    (Dojo.offices d) with
    | Some (_, o) => Some o
    | None =>
        snd <$> list_find (λ o, lower (Room.name o) = lower room_name)
                          (Dojo.living_spaces d)
    end in
  match room with
  | None => ["Room '" +:+ room_name +:+ "' not found."]
  | Some room =>
      ["Room: " +:+ Room.name room;
       "Type: " +:+ match Room.room_type room with
                    | office => "Office"
                    | living_space => "Living Space"
                    end;
       "Occupants:"]
      ++ occupant_lines room_line d room
  end.

Definition newline : string := String (ascii_of_nat 10) EmptyString.

(** The entry of a room in [print_allocations]: its name with the number of
    occupants and the capacity, then the names of the occupants. *)
Definition room_header (room : Room.t) : string :=
  newline +:+ Room.name room
  +:+ " (" +:+ pretty (length (Room.occupants room))
  +:+ "/" +:+ pretty (Room.capacity room) +:+ "):".

Definition allocation_line (person : Person.t) : string :=
  "  - " +:+ Person.name person.

Definition room_entry (d : Dojo.t) (room : Room.t) : list string :=
  room_header room :: occupant_lines allocation_line d room.

(** [print_allocations]: the list [output], which is printed, or written to
    the file, joined by line feeds. *)
Definition print_allocations (d : Dojo.t) : list string :=
  let output :=
    match Dojo.offices d with
    | [] => []
    | offices => "OFFICES" :: rule :: (o ← offices; room_entry d o)
    end in
  let output :=
    output ++
    match Dojo.living_spaces d with
    | [] => []
    | living_spaces =>
        (newline +:+ "LIVING SPACES") :: rule
        :: (ls ← living_spaces; room_entry d ls)
    end in
  match output with
  | [] => ["No room allocations to display."]
  | _ => output
  end.

End Reports.

(** ** Loading people from a text file ([cli.py]) *)

Module Loader.

(** [s.lstrip()], [s.rstrip()], [s.strip()] *)
Fixpoint lstrip (s : string) : string :=
  match s with
  | EmptyString => EmptyString
  | String c rest => if isspace c then lstrip rest else s
  end.

Definition rstrip (s : string) : string := String.rev (lstrip (String.rev s)).

Definition strip (s : string) : string := rstrip (lstrip s).

(** [s.startswith('#')] *)
Definition startswith_hash (s : string) : bool :=
  match s with
  | String c _ => bool_decide (c = "#"%char)
  | EmptyString => false
  end.

(** [' '.join(l)] *)
Fixpoint join (l : list string) : string :=
  match l with
  | [] => ""
  | [x] => x
  | x :: rest => x +:+ " " +:+ join rest
  end.

(** The body of the loop of [load_people] up to the call of [add_person]:
    the name, the kind and the accommodation option read from a line, [None]
    when the line is passed over. *)
Definition parse_line (line : string) : option (string * string * string) :=
  let line := strip line in
  if bool_decide (line = "") || startswith_hash line then None
  else
    let parts := split line in
    if bool_decide (length parts < 2) then None
    else
      let last_part := upper (default "" (last parts)) in
      let '(wants_accommodation, person_type, name) :=
        if bool_decide (last_part = "Y") || bool_decide (last_part = "N")
        then (last_part,
              upper (default "" (parts !! (length parts - 2))),
              join (take (length parts - 2) parts))
        else ("N", last_part, join (take (length parts - 1) parts)) in
      if bool_decide (person_type = "FELLOW") || bool_decide (person_type = "STAFF")
      then Some (name, person_type, wants_accommodation)
      else None.

(** The loop over the lines.  [gen n] gives what [uuid4] and the two calls
    of [random.choice] yield in the call of [add_person] number [n]. *)
Fixpoint load_people_loop (lines : list string) (gen : nat → string * nat * nat)
    (calls added_count : nat) (d : Dojo.t) : outcome nat * Dojo.t :=
  match lines with
  | [] => (Ret added_count, d)
  | line :: rest =>
      match parse_line line with
      | None => load_people_loop rest gen calls added_count d
      | Some (name, person_type, wants_accommodation) =>
          let '(uuid, r1, r2) := gen calls in
          match DojoApp.add_person d name person_type wants_accommodation
                                   uuid r1 r2 with
          | (Raise e, d') => (Raise e, d')
          | (Ret success, d') =>
              load_people_loop rest gen (S calls)
                (if success then S added_count else added_count) d'
          end
      end
  end.

(** [files filename] is what [readlines] returns, [None] when the file
    cannot be opened or read.  An exception of [add_person] ends the loop in
    the handler, which returns [False]. *)
Definition load_people (d : Dojo.t) (files : string → option (list string))
    (filename : string) (gen : nat → string * nat * nat) : bool * Dojo.t :=
  match files filename with
  | None => (false, d)
  | Some lines =>
      match load_people_loop lines gen 0 0 d with
      | (Raise _, d') => (false, d')
      | (Ret added_count, d') => (bool_decide (0 < added_count), d')
      end
  end.

End Loader.

(** * Vocabulary of the properties *)

(** A store with no readable [rooms] table. *)
Definition unreadable : DB.store :=
  DB.mkStore (Raise SQLAlchemyError) (Raise SQLAlchemyError).

(** The capacity the constructors [Office] and [LivingSpace] fix. *)
Definition room_capacity (k : RoomType) : nat :=
  match k with office => 6 | living_space => 4 end.

Definition within_capacity (k : RoomType) (r : Room.t) : Prop :=
  Room.capacity r = room_capacity k
  ∧ length (Room.occupants r) ≤ room_capacity k.

(** Every room has the capacity of its kind and no more occupants. *)
Definition capacity_ok (d : Dojo.t) : Prop :=
  ∀ k, Forall (within_capacity k) (Dojo.rooms_of k d).

(** The room [create_room] builds for a name. *)
Definition new_room (k : RoomType) (name : string) : Room.t :=
  match k with
  | office => Room.Office name
  | living_space => Room.LivingSpace name
  end.

(** A room of the list of kind [k] has that kind and lists no occupant
    twice. *)
Definition room_ok (k : RoomType) (r : Room.t) : Prop :=
  Room.room_type r = k ∧ NoDup (Room.occupants r).

(** [pid] is the id of a registered person who may occupy a room of kind [k]. *)
Definition eligible (k : RoomType) (d : Dojo.t) (pid : string) : Prop :=
  ∃ j p, Dojo.people d !! j = Some p ∧ Person.person_id p = pid
         ∧ (k = living_space → Person.fellow_wanting p = true).

(** [pid] may be added to a room of kind [k]: it is eligible and in no room of
    that kind. *)
Definition admissible (k : RoomType) (d : Dojo.t) (pid : string) : Prop :=
  (∀ j rj, Dojo.rooms_of k d !! j = Some rj → pid ∉ Room.occupants rj)
  ∧ eligible k d pid.

(** The invariant: rooms are well kinded; names are unique up to case over
    both kinds; an id is in at most one room of each kind; occupants are
    registered people, fellows wanting accommodation in living spaces; ids
    are unique; staff have no [living_space_allocated] attribute. *)
Record well_formed (d : Dojo.t) : Prop := WellFormed {
  wf_rooms : ∀ k, Forall (room_ok k) (Dojo.rooms_of k d);
  wf_names : ∀ k1 k2 i j r1 r2,
    Dojo.rooms_of k1 d !! i = Some r1 → Dojo.rooms_of k2 d !! j = Some r2 →
    lower (Room.name r1) = lower (Room.name r2) → k1 = k2 ∧ i = j;
  wf_exclusive : ∀ k i j ri rj pid,
    Dojo.rooms_of k d !! i = Some ri → Dojo.rooms_of k d !! j = Some rj →
    pid ∈ Room.occupants ri → pid ∈ Room.occupants rj → i = j;
  wf_known : ∀ k i r pid,
    Dojo.rooms_of k d !! i = Some r → pid ∈ Room.occupants r → eligible k d pid;
  wf_ids : NoDup (Person.person_id <$> Dojo.people d);
  wf_staff : Forall (λ p, Person.person_type p = STAFF →
                          Person.living_space_allocated p = None)
                    (Dojo.people d)
}.

(** What an update of a person may change: the two allocation attributes,
    the second one on a fellow only. *)
Definition keeps_identity (p p' : Person.t) : Prop :=
  Person.person_id p' = Person.person_id p
  ∧ Person.person_type p' = Person.person_type p
  ∧ Person.wants_accommodation p' = Person.wants_accommodation p
  ∧ (Person.person_type p = STAFF →
     Person.living_space_allocated p' = Person.living_space_allocated p).

(** What identifies a room, and a person, whatever the allocations. *)
Definition room_identity (r : Room.t) : string * RoomType * nat :=
  (Room.name r, Room.room_type r, Room.capacity r).

Definition person_identity (p : Person.t)
    : string * string * PersonType * option bool :=
  (Person.name p, Person.person_id p, Person.person_type p,
   Person.wants_accommodation p).

(** Room names are pairwise distinct, ignoring case, over both kinds. *)
Definition names_unique (d : Dojo.t) : Prop :=
  NoDup ((λ r, lower (Room.name r)) <$> (Dojo.offices d ++ Dojo.living_spaces d)).

(** The names [create_room] skips. *)
Definition blank (name : string) : bool :=
  bool_decide (name = "") || strip_is_empty name.

(** [d'] has the rooms and the people of [d], up to occupants and
    allocations. *)
Definition same_registry (d d' : Dojo.t) : Prop :=
  (∀ k, room_identity <$> Dojo.rooms_of k d' = room_identity <$> Dojo.rooms_of k d)
  ∧ person_identity <$> Dojo.people d' = person_identity <$> Dojo.people d
  ∧ Dojo.staff d' = Dojo.staff d
  ∧ Dojo.fellows d' = Dojo.fellows d.

(** The arguments [add_person] accepts: a fellow, or a staff member who does
    not ask for accommodation with a string that reads [Y]. *)
Definition accepted (person_type : string) (wants : value) : Prop :=
  upper person_type = "FELLOW"
  ∨ (upper person_type = "STAFF" ∧ ∀ s, wants = PStr s → upper s ≠ "Y").

(** Whether a fellow built with [wants] wants accommodation. *)
Definition wants_yes (wants : value) : bool :=
  match wants with
  | PStr s => bool_decide (upper s = "Y")
  | v => truthy v
  end.

(** The person [add_person] builds, [None] when it refuses. *)
Definition new_person (name : string) (k : PersonType) (wants : value)
    (uuid : string) : option Person.t :=
  match k with
  | FELLOW => Some (Person.Fellow name wants uuid)
  | STAFF =>
      match wants with
      | PStr s => if bool_decide (upper s = "Y") then None
                  else Some (Person.Staff name uuid)
      | _ => Some (Person.Staff name uuid)
      end
  end.

(** The allocation attribute of a person for a kind of room; a person
    without the attribute for living spaces counts as unallocated. *)
Definition alloc (k : RoomType) (p : Person.t) : value :=
  match k with
  | office => Person.office_allocated p
  | living_space => default PNone (Person.living_space_allocated p)
  end.

(** [pid] is an occupant of a room of kind [k] named [n]. *)
Definition housed_in (k : RoomType) (d : Dojo.t) (pid n : string) : Prop :=
  ∃ j r, Dojo.rooms_of k d !! j = Some r ∧ Room.name r = n
         ∧ pid ∈ Room.occupants r.

(** [pid] is an occupant of some room of kind [k]. *)
Definition housed (k : RoomType) (d : Dojo.t) (pid : string) : Prop :=
  ∃ n, housed_in k d pid n.

(** The allocation attribute of [p] agrees with the occupancy: a recorded
    name is that of a room holding the id, [True] goes with some room
    holding it, anything else with none. *)
Definition alloc_ok (k : RoomType) (d : Dojo.t) (p : Person.t) : Prop :=
  match alloc k p with
  | PStr n => housed_in k d (Person.person_id p) n
  | PBool true => housed k d (Person.person_id p)
  | _ => ¬ housed k d (Person.person_id p)
  end.

(** The attributes the class of a person gives it. *)
Definition class_ok (p : Person.t) : Prop :=
  match Person.person_type p with
  | FELLOW => is_Some (Person.wants_accommodation p)
              ∧ is_Some (Person.living_space_allocated p)
  | STAFF => Person.wants_accommodation p = None
             ∧ Person.living_space_allocated p = None
  end.

Definition allocs_ok (d : Dojo.t) : Prop :=
  (∀ i p k, Dojo.people d !! i = Some p → alloc_ok k d p)
  ∧ Forall class_ok (Dojo.people d)
  ∧ ∀ k, Forall (λ r, Room.name r ≠ "") (Dojo.rooms_of k d).

(** Two rooms with the same name and, but for [pid], the same occupants. *)
Definition room_agrees (pid : string) (r r' : Room.t) : Prop :=
  Room.name r' = Room.name r
  ∧ ∀ x, x ≠ pid → (x ∈ Room.occupants r' ↔ x ∈ Room.occupants r).

Definition rooms_agree (pid : string) (d d' : Dojo.t) : Prop :=
  ∀ k, Forall2 (room_agrees pid) (Dojo.rooms_of k d) (Dojo.rooms_of k d').

(** Every identifier drawn is a non-empty string. *)
Definition nonempty_ids (ops : list Op) : bool :=
  forallb (λ o, match o with
                | AddPerson _ _ _ uuid _ _ => negb (bool_decide (uuid = ""))
                | _ => true
                end) ops.

(** What [print_unallocated] tests on a person whose attributes are those of
    its class: no office, or accommodation wanted and no living space. *)
Definition lacks_room (p : Person.t) : bool :=
  negb (truthy (Person.office_allocated p))
  || (default false (Person.wants_accommodation p)
      && negb (from_option truthy false (Person.living_space_allocated p))).

(** An allocation attribute that is empty or holds a name. *)
Definition named (v : value) : Prop := v = PNone ∨ ∃ n, v = PStr n.

Definition names_recorded (d : Dojo.t) : Prop :=
  Forall (λ p, ∀ k, named (alloc k p)) (Dojo.people d).

(** A sequence of calls without [reallocate_person]. *)
Definition no_reallocation (ops : list Op) : bool :=
  forallb (λ o, match o with ReallocatePerson _ _ => false | _ => true end) ops.

(** The references of the people of kind [t], in order; [i] is the reference
    of the head of the list. *)
Fixpoint refs_from (t : PersonType) (i : nat) (people : list Person.t)
    : list nat :=
  match people with
  | [] => []
  | p :: rest =>
      if decide (Person.person_type p = t) then i :: refs_from t (S i) rest
      else refs_from t (S i) rest
  end.

(** What [reallocate_person] asks of a move: the person is registered, the
    name designates, ignoring case, a room the person may occupy, the room is
    not full and the person is not in it. *)
Definition can_move (d : Dojo.t) (pid new_room_name : string) : Prop :=
  ∃ i p k j room,
    Dojo.people d !! i = Some p ∧ Person.person_id p = pid
    ∧ Dojo.rooms_of k d !! j = Some room
    ∧ lower (Room.name room) = lower new_room_name
    ∧ (k = living_space → Person.fellow_wanting p = true)
    ∧ Room.is_full room = false
    ∧ pid ∉ Room.occupants room.

(** A person as the classes build it, whose allocation attributes hold
    nothing or the name of a room. *)
Definition storable (p : Person.t) : Prop :=
  class_ok p ∧ ∀ k, alloc k p = PNone ∨ ∃ n, alloc k p = PStr n ∧ n ≠ "".

(** What holds of an instance filled by [load_state]: room names are
    pairwise distinct over both kinds, rooms have the kind of their list, the
    capacity of their kind, no more occupants and none twice; person ids are
    pairwise distinct; [staff] and [fellows] list the people of each kind. *)
Record loaded_ok (d : Dojo.t) : Prop := LoadedOk {
  lo_names : NoDup (Room.name <$> (Dojo.offices d ++ Dojo.living_spaces d));
  lo_rooms : ∀ k, Forall (room_ok k) (Dojo.rooms_of k d);
  lo_capacity : capacity_ok d;
  lo_ids : NoDup (Person.person_id <$> Dojo.people d);
  lo_staff : Dojo.staff d = refs_from STAFF 0 (Dojo.people d);
  lo_fellows : Dojo.fellows d = refs_from FELLOW 0 (Dojo.people d)
}.

(** Whether the character [c] occurs in [s]. *)
Fixpoint has_char (c : ascii) (s : string) : bool :=
  match s with
  | EmptyString => false
  | String c' rest => bool_decide (c' = c) || has_char c rest
  end.

(** The arguments [DojoApp.add_person] lets through: a fellow with [Y] or
    [N], a staff member with [N], in any case of the letters. *)
Definition app_accepts (person_type wants : string) : Prop :=
  (upper person_type = "FELLOW" ∧ (upper wants = "Y" ∨ upper wants = "N"))
  ∨ (upper person_type = "STAFF" ∧ upper wants = "N").

(** [persons] are registered people who bear the ids [ids], in that order. *)
Definition bearers (d : Dojo.t) (ids : list string) (persons : list Person.t)
    : Prop :=
  Forall2 (λ pid p, p ∈ Dojo.people d ∧ Person.person_id p = pid) ids persons.

(** What [load_people] reads from the lines it does not pass over: the
    name, the kind and the accommodation option of each. *)
Definition entries (lines : list string) : list (string * string * string) :=
  omap Loader.parse_line lines.

(** An entry that [load_people] turns into a person: any but a staff member
    with [Y]. *)
Definition admitted (e : string * string * string) : bool :=
  negb (bool_decide (e.1.2 = "STAFF") && bool_decide (e.2 = "Y")).

(** The kind of room that the argument [room_type] of [create_room] names. *)
Definition kind_named (room_type : string) (k : RoomType) : Prop :=
  room_type = match k with office => "office" | living_space => "living_space" end.

(** The names that the argument [room_names] of [create_room] asks for. *)
Definition requested (names : Dojo.room_names) (n : string) : Prop :=
  match names with
  | Dojo.NamesStr s => n = s
  | Dojo.NamesList l => PStr n ∈ l
  | Dojo.NamesOther => False
  end.

(** The entry of a room in the listing of allocations when its occupants
    are the people [persons]: the heading, with their number and the
    capacity of the room, then their names. *)
Definition entry_of (room : Room.t) (persons : list Person.t) : list string :=
  (Reports.newline +:+ Room.name room
   +:+ " (" +:+ pretty (length persons)
   +:+ "/" +:+ pretty (Room.capacity room) +:+ "):")
  :: ((λ p, "  - " +:+ Person.name p) <$> persons).

(** The part of the listing for the rooms of one kind, [persons] giving the
    occupants of each; there is none without a room of the kind. *)
Definition section_of (title : string) (rooms : list Room.t)
    (persons : list (list Person.t)) : list string :=
  match rooms with
  | [] => []
  | _ => title :: Reports.rule :: concat (zip_with entry_of rooms persons)
  end.

(** * Properties *)

(** ** Rooms *)

(** C10: on a room that still has space, [add_occupant] called with [None] or
    with the empty string returns [False] and leaves the room as it was. *)
Theorem add_occupant_rejects_empty_id (r : Room.t) (person_id : option string) :
  Room.is_full r = false →
  person_id = None ∨ person_id = Some "" →
  Room.add_occupant r person_id = (false, r).
Proof.
  intros _ [-> | ->]; reflexivity.
Qed.

Lemma add_occupant_rejects_empty_id_witness :
  Room.is_full (Room.Office "Blue") = false
  ∧ Room.add_occupant (Room.Office "Blue") (Some "")
    = (false, Room.Office "Blue").
Proof.
  split; [reflexivity |].
  apply add_occupant_rejects_empty_id; [reflexivity | right; reflexivity].
Defined.

Lemma add_occupant_length (r : Room.t) (person_id : option string) :
  Room.capacity (Room.add_occupant r person_id).2 = Room.capacity r
  ∧ (length (Room.occupants r) ≤ Room.capacity r →
     length (Room.occupants (Room.add_occupant r person_id).2) ≤ Room.capacity r).
Proof.
  unfold Room.add_occupant, Room.is_full.
  destruct person_id as [pid|]; [| done].
  repeat case_bool_decide; simpl; try done.
  split; [done |]. intros _. rewrite length_app. simpl. lia.
Qed.

(** ** The persistence mapping *)

(** C4 fails on the rows of people.  Ann is assigned the office Blue.  The
    row of Blue has the slug [blue] as its id, as the claim says; the row of
    Ann carries in [office_id], a foreign key to [rooms.id], what
    [office_allocated] holds, the name [Blue]: it is neither null nor the id
    of the row of the room. *)
Theorem office_id_is_not_the_slug :
  let d := run [CreateRoom "office" (Dojo.NamesStr "Blue");
                AddPerson "Ann" "FELLOW" (PStr "N") "a1" 0 0] in
  ∃ p r,
    Dojo.people d !! 0 = Some p ∧ Dojo.offices d !! 0 = Some r
    ∧ Person.person_id p ∈ Room.occupants r
    ∧ Person.office_allocated p = PStr (Room.name r)
    ∧ RoomDB.id (DB.to_db_room r) = replace_space (lower (Room.name r))
    ∧ RoomDB.id (DB.to_db_room r) = "blue"
    ∧ PersonDB.office_id (DB.to_db_person p) = PStr "Blue"
    ∧ PersonDB.office_id (DB.to_db_person p) ≠ PNone
    ∧ PersonDB.office_id (DB.to_db_person p)
      ≠ PStr (RoomDB.id (DB.to_db_room r)).
Proof.
  eexists _, _. split; [reflexivity |]. split; [reflexivity |].
  split; [apply list_elem_of_singleton; reflexivity |].
  split; [reflexivity |]. split; [reflexivity |]. split; [reflexivity |].
  split; [reflexivity |]. split; by vm_compute.
Qed.

(** ** Loading *)

(** C3, amended: when the path names no regular file that starts with the
    SQLite signature, [load_state] returns [False] and the instance is left
    as it was, in the service and in the application. *)
Theorem load_state_rejected_unchanged (d : Dojo.t) (fs : DB.filesystem)
    (db_path : string) :
  DB._is_valid_sqlite_db fs db_path = false →
  DB.load_state d fs db_path = (false, d)
  ∧ DojoApp.load_state d fs db_path = (false, d).
Proof.
  intros H. unfold DB.load_state, DojoApp.load_state.
  rewrite H. by destruct (fs db_path).
Qed.

Lemma load_state_rejected_unchanged_witness :
  let fs : DB.filesystem :=
    λ path, if bool_decide (path = "test_dojo.db")
            then Some (DB.File (Some "not a valid sqli") unreadable)
            else None in
  let d := run [CreateRoom "office" (Dojo.NamesStr "Blue")] in
  DB.load_state d fs "test_dojo.db" = (false, d)
  ∧ DojoApp.load_state d fs "test_dojo.db" = (false, d).
Proof.
  intros fs d. apply load_state_rejected_unchanged. reflexivity.
Defined.

(** C3 as stated fails: a file that starts with the signature but whose
    [rooms] table cannot be read makes [load_state] return [False] after the
    instance has been emptied. *)
Lemma load_state_failure_clears :
  let fs : DB.filesystem :=
    λ path, if bool_decide (path = "test_dojo.db")
            then Some (DB.File (Some DB.sqlite_header) unreadable)
            else None in
  let d := run [CreateRoom "office" (Dojo.NamesStr "Blue")] in
  ∃ d', DB.load_state d fs "test_dojo.db" = (false, d')
        ∧ Dojo.offices d ≠ [] ∧ Dojo.offices d' = [].
Proof.
  eexists. split; [reflexivity |]. split; [by vm_compute | reflexivity].
Qed.

(** The same failure with rows that are read but cannot be rebuilt: the
    first room is loaded, the second raises [ValueError]. *)
Lemma load_state_failure_partial :
  let rows := [RoomDB.OfficeDB "red" "Red"; RoomDB.mk "x" "X" None 5 []] in
  let fs : DB.filesystem :=
    λ _, Some (DB.File (Some DB.sqlite_header)
                       (DB.mkStore (Ret rows) (Ret []))) in
  let d := run [CreateRoom "office" (Dojo.NamesStr "Blue")] in
  ∃ d', DB.load_state d fs "test_dojo.db" = (false, d')
        ∧ Room.name <$> Dojo.offices d = ["Blue"]
        ∧ Room.name <$> Dojo.offices d' = ["Red"].
Proof.
  eexists. split; [reflexivity |]. split; reflexivity.
Qed.

(** What [save_state] writes keeps no occupants: after saving and loading,
    John still records the office Blue, and Blue is empty. *)
Lemma load_state_drops_occupants :
  let d := run [CreateRoom "office" (Dojo.NamesStr "Blue");
                AddPerson "John Doe" "STAFF" (PStr "N") "a1" 0 0] in
  let fs : DB.filesystem :=
    λ _, Some (DB.File (Some DB.sqlite_header) (DB.saved_store d)) in
  ∃ d', DB.load_state Dojo.init fs "test_dojo.db" = (true, d')
        ∧ Room.occupants <$> Dojo.offices d = [["a1"]]
        ∧ Room.occupants <$> Dojo.offices d' = [[]]
        ∧ Person.office_allocated <$> Dojo.people d' = [PStr "Blue"].
Proof.
  eexists. split; [reflexivity |]. repeat split; reflexivity.
Qed.

(** ** Failures *)

Lemma create_room_loop_false (k : RoomType) (names : list value) (c : bool)
    (d : Dojo.t) :
  (Dojo.create_room_loop k names c d).1 = false →
  c = false ∧ (Dojo.create_room_loop k names c d).2 = d.
Proof.
  revert c d. induction names as [|v rest IH]; intros c d; simpl; [done |].
  destruct v as [|name|b]; try apply IH.
  destruct (bool_decide (name = "") || strip_is_empty name); [apply IH |].
  destruct (Dojo.name_exists d name); [apply IH |].
  intros H. by apply IH in H as [? _].
Qed.

(** [create_room] that returns [False] has written nothing. *)
Lemma create_room_false_unchanged (d : Dojo.t) (room_type : string)
    (names : Dojo.room_names) :
  (Dojo.create_room d room_type names).1 = false →
  (Dojo.create_room d room_type names).2 = d.
Proof.
  unfold Dojo.create_room.
  destruct (Dojo.parse_room_type room_type) as [k|]; [| done].
  destruct names as [s|l|]; [| | done]; intros H;
    by apply create_room_loop_false in H as [_ ?].
Qed.

(** [add_person] that returns [False] has written nothing. *)
Lemma add_person_false_unchanged (d d' : Dojo.t) (name person_type : string)
    (wants : value) (uuid : string) (r1 r2 : nat) :
  Dojo.add_person d name person_type wants uuid r1 r2 = (Ret false, d') →
  d' = d.
Proof.
  unfold Dojo.add_person, Dojo.add_person_try.
  destruct (Dojo.parse_person_type _) as [k|]; [| congruence].
  destruct k, wants as [|s|b]; simpl;
    repeat case_bool_decide; simpl;
    repeat match goal with
           | |- context [Dojo._allocate_office ?a ?b ?c] =>
               destruct (Dojo._allocate_office a b c)
           | |- context [split ?s] => destruct (split s)
           | |- context [if ?b then _ else _] => destruct b
           end; congruence.
Qed.

Lemma perform_reallocation_result (d : Dojo.t) (k : RoomType) (person : nat)
    (person_id : string) (current : option (nat * Room.t)) (ti : nat)
    (new_room : Room.t) :
  let res := DojoApp.perform_reallocation d k person person_id current ti new_room in
  res.1 = Ret true ∨ res = (Ret false, d).
Proof.
  unfold DojoApp.perform_reallocation.
  destruct current as [[ci cur]|]; simpl; [| by left].
  destruct (list_remove person_id (Room.occupants cur)); simpl; auto.
Qed.

(** [reallocate_person] never raises, and when it returns [False] it has
    written nothing. *)
Lemma reallocate_person_false_unchanged (d : Dojo.t) (person_id new_room_name : string) :
  let res := DojoApp.reallocate_person d person_id new_room_name in
  res.1 = Ret true ∨ res = (Ret false, d).
Proof.
  unfold DojoApp.reallocate_person.
  destruct (list_find _ (Dojo.people d)) as [[pi person]|]; [| by right].
  destruct (DojoApp.find_new_room d person new_room_name); try by right.
  case_bool_decide; [by right |].
  destruct (list_find _ (Dojo.rooms_of _ d)) as [[ci cur]|];
    [case_bool_decide; [by right |] |];
    apply perform_reallocation_result.
Qed.

(** C6 fails on [add_person]: with an empty name the person is registered
    and given an office, then [name.split()[0]] raises [IndexError]; the
    handler refers to [sys], which [dojo.py] does not import, so the call
    ends in [NameError] with the person left in the instance. *)
Theorem add_person_empty_name_raises :
  let d := run [CreateRoom "office" (Dojo.NamesStr "Blue")] in
  ∃ d',
    Dojo.add_person d "" "FELLOW" (PStr "N") "a1" 0 0 = (Raise NameError, d')
    ∧ DojoApp.add_person d "" "FELLOW" "N" "a1" 0 0 = (Raise NameError, d')
    ∧ Dojo.people d = []
    ∧ Person.person_id <$> Dojo.people d' = ["a1"]
    ∧ Room.occupants <$> Dojo.offices d' = [["a1"]].
Proof.
  eexists. split; [reflexivity |]. repeat split; reflexivity.
Qed.

(** ** Reallocation *)

(** C2 fails on the assignment attribute: John moves from Blue to Red, the
    occupant lists follow, and [office_allocated] holds [True], not Red. *)
Theorem reallocate_person_records_a_boolean :
  let d := run [CreateRoom "office" (Dojo.NamesList [PStr "Blue"; PStr "Red"]);
                AddPerson "John Doe" "STAFF" (PStr "N") "a1" 0 0] in
  ∃ d',
    DojoApp.reallocate_person d "a1" "Red" = (Ret true, d')
    ∧ Room.occupants <$> Dojo.offices d = [["a1"]; []]
    ∧ Person.office_allocated <$> Dojo.people d = [PStr "Blue"]
    ∧ Room.occupants <$> Dojo.offices d' = [[]; ["a1"]]
    ∧ Person.office_allocated <$> Dojo.people d' = [PBool true].
Proof.
  eexists. split; [reflexivity |]. repeat split; reflexivity.
Qed.

(** C5 fails after a reallocation: John's id is among the occupants of Red
    and of no other office, and John's recorded office is not Red. *)
Theorem reallocation_breaks_consistency :
  let d := run [CreateRoom "office" (Dojo.NamesList [PStr "Blue"; PStr "Red"]);
                AddPerson "John Doe" "STAFF" (PStr "N") "a1" 0 0;
                ReallocatePerson "a1" "Red"] in
  ∃ p r,
    Dojo.people d !! 0 = Some p ∧ Dojo.offices d !! 1 = Some r
    ∧ Room.name r = "Red"
    ∧ Person.person_id p ∈ Room.occupants r
    ∧ Person.office_allocated p ≠ PStr (Room.name r).
Proof.
  eexists _, _. split; [reflexivity |]. split; [reflexivity |].
  split; [reflexivity |].
  split; [apply list_elem_of_singleton; reflexivity | by vm_compute].
Qed.

(** C7: when the person's current room of the kind of the target is the room
    the name designates, [reallocate_person] returns [False] and writes
    nothing.  [cur] is the first room of kind [k] that has the id among its
    occupants; its name is [new_room_name] up to case; when [k] is
    [living_space] no office bears that name, so the target is of kind [k]. *)
Theorem reallocate_person_same_room (d : Dojo.t) (person_id new_room_name : string)
    (k : RoomType) (ci : nat) (cur : Room.t) :
  list_find (λ room, person_id ∈ Room.occupants room) (Dojo.rooms_of k d)
    = Some (ci, cur) →
  lower (Room.name cur) = lower new_room_name →
  (k = living_space →
   Forall (λ o, lower (Room.name o) ≠ lower new_room_name) (Dojo.offices d)) →
  DojoApp.reallocate_person d person_id new_room_name = (Ret false, d).
Proof.
  intros Hcur Hname Hkind.
  unfold DojoApp.reallocate_person.
  destruct (list_find _ (Dojo.people d)) as [[pi person]|]; [| done].
  pose proof Hcur as (Hl & _ & _)%list_find_Some.
  unfold DojoApp.find_new_room.
  destruct (list_find (λ o, lower (Room.name o) = lower new_room_name)
                      (Dojo.offices d)) as [[i o]|] eqn:Ho.
  - apply list_find_Some in Ho as (Hlo & Heq & _).
    destruct k.
    + case_bool_decide; [done |]. rewrite Hcur.
      rewrite bool_decide_eq_true_2; [done | congruence].
    + specialize (Hkind eq_refl).
      rewrite Forall_lookup in Hkind. by apply Hkind in Hlo.
  - apply list_find_None in Ho. destruct k.
    + rewrite Forall_lookup in Ho. by apply Ho in Hl.
    + destruct (list_find (λ o, lower (Room.name o) = lower new_room_name)
                          (Dojo.living_spaces d)) as [[i ls]|] eqn:Hls.
      * apply list_find_Some in Hls as (_ & Heq & _).
        destruct (Person.fellow_wanting person); [| done].
        case_bool_decide; [done |]. rewrite Hcur.
        rewrite bool_decide_eq_true_2; [done | congruence].
      * apply list_find_None in Hls. rewrite Forall_lookup in Hls.
        by apply Hls in Hl.
Qed.

Lemma reallocate_person_same_room_witness :
  let d := run [CreateRoom "office" (Dojo.NamesList [PStr "Blue"; PStr "Red"]);
                AddPerson "John Doe" "STAFF" (PStr "N") "a1" 0 0] in
  DojoApp.reallocate_person d "a1" "BLUE" = (Ret false, d).
Proof.
  intros d.
  apply (reallocate_person_same_room d "a1" "BLUE" office 0
           (Room.mk "Blue" office 6 ["a1"])).
  - reflexivity.
  - reflexivity.
  - discriminate.
Defined.

(** ** Access to the lists of an instance *)

Arguments Room.add_occupant : simpl never.

Lemma rooms_of_set_rooms (k k' : RoomType) (l : list Room.t) (d : Dojo.t) :
  Dojo.rooms_of k' (Dojo.set_rooms k l d)
  = if decide (k = k') then l else Dojo.rooms_of k' d.
Proof. by destruct k, k', d. Qed.

Lemma rooms_of_alter_room (k k' : RoomType) (i : nat) (f : Room.t → Room.t)
    (d : Dojo.t) :
  Dojo.rooms_of k' (Dojo.alter_room k i f d)
  = if decide (k = k') then alter f i (Dojo.rooms_of k d) else Dojo.rooms_of k' d.
Proof. by destruct k, k', d. Qed.

Lemma rooms_of_set_rooms_eq (k : RoomType) (l : list Room.t) (d : Dojo.t) :
  Dojo.rooms_of k (Dojo.set_rooms k l d) = l.
Proof. by destruct k, d. Qed.

Lemma rooms_of_alter_room_eq (k : RoomType) (i : nat) (f : Room.t → Room.t)
    (d : Dojo.t) :
  Dojo.rooms_of k (Dojo.alter_room k i f d) = alter f i (Dojo.rooms_of k d).
Proof. by destruct k, d. Qed.

Lemma rooms_of_alter_person (k : RoomType) (i : nat) (f : Person.t → Person.t)
    (d : Dojo.t) :
  Dojo.rooms_of k (Dojo.alter_person i f d) = Dojo.rooms_of k d.
Proof. by destruct k, d. Qed.

Lemma people_set_rooms (k : RoomType) (l : list Room.t) (d : Dojo.t) :
  Dojo.people (Dojo.set_rooms k l d) = Dojo.people d.
Proof. by destruct k, d. Qed.

Lemma people_alter_room (k : RoomType) (i : nat) (f : Room.t → Room.t) (d : Dojo.t) :
  Dojo.people (Dojo.alter_room k i f d) = Dojo.people d.
Proof. by destruct k, d. Qed.

Lemma people_alter_person (i : nat) (f : Person.t → Person.t) (d : Dojo.t) :
  Dojo.people (Dojo.alter_person i f d) = alter f i (Dojo.people d).
Proof. by destruct d. Qed.

Lemma rooms_of_add_person_to_lists (k : RoomType) (d : Dojo.t) (p : Person.t) :
  Dojo.rooms_of k (Dojo._add_person_to_lists d p).2 = Dojo.rooms_of k d.
Proof. by destruct k, d, p as [? ? [] ? ? ?]. Qed.

Lemma people_add_person_to_lists (d : Dojo.t) (p : Person.t) :
  Dojo._add_person_to_lists d p
  = (length (Dojo.people d), (Dojo._add_person_to_lists d p).2)
  ∧ Dojo.people (Dojo._add_person_to_lists d p).2 = Dojo.people d ++ [p].
Proof. by destruct d, p as [? ? [] ? ? ?]. Qed.

(** Pushes the projections of an instance through the updates. *)
Ltac dojo_simpl :=
  repeat first
    [ rewrite rooms_of_set_rooms_eq | rewrite rooms_of_alter_room_eq
    | rewrite rooms_of_set_rooms | rewrite rooms_of_alter_room
    | rewrite rooms_of_alter_person | rewrite people_set_rooms
    | rewrite people_alter_room | rewrite people_alter_person
    | rewrite rooms_of_add_person_to_lists ].

(** ** Facts on the list primitives *)

Lemma list_remove_Permutation (x : string) (l l' : list string) :
  list_remove x l = Some l' → l ≡ₚ x :: l'.
Proof.
  revert l'. induction l as [|y l IH]; intros l'; simpl; [done |].
  case_bool_decide as Hy.
  - intros [= <-]. by subst.
  - destruct (list_remove x l) as [l0|]; simpl; [| done].
    intros [= <-]. rewrite (IH l0 eq_refl). apply Permutation_swap.
Qed.

Lemma list_remove_is_Some (x : string) (l : list string) :
  x ∈ l → is_Some (list_remove x l).
Proof.
  induction l as [|y l IH]; simpl; [by intros ?%elem_of_nil |].
  intros [-> | Hin]%elem_of_cons.
  - rewrite bool_decide_eq_true_2; eauto.
  - case_bool_decide; [eauto |]. destruct (IH Hin) as [l' ->]. simpl. eauto.
Qed.

Lemma available_from_lookup (i j : nat) (rooms : list Room.t) :
  j ∈ Dojo.available_from i rooms →
  ∃ r, i ≤ j ∧ rooms !! (j - i) = Some r ∧ Room.is_full r = false.
Proof.
  revert i. induction rooms as [|r rest IH]; intros i; simpl.
  { by intros ?%elem_of_nil. }
  destruct (Room.is_full r) eqn:Hfull.
  - intros (r' & Hle & Hl & Hf)%IH. exists r'.
    split; [lia |]. split; [| done].
    by replace (j - i) with (S (j - S i)) by lia.
  - intros [-> | (r' & Hle & Hl & Hf)%IH]%elem_of_cons.
    + exists r. by rewrite Nat.sub_diag.
    + exists r'. split; [lia |]. split; [| done].
      by replace (j - i) with (S (j - S i)) by lia.
Qed.

Lemma choice_elem_of {A} (r : nat) (l : list A) (x : A) :
  choice r l = Some x → x ∈ l.
Proof. apply list_elem_of_lookup_2. Qed.

Lemma find_new_room_Found (d : Dojo.t) (person : Person.t) (new_room_name : string)
    (k : RoomType) (i : nat) (room : Room.t) :
  DojoApp.find_new_room d person new_room_name = DojoApp.Found k i room →
  Dojo.rooms_of k d !! i = Some room
  ∧ lower (Room.name room) = lower new_room_name
  ∧ (∀ j y, Dojo.rooms_of k d !! j = Some y → j < i →
            lower (Room.name y) ≠ lower new_room_name)
  ∧ (k = living_space →
     Person.fellow_wanting person = true
     ∧ Forall (λ o, lower (Room.name o) ≠ lower new_room_name) (Dojo.offices d)).
Proof.
  unfold DojoApp.find_new_room.
  destruct (list_find _ (Dojo.offices d)) as [[i' o]|] eqn:Ho.
  - intros [= <- <- <-]. apply list_find_Some in Ho as (? & ? & ?). done.
  - destruct (list_find _ (Dojo.living_spaces d)) as [[i' ls]|] eqn:Hls; [| done].
    destruct (Person.fellow_wanting person) eqn:Hw; [| done].
    intros [= <- <- <-]. apply list_find_Some in Hls as (? & ? & ?).
    apply list_find_None in Ho. done.
Qed.

(** ** The capacity bound *)

Lemma create_room_loop_cons (k : RoomType) (name : string) (rest : list value)
    (c : bool) (d : Dojo.t) :
  Dojo.create_room_loop k (PStr name :: rest) c d
  = if bool_decide (name = "") || strip_is_empty name
    then Dojo.create_room_loop k rest c d
    else if Dojo.name_exists d name
    then Dojo.create_room_loop k rest c d
    else Dojo.create_room_loop k rest true
           (Dojo.set_rooms k (Dojo.rooms_of k d ++ [new_room k name]) d).
Proof. by destruct k. Qed.

Lemma create_room_loop_capacity (k : RoomType) (names : list value) (c : bool)
    (d : Dojo.t) :
  capacity_ok d → capacity_ok (Dojo.create_room_loop k names c d).2.
Proof.
  revert c d. induction names as [|v rest IH]; intros c d Hd; [done |].
  destruct v as [|name|b]; try by apply IH.
  rewrite create_room_loop_cons.
  destruct (bool_decide (name = "") || strip_is_empty name); [by apply IH |].
  destruct (Dojo.name_exists d name); [by apply IH |].
  apply IH. intros k'. rewrite rooms_of_set_rooms.
  case_decide; subst; [| apply Hd].
  apply Forall_app; split; [apply (Hd _) |].
  apply Forall_singleton. destruct k'; split; simpl; lia.
Qed.

Lemma allocate_capacity (k : RoomType) (d : Dojo.t) (person r : nat) :
  capacity_ok d → capacity_ok (Dojo._allocate k d person r).2.
Proof.
  intros Hd. unfold Dojo._allocate.
  destruct (Dojo.available_from 0 (Dojo.rooms_of k d)); [done |].
  destruct (choice r _) as [i|]; [| done].
  destruct (Dojo.rooms_of k d !! i) as [room|]; [| done].
  destruct (Dojo.people d !! person) as [p|]; [| done].
  simpl. intros k'. dojo_simpl.
  case_decide; subst; [| apply Hd].
  apply Forall_alter; [apply Hd |].
  intros x _ [Hc Hl]. unfold within_capacity.
  destruct (add_occupant_length x (Some (Person.person_id p))) as [-> Hlen].
  split; [done |]. rewrite <- Hc. apply Hlen. by rewrite Hc.
Qed.

Lemma add_person_capacity (d : Dojo.t) (name person_type : string) (wants : value)
    (uuid : string) (r1 r2 : nat) :
  capacity_ok d →
  capacity_ok (Dojo.add_person d name person_type wants uuid r1 r2).2.
Proof.
  intros Hd. unfold Dojo.add_person.
  destruct (Dojo.parse_person_type _) as [k|]; [| done].
  assert (capacity_ok (Dojo.add_person_try d name k wants uuid r1 r2).2) as H.
  { unfold Dojo.add_person_try.
    match goal with |- context [match ?c with Some _ => _ | None => _ end] =>
      destruct c as [person|] end; [| done].
    destruct (people_add_person_to_lists d person) as [-> _].
    assert (capacity_ok (Dojo._add_person_to_lists d person).2) as H1.
    { intros k'. rewrite rooms_of_add_person_to_lists. apply Hd. }
    pose proof (allocate_capacity office _ (length (Dojo.people d)) r1 H1) as H2.
    unfold Dojo._allocate_office, Dojo._allocate_living_space.
    destruct (Dojo._allocate office _ _ r1) as [o d2]. simpl in H2.
    destruct (split name); [done |].
    destruct (Person.fellow_wanting person); [| done].
    by apply allocate_capacity. }
  by destruct (Dojo.add_person_try d name k wants uuid r1 r2) as [[b|e] d'].
Qed.

Lemma perform_reallocation_capacity (d : Dojo.t) (k : RoomType) (person : nat)
    (person_id : string) (current : option (nat * Room.t)) (ti : nat)
    (new_room : Room.t) :
  capacity_ok d →
  Dojo.rooms_of k d !! ti = Some new_room →
  length (Room.occupants new_room) < Room.capacity new_room →
  (∀ ci cur, current = Some (ci, cur) → Dojo.rooms_of k d !! ci = Some cur) →
  capacity_ok
    (DojoApp.perform_reallocation d k person person_id current ti new_room).2.
Proof.
  intros Hd Hti Hfree Hcur. unfold DojoApp.perform_reallocation.
  pose proof (Forall_lookup_1 _ _ _ _ (Hd k) Hti) as [Hcap _].
  destruct current as [[ci cur]|]; simpl.
  - specialize (Hcur ci cur eq_refl).
    destruct (list_remove person_id (Room.occupants cur)) as [l|] eqn:Hl;
      simpl; [| done].
    apply list_remove_Permutation, Permutation_length in Hl. simpl in Hl.
    intros k'. dojo_simpl.
    case_decide; subst; [| apply Hd].
    apply Forall_alter.
    + apply Forall_alter; [apply Hd |].
      intros x Hx [Hc Hlen]. assert (x = cur) as -> by congruence.
      split; simpl; [done | lia].
    + intros x Hx _. rewrite list_lookup_alter in Hx.
      case_decide; subst.
      * rewrite Hcur in Hx. simpl in Hx. injection Hx as <-.
        assert (cur = new_room) as -> by congruence.
        split; simpl; [done |]. rewrite length_app. simpl. lia.
      * assert (x = new_room) as -> by congruence.
        split; simpl; [done |]. rewrite length_app. simpl. lia.
  - intros k'. dojo_simpl.
    case_decide; subst; [| apply Hd].
    apply Forall_alter; [apply Hd |].
    intros x Hx _. assert (x = new_room) as -> by congruence.
    split; simpl; [done |]. rewrite length_app. simpl. lia.
Qed.

Lemma reallocate_person_capacity (d : Dojo.t) (person_id new_room_name : string) :
  capacity_ok d →
  capacity_ok (DojoApp.reallocate_person d person_id new_room_name).2.
Proof.
  intros Hd. unfold DojoApp.reallocate_person.
  destruct (list_find _ (Dojo.people d)) as [[pi person]|]; [| done].
  destruct (DojoApp.find_new_room d person new_room_name)
    as [k ti new_room| |] eqn:Hf; try done.
  apply find_new_room_Found in Hf as (Hti & _).
  case_bool_decide as Hfull; [done |].
  destruct (list_find _ (Dojo.rooms_of k d)) as [[ci cur]|] eqn:Hc.
  - case_bool_decide; [done |].
    apply perform_reallocation_capacity; [done | done | lia |].
    intros ? ? [= <- <-]. by apply list_find_Some in Hc as (? & _).
  - apply perform_reallocation_capacity; [done | done | lia | done].
Qed.

Lemma step_capacity (d : Dojo.t) (o : Op) :
  capacity_ok d → capacity_ok (step d o).
Proof.
  intros Hd. destruct o as [rt names | name pt w uuid r1 r2 | pid nm]; simpl.
  - unfold Dojo.create_room.
    destruct (Dojo.parse_room_type rt) as [k|]; [| done].
    destruct names; try done; by apply create_room_loop_capacity.
  - by apply add_person_capacity.
  - by apply reallocate_person_capacity.
Qed.

Lemma foldl_step_capacity (ops : list Op) (d : Dojo.t) :
  capacity_ok d → capacity_ok (foldl step d ops).
Proof.
  revert d. induction ops as [|o ops IH]; intros d Hd; simpl; [done |].
  by apply IH, step_capacity.
Qed.

Lemma run_capacity (ops : list Op) : capacity_ok (run ops).
Proof. apply foldl_step_capacity. intros []; constructor. Qed.

(** C1: after any sequence of [create_room], [add_person] and
    [reallocate_person] calls on a new instance (hence after each call of
    the sequence), every office has capacity 6 and at most 6 occupants and
    every living space has capacity 4 and at most 4 occupants, whatever
    [uuid4] and [random.choice] return. *)
Theorem capacity_never_exceeded (ops : list Op) :
  Forall (λ r, Room.capacity r = 6 ∧ length (Room.occupants r) ≤ 6)
         (Dojo.offices (run ops))
  ∧ Forall (λ r, Room.capacity r = 4 ∧ length (Room.occupants r) ≤ 4)
           (Dojo.living_spaces (run ops)).
Proof.
  split; [apply (run_capacity ops office) | apply (run_capacity ops living_space)].
Qed.

(** ** The invariant of the instances built with fresh identifiers *)

Lemma lookup_alter_Some {A} (f : A → A) (l : list A) (i j : nat) (y : A) :
  alter f i l !! j = Some y →
  ∃ x, l !! j = Some x ∧ ((j = i ∧ y = f x) ∨ (j ≠ i ∧ y = x)).
Proof.
  rewrite list_lookup_alter. case_decide; subst.
  - destruct (l !! j) as [x|]; simpl; [| done]. intros [= <-]. eauto.
  - intros H'. exists y. auto.
Qed.

Lemma rooms_of_alter_room_lookup (d : Dojo.t) (k k' : RoomType) (i a : nat)
    (f : Room.t → Room.t) (r' : Room.t) :
  Dojo.rooms_of k' (Dojo.alter_room k i f d) !! a = Some r' →
  ∃ r, Dojo.rooms_of k' d !! a = Some r
       ∧ ((k' = k ∧ a = i ∧ r' = f r) ∨ ((k' ≠ k ∨ a ≠ i) ∧ r' = r)).
Proof.
  rewrite rooms_of_alter_room. case_decide; subst.
  - intros (x & Hx & [[-> ->] | [Hne ->]])%lookup_alter_Some; eauto 10.
  - intros Hr. exists r'. split; [done |]. right. split; [| done]. left. congruence.
Qed.

Lemma wf_init : well_formed Dojo.init.
Proof.
  split; try (by intros []); try done; simpl; try constructor.
  all: by intros [].
Qed.

Lemma wf_append_room (d : Dojo.t) (k : RoomType) (name : string) :
  well_formed d →
  (∀ k' i r, Dojo.rooms_of k' d !! i = Some r →
             lower (Room.name r) ≠ lower name) →
  well_formed (Dojo.set_rooms k (Dojo.rooms_of k d ++ [new_room k name]) d).
Proof.
  intros [Hr Hn He Hk Hi Hs] Hnew.
  assert (Hlook : ∀ k' a r,
    Dojo.rooms_of k' (Dojo.set_rooms k (Dojo.rooms_of k d ++ [new_room k name]) d)
      !! a = Some r →
    Dojo.rooms_of k' d !! a = Some r
    ∨ (k' = k ∧ a = length (Dojo.rooms_of k d) ∧ r = new_room k name)).
  { intros k' a r. rewrite rooms_of_set_rooms. case_decide; subst; [| by left].
    intros [[_ ?] | [-> <-]]%lookup_snoc_Some; [by left | by right]. }
  assert (Hnm : Room.name (new_room k name) = name) by by destruct k.
  assert (Hocc : Room.occupants (new_room k name) = []) by by destruct k.
  split.
  - intros k'. rewrite rooms_of_set_rooms. case_decide; subst; [| apply Hr].
    apply Forall_app; split; [apply Hr |]. apply Forall_singleton.
    split; [by destruct k' | rewrite Hocc; constructor].
  - intros k1 k2 i j r1 r2 H1 H2 Heq.
    apply Hlook in H1 as [H1 | (-> & -> & ->)];
      apply Hlook in H2 as [H2 | (-> & -> & ->)].
    + by eapply Hn.
    + rewrite Hnm in Heq. by apply Hnew in H1.
    + rewrite Hnm in Heq. by apply Hnew in H2.
    + done.
  - intros k' i j ri rj pid H1 H2 Hi1 Hi2.
    apply Hlook in H1 as [H1 | (? & ? & ?)];
      apply Hlook in H2 as [H2 | (? & ? & ?)]; subst.
    + by eapply He.
    + rewrite Hocc in Hi2. by apply elem_of_nil in Hi2.
    + rewrite Hocc in Hi1. by apply elem_of_nil in Hi1.
    + done.
  - intros k' i r pid H1 Hin.
    apply Hlook in H1 as [H1 | (-> & -> & ->)].
    + destruct (Hk _ _ _ _ H1 Hin) as (j & p & ? & ? & ?).
      exists j, p. by rewrite people_set_rooms.
    + rewrite Hocc in Hin. by apply elem_of_nil in Hin.
  - by rewrite people_set_rooms.
  - by rewrite people_set_rooms.
Qed.

Lemma wf_alter_room (d : Dojo.t) (k : RoomType) (i : nat) (f : Room.t → Room.t) :
  well_formed d →
  (∀ r, Dojo.rooms_of k d !! i = Some r →
        Room.name (f r) = Room.name r
        ∧ Room.room_type (f r) = Room.room_type r
        ∧ NoDup (Room.occupants (f r))
        ∧ ∀ pid, pid ∈ Room.occupants (f r) →
                 pid ∈ Room.occupants r ∨ admissible k d pid) →
  well_formed (Dojo.alter_room k i f d).
Proof.
  intros [Hr Hn He Hk Hi Hs] Hf. split.
  - intros k'. rewrite rooms_of_alter_room. case_decide; subst; [| apply Hr].
    apply Forall_alter; [apply Hr |].
    intros x Hx [Ht Hnd]. destruct (Hf x Hx) as (? & ? & ? & ?).
    split; [congruence | done].
  - intros k1 k2 a b r1 r2 H1 H2 Heq.
    apply rooms_of_alter_room_lookup in H1 as (x1 & H1 & Hx1).
    apply rooms_of_alter_room_lookup in H2 as (x2 & H2 & Hx2).
    apply (Hn _ _ _ _ _ _ H1 H2).
    assert (Room.name r1 = Room.name x1) as E1.
    { destruct Hx1 as [(-> & -> & ->) | [_ ->]]; [| done]. by apply Hf. }
    assert (Room.name r2 = Room.name x2) as E2.
    { destruct Hx2 as [(-> & -> & ->) | [_ ->]]; [| done]. by apply Hf. }
    by rewrite E1, E2 in Heq.
  - intros k' a b ra rb pid H1 H2 Hi1 Hi2.
    apply rooms_of_alter_room_lookup in H1 as (x1 & H1 & Hx1).
    apply rooms_of_alter_room_lookup in H2 as (x2 & H2 & Hx2).
    destruct Hx1 as [(? & ? & ?) | [Hne1 ?]];
      destruct Hx2 as [(? & ? & ?) | [Hne2 ?]]; subst; try done.
    + destruct (Hf x1 H1) as (_ & _ & _ & Hin).
      destruct (Hin pid Hi1) as [Hold | [Hnot _]].
      * by eapply He.
      * by apply Hnot in H2.
    + destruct (Hf x2 H2) as (_ & _ & _ & Hin).
      destruct (Hin pid Hi2) as [Hold | [Hnot _]].
      * by eapply He.
      * by apply Hnot in H1.
    + by eapply He.
  - intros k' a r' pid H1 Hin. unfold eligible. rewrite people_alter_room.
    apply rooms_of_alter_room_lookup in H1 as (x & H1 & Hx).
    destruct Hx as [(-> & -> & ->) | [_ ->]]; [| by eapply Hk].
    destruct (Hf x H1) as (_ & _ & _ & Hin').
    destruct (Hin' pid Hin) as [Hold | [_ Hel]]; [by eapply Hk | done].
  - by rewrite people_alter_room.
  - by rewrite people_alter_room.
Qed.

Lemma keeps_identity_fellow_wanting (p p' : Person.t) :
  keeps_identity p p' → Person.fellow_wanting p' = Person.fellow_wanting p.
Proof. intros (_ & Ht & Hw & _). unfold Person.fellow_wanting. by rewrite Ht, Hw. Qed.

Lemma wf_alter_person (d : Dojo.t) (i : nat) (f : Person.t → Person.t) :
  well_formed d →
  (∀ p, Dojo.people d !! i = Some p → keeps_identity p (f p)) →
  well_formed (Dojo.alter_person i f d).
Proof.
  intros [Hr Hn He Hk Hi Hs] Hf.
  assert (Hids : Person.person_id <$> alter f i (Dojo.people d)
                 = Person.person_id <$> Dojo.people d).
  { apply list_eq. intros j. rewrite !list_lookup_fmap, list_lookup_alter.
    case_decide; subst; [| done].
    destruct (Dojo.people d !! j) as [p|] eqn:Hp; simpl; [| done].
    f_equal. by apply Hf. }
  split.
  - intros k. rewrite rooms_of_alter_person. apply Hr.
  - intros k1 k2 a b r1 r2. rewrite !rooms_of_alter_person. apply Hn.
  - intros k a b ra rb pid. rewrite !rooms_of_alter_person. apply He.
  - intros k a r pid. rewrite rooms_of_alter_person. intros H1 Hin.
    destruct (Hk _ _ _ _ H1 Hin) as (j & p & Hp & Hid & Hw).
    unfold eligible. rewrite people_alter_person.
    destruct (decide (i = j)) as [-> | Hne].
    + exists j, (f p). rewrite list_lookup_alter_eq, Hp. split; [done |].
      destruct (Hf p Hp) as (Hid' & _). split; [congruence |].
      intros Hl. rewrite keeps_identity_fellow_wanting with (p := p); auto.
    + exists j, p. by rewrite list_lookup_alter_ne.
  - by rewrite people_alter_person, Hids.
  - rewrite people_alter_person. apply Forall_alter; [done |].
    intros p Hp Hst Ht. destruct (Hf p Hp) as (_ & Ht' & _ & Hl).
    rewrite Ht' in Ht. rewrite Hl by done. by apply Hst.
Qed.

Lemma wf_add_person_to_lists (d : Dojo.t) (p : Person.t) :
  well_formed d →
  Person.person_id p ∉ Person.person_id <$> Dojo.people d →
  (Person.person_type p = STAFF → Person.living_space_allocated p = None) →
  well_formed (Dojo._add_person_to_lists d p).2.
Proof.
  intros [Hr Hn He Hk Hi Hs] Hfresh Hst.
  destruct (people_add_person_to_lists d p) as [_ Hp]. split.
  - intros k. rewrite rooms_of_add_person_to_lists. apply Hr.
  - intros k1 k2 a b r1 r2. rewrite !rooms_of_add_person_to_lists. apply Hn.
  - intros k a b ra rb pid. rewrite !rooms_of_add_person_to_lists. apply He.
  - intros k a r pid. rewrite rooms_of_add_person_to_lists. intros H1 Hin.
    destruct (Hk _ _ _ _ H1 Hin) as (j & q & Hq & Hid & Hw).
    exists j, q. rewrite Hp. split; [by apply lookup_app_l_Some | done].
  - rewrite Hp, fmap_app. apply NoDup_app. split; [done |].
    split; [| apply NoDup_singleton].
    intros x Hx ->%list_elem_of_singleton. done.
  - rewrite Hp. apply Forall_app. split; [done |]. by apply Forall_singleton.
Qed.

(** ** Each operation keeps the invariant *)

Lemma name_exists_false (d : Dojo.t) (name : string) :
  Dojo.name_exists d name = false →
  ∀ k i r, Dojo.rooms_of k d !! i = Some r → lower (Room.name r) ≠ lower name.
Proof.
  unfold Dojo.name_exists. intros Hne%bool_decide_eq_false k i r Hr Heq.
  apply Hne, Exists_exists. exists r. split; [| done].
  apply elem_of_app. apply list_elem_of_lookup_2 in Hr.
  destruct k; [by left | by right].
Qed.

Lemma create_room_loop_wf (k : RoomType) (names : list value) (c : bool)
    (d : Dojo.t) :
  well_formed d → well_formed (Dojo.create_room_loop k names c d).2.
Proof.
  revert c d. induction names as [|v rest IH]; intros c d Hd; [done |].
  destruct v as [|name|b]; try by apply IH.
  rewrite create_room_loop_cons.
  destruct (bool_decide (name = "") || strip_is_empty name); [by apply IH |].
  destruct (Dojo.name_exists d name) eqn:Hex; [by apply IH |].
  apply IH, wf_append_room; [done |]. by apply name_exists_false.
Qed.

Lemma add_occupant_spec (r : Room.t) (pid : string) :
  let r' := (Room.add_occupant r (Some pid)).2 in
  Room.name r' = Room.name r
  ∧ Room.room_type r' = Room.room_type r
  ∧ (Room.occupants r' = Room.occupants r
     ∨ ((pid ∉ Room.occupants r)
        ∧ Room.occupants r' = Room.occupants r ++ [pid])).
Proof.
  unfold Room.add_occupant. repeat case_bool_decide; simpl; auto.
  destruct (Room.is_full r); simpl; auto.
Qed.

Lemma fellow_wanting_FELLOW (p : Person.t) :
  Person.fellow_wanting p = true → Person.person_type p = FELLOW.
Proof.
  unfold Person.fellow_wanting. intros [H _]%andb_prop.
  by apply bool_decide_eq_true in H.
Qed.

Lemma keeps_identity_set_allocated (k : RoomType) (v : value) (p : Person.t) :
  (k = living_space → Person.person_type p = FELLOW) →
  keeps_identity p (DojoApp.set_allocated k v p).
Proof.
  intros Hk. destruct k; repeat split; simpl; try done.
  intros Hs. rewrite Hk in Hs; done.
Qed.

Lemma allocate_unfold (k : RoomType) (d : Dojo.t) (person r : nat) :
  (Dojo._allocate k d person r).2 = d
  ∨ ∃ i room p,
      Dojo.rooms_of k d !! i = Some room
      ∧ Dojo.people d !! person = Some p
      ∧ (Dojo._allocate k d person r).2
        = Dojo.alter_person person
            (DojoApp.set_allocated k (PStr (Room.name room)))
            (Dojo.alter_room k i
               (λ o, (Room.add_occupant o (Some (Person.person_id p))).2) d).
Proof.
  unfold Dojo._allocate.
  destruct (Dojo.available_from 0 (Dojo.rooms_of k d)); [by left |].
  destruct (choice r _) as [i|]; [| by left].
  destruct (Dojo.rooms_of k d !! i) as [room|] eqn:Hroom; [| by left].
  destruct (Dojo.people d !! person) as [p|] eqn:Hp; [| by left].
  right. exists i, room, p. by destruct k.
Qed.

Lemma allocate_wf (k : RoomType) (d : Dojo.t) (person r : nat) (p : Person.t) :
  well_formed d →
  Dojo.people d !! person = Some p →
  (∀ j rj, Dojo.rooms_of k d !! j = Some rj →
           Person.person_id p ∉ Room.occupants rj) →
  (k = living_space → Person.fellow_wanting p = true) →
  well_formed (Dojo._allocate k d person r).2.
Proof.
  intros Hd Hp Hout Hw.
  destruct (allocate_unfold k d person r) as [-> | (i & room & p' & Hi & Hp' & ->)];
    [done |].
  assert (p' = p) as -> by congruence.
  apply wf_alter_person.
  - apply wf_alter_room; [done |].
    intros x Hx. destruct (add_occupant_spec x (Person.person_id p))
      as (Hn & Ht & Hocc).
    pose proof (Forall_lookup_1 _ _ _ _ (wf_rooms d Hd k) Hx) as [_ Hnd].
    split; [done |]. split; [done |].
    destruct Hocc as [-> | [Hnin ->]].
    + split; [done |]. auto.
    + split.
      * apply NoDup_app. split; [done |]. split; [| apply NoDup_singleton].
        intros y Hy ->%list_elem_of_singleton. done.
      * intros pid [? | ->%list_elem_of_singleton]%elem_of_app; [by left |].
        right. split; [done |]. by exists person, p.
  - rewrite people_alter_room. intros q Hq. assert (q = p) as -> by congruence.
    apply keeps_identity_set_allocated.
    intros Hk. by apply fellow_wanting_FELLOW, Hw.
Qed.

(** What an allocation leaves alone. *)
Lemma allocate_frame (k : RoomType) (d : Dojo.t) (person r : nat) :
  let d' := (Dojo._allocate k d person r).2 in
  (∀ k', k' ≠ k → Dojo.rooms_of k' d' = Dojo.rooms_of k' d)
  ∧ (∀ p, Dojo.people d !! person = Some p →
          ∃ p', Dojo.people d' !! person = Some p'
                ∧ Person.person_id p' = Person.person_id p
                ∧ Person.fellow_wanting p' = Person.fellow_wanting p).
Proof.
  destruct (allocate_unfold k d person r) as [-> | (i & room & p' & Hi & Hp' & ->)].
  { split; [done |]. intros p Hp. by exists p. }
  split.
  - intros k' Hne. dojo_simpl. by rewrite decide_False.
  - intros p Hp. dojo_simpl. rewrite list_lookup_alter_eq, Hp. simpl.
    eexists. split; [done |]. by destruct k.
Qed.

Lemma add_person_try_wf (d : Dojo.t) (name : string) (k : PersonType)
    (wants : value) (uuid : string) (r1 r2 : nat) :
  well_formed d →
  uuid ∉ Person.person_id <$> Dojo.people d →
  well_formed (Dojo.add_person_try d name k wants uuid r1 r2).2.
Proof.
  intros Hd Hfresh. unfold Dojo.add_person_try.
  match goal with |- context [match ?c with Some _ => _ | None => _ end] =>
    destruct c as [person|] eqn:Hc end; [| done].
  assert (Person.person_id person = uuid
          ∧ (Person.person_type person = STAFF →
             Person.living_space_allocated person = None)) as [Hid Hst].
  { destruct k, wants as [|s|b]; simpl in Hc;
      try case_bool_decide; by simplify_eq. }
  destruct (people_add_person_to_lists d person) as [Heq Hpeople].
  rewrite Heq. clear Heq.
  set (d1 := (Dojo._add_person_to_lists d person).2) in *.
  assert (well_formed d1) as H1.
  { apply wf_add_person_to_lists; [done | by rewrite Hid | done]. }
  assert (Dojo.people d1 !! length (Dojo.people d) = Some person) as Hp1.
  { rewrite Hpeople. apply list_lookup_middle. done. }
  assert (∀ k' j rj, Dojo.rooms_of k' d1 !! j = Some rj →
                     Person.person_id person ∉ Room.occupants rj) as Hout.
  { intros k' j rj. unfold d1. rewrite rooms_of_add_person_to_lists.
    intros Hj Hin. destruct (wf_known d Hd _ _ _ _ Hj Hin) as (a & q & Hq & Hqid & _).
    apply Hfresh. rewrite <- Hid, <- Hqid.
    apply list_elem_of_fmap_2. by eapply list_elem_of_lookup_2. }
  unfold Dojo._allocate_office, Dojo._allocate_living_space.
  pose proof (allocate_wf office d1 _ r1 person H1 Hp1 (Hout office)) as H2.
  destruct (allocate_frame office d1 (length (Dojo.people d)) r1) as [Hrooms Hpers].
  destruct (Dojo._allocate office d1 _ r1) as [o d2]. simpl in *.
  specialize (H2 ltac:(done)).
  destruct (split name); [done |].
  destruct (Person.fellow_wanting person) eqn:Hw; [| done].
  destruct (Hpers person Hp1) as (p' & Hp' & Hid' & Hw').
  apply (allocate_wf living_space d2 _ r2 p'); [done | done | |].
  - intros j rj. rewrite Hrooms by done. rewrite Hid'. apply Hout.
  - intros _. by rewrite Hw'.
Qed.

Lemma add_person_wf (d : Dojo.t) (name person_type : string) (wants : value)
    (uuid : string) (r1 r2 : nat) :
  well_formed d →
  uuid ∉ Person.person_id <$> Dojo.people d →
  well_formed (Dojo.add_person d name person_type wants uuid r1 r2).2.
Proof.
  intros Hd Hfresh. unfold Dojo.add_person.
  destruct (Dojo.parse_person_type _) as [k|]; [| done].
  pose proof (add_person_try_wf d name k wants uuid r1 r2 Hd Hfresh) as H.
  by destruct (Dojo.add_person_try d name k wants uuid r1 r2) as [[b|e] d'].
Qed.

Lemma remove_stage_wf (d : Dojo.t) (k : RoomType) (ci : nat) (cur : Room.t)
    (l : list string) (pi : nat) (person : Person.t) (pid : string) :
  well_formed d →
  Dojo.rooms_of k d !! ci = Some cur →
  list_remove pid (Room.occupants cur) = Some l →
  Dojo.people d !! pi = Some person →
  (k = living_space → Person.fellow_wanting person = true) →
  let d2 := Dojo.alter_person pi
              (DojoApp.set_allocated (Room.room_type cur) (PBool false))
              (Dojo.alter_room k ci (λ r, Room.set_occupants r l) d) in
  well_formed d2
  ∧ ∀ j rj, Dojo.rooms_of k d2 !! j = Some rj → pid ∉ Room.occupants rj.
Proof.
  intros Hd Hci Hl Hp Hw d2.
  pose proof (Forall_lookup_1 _ _ _ _ (wf_rooms d Hd k) Hci) as [Ht Hnd].
  apply list_remove_Permutation in Hl.
  assert (NoDup (pid :: l)) as [Hnin Hndl]%NoDup_cons by by rewrite <- Hl.
  split.
  - apply wf_alter_person.
    + apply wf_alter_room; [done |].
      intros x Hx. assert (x = cur) as -> by congruence. simpl.
      split; [done |]. split; [done |]. split; [done |].
      intros y Hy. left. rewrite Hl. by apply elem_of_cons; right.
    + rewrite people_alter_room. intros q Hq. assert (q = person) as -> by congruence.
      apply keeps_identity_set_allocated. rewrite Ht.
      intros Hk. by apply fellow_wanting_FELLOW, Hw.
  - intros j rj. unfold d2. dojo_simpl.
    intros (x & Hx & [[-> ->] | [Hne ->]])%lookup_alter_Some; simpl; [done |].
    intros Hin. apply Hne. eapply (wf_exclusive d Hd); [done | done | done |].
    rewrite Hl. apply elem_of_cons. by left.
Qed.

Lemma append_stage_wf (d : Dojo.t) (k : RoomType) (ti pi : nat)
    (person : Person.t) (pid : string) (v : value) :
  well_formed d →
  Dojo.people d !! pi = Some person →
  Person.person_id person = pid →
  (k = living_space → Person.fellow_wanting person = true) →
  (∀ j rj, Dojo.rooms_of k d !! j = Some rj → pid ∉ Room.occupants rj) →
  well_formed
    (Dojo.alter_person pi (DojoApp.set_allocated k v)
       (Dojo.alter_room k ti
          (λ r, Room.set_occupants r (Room.occupants r ++ [pid])) d)).
Proof.
  intros Hd Hp Hid Hw Hout. apply wf_alter_person.
  - apply wf_alter_room; [done |].
    intros x Hx. simpl.
    pose proof (Forall_lookup_1 _ _ _ _ (wf_rooms d Hd k) Hx) as [_ Hnd].
    split; [done |]. split; [done |]. split.
    + apply NoDup_app. split; [done |]. split; [| apply NoDup_singleton].
      intros y Hy ->%list_elem_of_singleton. by eapply Hout.
    + intros y [? | ->%list_elem_of_singleton]%elem_of_app; [by left |].
      right. split; [done |]. by exists pi, person.
  - rewrite people_alter_room. intros q Hq. assert (q = person) as -> by congruence.
    apply keeps_identity_set_allocated.
    intros Hk. by apply fellow_wanting_FELLOW, Hw.
Qed.

Lemma perform_reallocation_wf (d : Dojo.t) (k : RoomType) (pi : nat)
    (person : Person.t) (pid : string) (ti : nat) (new_room : Room.t) :
  well_formed d →
  Dojo.people d !! pi = Some person →
  Person.person_id person = pid →
  Dojo.rooms_of k d !! ti = Some new_room →
  (k = living_space → Person.fellow_wanting person = true) →
  well_formed
    (DojoApp.perform_reallocation d k pi pid
       (list_find (λ room, pid ∈ Room.occupants room) (Dojo.rooms_of k d))
       ti new_room).2.
Proof.
  intros Hd Hp Hid Hti Hw. unfold DojoApp.perform_reallocation.
  pose proof (Forall_lookup_1 _ _ _ _ (wf_rooms d Hd k) Hti) as [Ht _].
  rewrite Ht.
  destruct (list_find _ (Dojo.rooms_of k d)) as [[ci cur]|] eqn:Hc; simpl.
  - apply list_find_Some in Hc as (Hci & Hin & _).
    destruct (list_remove pid (Room.occupants cur)) as [l|] eqn:Hl; simpl; [| done].
    destruct (remove_stage_wf d k ci cur l pi person pid Hd Hci Hl Hp Hw)
      as [Hd2 Hout].
    pose proof (Forall_lookup_1 _ _ _ _ (wf_rooms d Hd k) Hci) as [Htc _].
    apply (append_stage_wf _ k ti pi
             (DojoApp.set_allocated (Room.room_type cur) (PBool false) person));
      [done | | | | done].
    + dojo_simpl. by rewrite list_lookup_alter_eq, Hp.
    + rewrite Htc. by destruct k.
    + intros Hk. rewrite keeps_identity_fellow_wanting with (p := person); auto.
      apply keeps_identity_set_allocated. rewrite Htc.
      intros _. by apply fellow_wanting_FELLOW, Hw.
  - apply list_find_None in Hc.
    apply (append_stage_wf _ k ti pi person); try done.
    intros j rj Hj. by apply (Forall_lookup_1 _ _ _ _ Hc Hj).
Qed.

Lemma reallocate_person_wf (d : Dojo.t) (person_id new_room_name : string) :
  well_formed d →
  well_formed (DojoApp.reallocate_person d person_id new_room_name).2.
Proof.
  intros Hd. unfold DojoApp.reallocate_person.
  destruct (list_find _ (Dojo.people d)) as [[pi person]|] eqn:Hp; [| done].
  apply list_find_Some in Hp as (Hp & Hid & _).
  destruct (DojoApp.find_new_room d person new_room_name)
    as [k ti new_room| |] eqn:Hf; try done.
  apply find_new_room_Found in Hf as (Hti & _ & _ & Hw).
  case_bool_decide; [done |].
  pose proof (perform_reallocation_wf d k pi person person_id ti new_room
                Hd Hp Hid Hti (λ e, proj1 (Hw e))) as H'.
  destruct (list_find _ (Dojo.rooms_of k d)) as [[ci cur]|]; [| done].
  by case_bool_decide.
Qed.

Lemma step_wf (d : Dojo.t) (o : Op) :
  well_formed d → fresh_op d o = true → well_formed (step d o).
Proof.
  intros Hd Hfresh.
  destruct o as [rt names | name pt w uuid r1 r2 | pid nm]; simpl in *.
  - unfold Dojo.create_room.
    destruct (Dojo.parse_room_type rt) as [k|]; [| done].
    destruct names; try done; by apply create_room_loop_wf.
  - apply add_person_wf; [done |].
    apply negb_true_iff in Hfresh. by apply bool_decide_eq_false in Hfresh.
  - by apply reallocate_person_wf.
Qed.

Lemma foldl_step_wf (ops : list Op) (d : Dojo.t) :
  well_formed d → fresh_from d ops = true → well_formed (foldl step d ops).
Proof.
  revert d. induction ops as [|o ops IH]; intros d Hd Hf; simpl in *; [done |].
  apply andb_prop in Hf as [Ho Hrest]. by apply IH; [apply step_wf |].
Qed.

Lemma run_wf (ops : list Op) : fresh ops = true → well_formed (run ops).
Proof. apply foldl_step_wf, wf_init. Qed.

(** ** Staff *)

(** C8: after any sequence of calls in which [uuid4] yields fresh
    identifiers, a staff member has no [living_space_allocated] attribute and
    its id is among the occupants of no living space. *)
Theorem staff_never_housed (ops : list Op) (i : nat) (p : Person.t) :
  fresh ops = true →
  Dojo.people (run ops) !! i = Some p →
  Person.person_type p = STAFF →
  Person.living_space_allocated p = None
  ∧ Forall (λ r, Person.person_id p ∉ Room.occupants r)
           (Dojo.living_spaces (run ops)).
Proof.
  intros Hd%run_wf Hp Hs. split.
  - by apply (Forall_lookup_1 _ _ _ _ (wf_staff _ Hd) Hp).
  - apply Forall_lookup. intros j r Hr Hin.
    destruct (wf_known _ Hd living_space j r _ Hr Hin) as (a & q & Hq & Hid & Hw).
    assert (a = i) as ->.
    { apply (NoDup_lookup _ _ _ (Person.person_id p) (wf_ids _ Hd));
        rewrite list_lookup_fmap; [by rewrite Hq, <- Hid | by rewrite Hp]. }
    assert (q = p) as -> by congruence.
    apply fellow_wanting_FELLOW in Hw; [congruence | done].
Qed.

Lemma staff_never_housed_witness :
  let ops := [CreateRoom "office" (Dojo.NamesList [PStr "Blue"; PStr "Red"]);
              CreateRoom "living_space" (Dojo.NamesList [PStr "Python"; PStr "Ruby"]);
              AddPerson "John Doe" "STAFF" (PStr "N") "a1" 0 0;
              AddPerson "Jane Smith" "FELLOW" (PStr "Y") "b2" 1 1;
              ReallocatePerson "a1" "Red";
              ReallocatePerson "a1" "Python";
              ReallocatePerson "b2" "Python"] in
  let john := Person.mk "John Doe" "a1" STAFF None (PBool true) None in
  Person.living_space_allocated john = None
  ∧ Forall (λ r, Person.person_id john ∉ Room.occupants r)
           (Dojo.living_spaces (run ops)).
Proof.
  intros ops john.
  apply (staff_never_housed ops 0 john); reflexivity.
Defined.

(** ** Moving between two rooms *)

Lemma list_find_unique {A} (P : A → Prop) `{∀ x, Decision (P x)} (l : list A)
    (i : nat) (x : A) :
  l !! i = Some x → P x →
  (∀ j y, l !! j = Some y → P y → j = i) →
  list_find P l = Some (i, x).
Proof.
  intros Hi HP Huniq. apply list_find_Some. split; [done |]. split; [done |].
  intros j y Hj Hlt HPy. specialize (Huniq j y Hj HPy). lia.
Qed.

Lemma find_new_room_by_name (d : Dojo.t) (person : Person.t) (k : RoomType)
    (j : nat) (B : Room.t) :
  well_formed d →
  Dojo.rooms_of k d !! j = Some B →
  (k = living_space → Person.fellow_wanting person = true) →
  DojoApp.find_new_room d person (Room.name B) = DojoApp.Found k j B.
Proof.
  intros Hd Hj Hw. unfold DojoApp.find_new_room.
  assert (Hfind : list_find (λ o, lower (Room.name o) = lower (Room.name B))
                            (Dojo.rooms_of k d) = Some (j, B)).
  { apply list_find_unique; [done | done |].
    intros a y Ha Hy. by destruct (wf_names d Hd k k a j y B Ha Hj Hy). }
  destruct k; simpl in Hfind.
  - by rewrite Hfind.
  - destruct (list_find _ (Dojo.offices d)) as [[a o]|] eqn:Ho.
    + apply list_find_Some in Ho as (Ha & Hy & _).
      by destruct (wf_names d Hd office living_space a j o B Ha Hj Hy).
    + by rewrite Hfind, Hw.
Qed.

(** A person in room [A] (position [i]) moves to the room [B] (position [j])
    of the same kind, which is not full: the call succeeds, and the rooms of
    that kind afterwards are those before with the id taken out of [A] and
    appended to [B]. *)
Lemma reallocate_person_moves (d : Dojo.t) (k : RoomType) (i j : nat)
    (A B : Room.t) (pid : string) :
  well_formed d →
  Dojo.rooms_of k d !! i = Some A →
  Dojo.rooms_of k d !! j = Some B →
  i ≠ j →
  pid ∈ Room.occupants A →
  Room.is_full B = false →
  ∃ d' l,
    DojoApp.reallocate_person d pid (Room.name B) = (Ret true, d')
    ∧ list_remove pid (Room.occupants A) = Some l
    ∧ Dojo.rooms_of k d'
      = alter (λ r, Room.set_occupants r (Room.occupants r ++ [pid])) j
          (alter (λ r, Room.set_occupants r l) i (Dojo.rooms_of k d)).
Proof.
  intros Hd Hi Hj Hne Hin Hfull.
  destruct (wf_known d Hd k i A pid Hi Hin) as (a & q & Hq & Hqid & Hw).
  assert (Hperson : list_find (λ p, Person.person_id p = pid) (Dojo.people d)
                    = Some (a, q)).
  { apply list_find_unique; [done | done |].
    intros b y Hb Hy.
    apply (NoDup_lookup _ _ _ pid (wf_ids d Hd));
      rewrite list_lookup_fmap; [by rewrite Hb, <- Hy | by rewrite Hq, <- Hqid]. }
  assert (Hcurrent : list_find (λ room, pid ∈ Room.occupants room)
                               (Dojo.rooms_of k d) = Some (i, A)).
  { apply list_find_unique; [done | done |].
    intros b y Hb Hy. by eapply (wf_exclusive d Hd). }
  destruct (list_remove_is_Some pid (Room.occupants A) Hin) as [l Hl].
  unfold DojoApp.reallocate_person.
  rewrite Hperson, (find_new_room_by_name d q k j B Hd Hj Hw).
  unfold Room.is_full in Hfull. rewrite Hfull, Hcurrent.
  rewrite bool_decide_eq_false_2.
  2: { intros Heq. by destruct (wf_names d Hd k k i j A B Hi Hj Heq). }
  unfold DojoApp.perform_reallocation. rewrite Hl. simpl.
  eexists _, l. split; [done |]. split; [done |]. by dojo_simpl.
Qed.

(** C9: in an instance built with fresh identifiers, a person in room [A]
    is moved to a room [B] of the same kind that is not full: the call
    succeeds, the id is then absent from [A] and present in [B]; the reverse
    call succeeds too ([A] has the place just vacated), and both rooms then
    have the occupants they had at the start. *)
Theorem reallocate_person_round_trip (ops : list Op) (k : RoomType) (i j : nat)
    (A B : Room.t) (pid : string) :
  fresh ops = true →
  Dojo.rooms_of k (run ops) !! i = Some A →
  Dojo.rooms_of k (run ops) !! j = Some B →
  i ≠ j →
  pid ∈ Room.occupants A →
  Room.is_full B = false →
  ∃ d1 A1 B1 d2 A2 B2,
    DojoApp.reallocate_person (run ops) pid (Room.name B) = (Ret true, d1)
    ∧ Dojo.rooms_of k d1 !! i = Some A1 ∧ Dojo.rooms_of k d1 !! j = Some B1
    ∧ Room.name A1 = Room.name A ∧ Room.name B1 = Room.name B
    ∧ (pid ∉ Room.occupants A1) ∧ pid ∈ Room.occupants B1
    ∧ DojoApp.reallocate_person d1 pid (Room.name A) = (Ret true, d2)
    ∧ Dojo.rooms_of k d2 !! i = Some A2 ∧ Dojo.rooms_of k d2 !! j = Some B2
    ∧ (∀ x, x ∈ Room.occupants A2 ↔ x ∈ Room.occupants A)
    ∧ (∀ x, x ∈ Room.occupants B2 ↔ x ∈ Room.occupants B).
Proof.
  intros Hfresh Hi Hj Hne Hin Hfull.
  set (d := run ops) in *.
  assert (well_formed d) as Hd by by apply run_wf.
  assert (capacity_ok d) as Hcap by apply run_capacity.
  pose proof (Forall_lookup_1 _ _ _ _ (wf_rooms d Hd k) Hi) as [_ HndA].
  pose proof (Forall_lookup_1 _ _ _ _ (Hcap k) Hi) as [HcA HlenA].
  destruct (reallocate_person_moves d k i j A B pid Hd Hi Hj Hne Hin Hfull)
    as (d1 & l & Hmove & Hl & Hrooms1).
  assert (well_formed d1) as Hd1.
  { pose proof (reallocate_person_wf d pid (Room.name B) Hd) as H'.
    by rewrite Hmove in H'. }
  pose proof (list_remove_Permutation _ _ _ Hl) as Hperm.
  assert (NoDup (pid :: l)) as [Hnin _]%NoDup_cons by by rewrite <- Hperm.
  set (A1 := Room.set_occupants A l).
  set (B1 := Room.set_occupants B (Room.occupants B ++ [pid])).
  assert (Dojo.rooms_of k d1 !! i = Some A1) as Hi1.
  { rewrite Hrooms1, list_lookup_alter_ne, list_lookup_alter_eq, Hi by done.
    done. }
  assert (Dojo.rooms_of k d1 !! j = Some B1) as Hj1.
  { rewrite Hrooms1, list_lookup_alter_eq, list_lookup_alter_ne, Hj by done.
    done. }
  assert (pid ∈ Room.occupants B1) as Hin1.
  { apply elem_of_app. right. by apply list_elem_of_singleton. }
  assert (Room.is_full A1 = false) as Hfull1.
  { unfold Room.is_full. apply bool_decide_eq_false_2. simpl.
    apply Permutation_length in Hperm. simpl in Hperm. lia. }
  destruct (reallocate_person_moves d1 k j i B1 A1 pid Hd1 Hj1 Hi1
              (not_eq_sym Hne) Hin1 Hfull1)
    as (d2 & l2 & Hback & Hl2 & Hrooms2).
  apply list_remove_Permutation in Hl2. simpl in Hl2.
  exists d1, A1, B1, d2,
    (Room.set_occupants A1 (Room.occupants A1 ++ [pid])),
    (Room.set_occupants B1 l2).
  split; [done |]. split; [done |]. split; [done |].
  split; [done |]. split; [done |]. split; [done |]. split; [done |].
  split; [done |]. split.
  { rewrite Hrooms2, list_lookup_alter_eq, list_lookup_alter_ne, Hi1 by done.
    done. }
  split.
  { rewrite Hrooms2, list_lookup_alter_ne, list_lookup_alter_eq, Hj1 by done.
    done. }
  split.
  - intros x. simpl. rewrite Hperm, elem_of_app, !elem_of_cons, elem_of_nil.
    tauto.
  - intros x. simpl.
    assert (Room.occupants B ≡ₚ l2) as ->; [| done].
    apply (Permutation_cons_inv (a := pid)). rewrite <- Hl2.
    by rewrite Permutation_app_comm.
Qed.

Lemma reallocate_person_round_trip_witness :
  let ops := [CreateRoom "office" (Dojo.NamesList [PStr "Blue"; PStr "Red"]);
              AddPerson "John Doe" "STAFF" (PStr "N") "a1" 0 0;
              AddPerson "Jane Smith" "FELLOW" (PStr "N") "b2" 0 0] in
  let blue := Room.mk "Blue" office 6 ["a1"; "b2"] in
  let red := Room.mk "Red" office 6 [] in
  ∃ d1 A1 B1 d2 A2 B2,
    DojoApp.reallocate_person (run ops) "a1" "Red" = (Ret true, d1)
    ∧ Dojo.offices d1 !! 0 = Some A1 ∧ Dojo.offices d1 !! 1 = Some B1
    ∧ Room.name A1 = "Blue" ∧ Room.name B1 = "Red"
    ∧ ("a1" ∉ Room.occupants A1) ∧ "a1" ∈ Room.occupants B1
    ∧ DojoApp.reallocate_person d1 "a1" "Blue" = (Ret true, d2)
    ∧ Dojo.offices d2 !! 0 = Some A2 ∧ Dojo.offices d2 !! 1 = Some B2
    ∧ (∀ x, x ∈ Room.occupants A2 ↔ x ∈ ["a1"; "b2"])
    ∧ (∀ x, x ∈ Room.occupants B2 ↔ x ∈ []).
Proof.
  intros ops blue red.
  apply (reallocate_person_round_trip ops office 0 1 blue red "a1").
  - reflexivity.
  - reflexivity.
  - reflexivity.
  - lia.
  - apply elem_of_cons. left. reflexivity.
  - reflexivity.
Defined.

(** * Further properties of the modelled code *)

(** ** Room methods *)

Lemma list_remove_snoc (x : string) (l : list string) :
  x ∉ l → list_remove x (l ++ [x]) = Some l.
Proof.
  induction l as [|y l IH]; simpl; intros Hx.
  - by rewrite bool_decide_eq_true_2.
  - apply not_elem_of_cons in Hx as [Hne Hx].
    rewrite bool_decide_eq_false_2 by done. by rewrite IH.
Qed.

Lemma list_remove_None (x : string) (l : list string) :
  list_remove x l = None ↔ x ∉ l.
Proof.
  split.
  - intros Hn Hin. apply list_remove_is_Some in Hin as [l' Hl']. congruence.
  - intros Hx. destruct (list_remove x l) as [l'|] eqn:Hl; [| done].
    apply list_remove_Permutation in Hl. exfalso. apply Hx.
    rewrite Hl. apply elem_of_cons. by left.
Qed.

(** X1: [add_occupant] is idempotent: a second call with the same id gives
    the result of the first and changes nothing more. *)
Theorem add_occupant_idempotent (r : Room.t) (person_id : option string) :
  Room.add_occupant (Room.add_occupant r person_id).2 person_id
  = Room.add_occupant r person_id.
Proof.
  destruct person_id as [pid|]; [| done].
  destruct (Room.add_occupant r (Some pid)) as [b r'] eqn:Hadd.
  unfold Room.add_occupant in *. simpl.
  case_bool_decide as Hempty; [by simplify_eq |].
  case_bool_decide as Hin.
  { simplify_eq. by rewrite bool_decide_eq_true_2. }
  destruct (Room.is_full r) eqn:Hfull; simplify_eq.
  { by rewrite bool_decide_eq_false_2, Hfull. }
  simpl. rewrite bool_decide_eq_true_2; [done |].
  apply elem_of_app. right. by apply list_elem_of_singleton.
Qed.

(** X2: the contract of [add_occupant] on an id: it returns [True] exactly
    when the id is not empty and is already an occupant or the room has a
    free place; after [True] the id is an occupant; after [False] the room is
    as before; the name, kind and capacity never change and no occupant is
    listed twice afterwards unless one was before. *)
Theorem add_occupant_contract (r : Room.t) (pid : string) :
  let res := Room.add_occupant r (Some pid) in
  (res.1 = true ↔
     pid ≠ "" ∧ (pid ∈ Room.occupants r
                 ∨ length (Room.occupants r) < Room.capacity r))
  ∧ (res.1 = true → pid ∈ Room.occupants res.2)
  ∧ (res.1 = false → res.2 = r)
  ∧ Room.name res.2 = Room.name r
  ∧ Room.room_type res.2 = Room.room_type r
  ∧ Room.capacity res.2 = Room.capacity r
  ∧ (NoDup (Room.occupants r) → NoDup (Room.occupants res.2)).
Proof.
  unfold Room.add_occupant, Room.is_full.
  case_bool_decide as Hempty; simpl.
  { repeat split; try done. by intros [? _]. }
  case_bool_decide as Hin; simpl.
  { repeat split; auto. }
  case_bool_decide as Hfull; simpl.
  { repeat split; try done. intros [_ [? | ?]]; [done | lia]. }
  split; [split; [intros _; split; [done | right; lia] | done] |].
  split.
  { intros _. apply elem_of_app. right. by apply list_elem_of_singleton. }
  split; [done |]. split; [done |]. split; [done |]. split; [done |].
  intros Hnd. apply NoDup_app. split; [done |].
  split; [| apply NoDup_singleton].
  intros x Hx ->%list_elem_of_singleton. done.
Qed.

(** X3: adding a new id to a room with a free place and removing it again
    gives back the room; both calls return [True]. *)
Theorem add_then_remove_occupant (r : Room.t) (pid : string) :
  pid ≠ "" →
  pid ∉ Room.occupants r →
  Room.is_full r = false →
  ∃ r', Room.add_occupant r (Some pid) = (true, r')
        ∧ Room.occupants r' = Room.occupants r ++ [pid]
        ∧ Room.remove_occupant r' (Some pid) = (true, r).
Proof.
  intros Hne Hnin Hfull. eexists. split; [| split].
  - unfold Room.add_occupant.
    by rewrite !bool_decide_eq_false_2, Hfull by done.
  - done.
  - unfold Room.remove_occupant. simpl.
    rewrite bool_decide_eq_false_2 by done.
    rewrite bool_decide_eq_false_2 by (by destruct (Room.occupants r)).
    simpl. rewrite list_remove_snoc by done. by destruct r.
Qed.

Lemma add_then_remove_occupant_witness :
  ∃ r', Room.add_occupant (Room.mk "Blue" office 6 ["a1"]) (Some "b2") = (true, r')
        ∧ Room.occupants r' = ["a1"] ++ ["b2"]
        ∧ Room.remove_occupant r' (Some "b2")
          = (true, Room.mk "Blue" office 6 ["a1"]).
Proof.
  apply (add_then_remove_occupant (Room.mk "Blue" office 6 ["a1"]) "b2").
  - discriminate.
  - simpl. intros [=]%list_elem_of_singleton.
  - reflexivity.
Defined.

(** X4: the contract of [remove_occupant] on an id: it returns [True]
    exactly when the id is not empty and is an occupant; then one occurrence
    of the id, the first, is gone and the other occupants stay; after
    [False] the room is as before. *)
Theorem remove_occupant_contract (r : Room.t) (pid : string) :
  let res := Room.remove_occupant r (Some pid) in
  (res.1 = true ↔ pid ≠ "" ∧ pid ∈ Room.occupants r)
  ∧ (res.1 = true →
       Room.occupants r ≡ₚ pid :: Room.occupants res.2
       ∧ length (Room.occupants res.2) + 1 = length (Room.occupants r)
       ∧ (NoDup (Room.occupants r) → pid ∉ Room.occupants res.2))
  ∧ (res.1 = false → res.2 = r)
  ∧ Room.name res.2 = Room.name r
  ∧ Room.capacity res.2 = Room.capacity r.
Proof.
  unfold Room.remove_occupant.
  case_bool_decide as Hempty; simpl.
  { repeat split; try done. by intros [? _]. }
  case_bool_decide as Hnil; simpl.
  { rewrite Hnil. repeat split; try done. intros [_ ?%elem_of_nil]. done. }
  destruct (list_remove pid (Room.occupants r)) as [l|] eqn:Hl; simpl.
  - pose proof (list_remove_Permutation _ _ _ Hl) as Hperm.
    repeat split; try done.
    + rewrite Hperm. apply elem_of_cons. by left.
    + apply Permutation_length in Hperm. simpl in Hperm. lia.
    + intros Hnd. rewrite Hperm in Hnd. by apply NoDup_cons in Hnd as [? _].
  - apply list_remove_None in Hl. repeat split; try done. by intros [_ ?].
Qed.

(** ** Room creation *)

Lemma set_rooms_same (k : RoomType) (d : Dojo.t) :
  Dojo.set_rooms k (Dojo.rooms_of k d) d = d.
Proof. by destruct k, d. Qed.

Lemma set_rooms_set_rooms (k : RoomType) (l l' : list Room.t) (d : Dojo.t) :
  Dojo.set_rooms k l' (Dojo.set_rooms k l d) = Dojo.set_rooms k l' d.
Proof. by destruct k, d. Qed.

(** The loop of [create_room] appends rooms of kind [k], new and empty, one
    for each name it accepts, and reports whether there was any. *)
Lemma create_room_loop_appends (k : RoomType) (names : list value) (c : bool)
    (d : Dojo.t) :
  ∃ new,
    Dojo.create_room_loop k names c d
    = (c || bool_decide (new ≠ []), Dojo.set_rooms k (Dojo.rooms_of k d ++ new) d)
    ∧ Forall (λ r, ∃ n, r = new_room k n ∧ PStr n ∈ names ∧ blank n = false) new.
Proof.
  revert c d. induction names as [|v rest IH]; intros c d.
  { exists []. rewrite app_nil_r, set_rooms_same, orb_false_r. by split. }
  assert (Hskip : ∀ new,
    Forall (λ r, ∃ n, r = new_room k n ∧ PStr n ∈ rest ∧ blank n = false) new →
    Forall (λ r, ∃ n, r = new_room k n ∧ PStr n ∈ v :: rest ∧ blank n = false) new).
  { intros new Hf. eapply Forall_impl; [exact Hf |].
    intros r (n & ? & ? & ?). exists n.
    split; [done |]. split; [by apply elem_of_cons; right | done]. }
  destruct v as [|name|b];
    try (destruct (IH c d) as (new & Heq & Hnew); exists new; by auto).
  rewrite create_room_loop_cons. fold (blank name).
  destruct (blank name) eqn:Hblank;
    [destruct (IH c d) as (new & Heq & Hnew); exists new; by auto |].
  destruct (Dojo.name_exists d name);
    [destruct (IH c d) as (new & Heq & Hnew); exists new; by auto |].
  destruct (IH true (Dojo.set_rooms k (Dojo.rooms_of k d ++ [new_room k name]) d))
    as (new & Heq & Hnew).
  exists (new_room k name :: new). split.
  - rewrite Heq, rooms_of_set_rooms_eq, set_rooms_set_rooms, <- app_assoc.
    simpl. by rewrite orb_true_r.
  - constructor; [| by apply Hskip].
    exists name. split; [done |]. split; [apply elem_of_cons; by left | done].
Qed.

Lemma parse_room_type_Some (s : string) (k : RoomType) :
  Dojo.parse_room_type s = Some k ↔ kind_named s k.
Proof.
  unfold Dojo.parse_room_type, kind_named.
  destruct k; repeat case_bool_decide; subst; split; intros; try done;
    congruence.
Qed.

(** X5: [create_room] refuses, writing nothing, a kind that is neither
    [office] nor [living_space]; otherwise it only appends, to the rooms of
    the kind named: the people and the rooms of the other kind are
    untouched, the rooms of the kind named are those before followed by the
    new ones, each empty, of that kind and of its capacity, with a name that
    was asked for and is not blank; and the result is [True] exactly when
    at least one room was appended. *)
Theorem create_room_appends (d : Dojo.t) (room_type : string)
    (names : Dojo.room_names) :
  let res := Dojo.create_room d room_type names in
  ((∀ k, ¬ kind_named room_type k) → res = (false, d))
  ∧ ∀ k,
      kind_named room_type k →
      ∃ new,
        Dojo.rooms_of k res.2 = Dojo.rooms_of k d ++ new
        ∧ (∀ k', k' ≠ k → Dojo.rooms_of k' res.2 = Dojo.rooms_of k' d)
        ∧ Dojo.people res.2 = Dojo.people d
        ∧ Dojo.staff res.2 = Dojo.staff d
        ∧ Dojo.fellows res.2 = Dojo.fellows d
        ∧ Forall (λ r, Room.room_type r = k
                       ∧ Room.capacity r = room_capacity k
                       ∧ Room.occupants r = []
                       ∧ requested names (Room.name r)
                       ∧ blank (Room.name r) = false) new
        ∧ (res.1 = true ↔ new ≠ []).
Proof.
  intros res. subst res. unfold Dojo.create_room. split.
  { intros Hno.
    destruct (Dojo.parse_room_type room_type) as [k|] eqn:Hk; [| done].
    apply parse_room_type_Some in Hk. by destruct (Hno k). }
  intros k Hk%parse_room_type_Some. rewrite Hk.
  assert (Hloop : ∀ l,
    (∀ n, PStr n ∈ l → requested names n) →
    let res := Dojo.create_room_loop k l false d in
    ∃ new,
      Dojo.rooms_of k res.2 = Dojo.rooms_of k d ++ new
      ∧ (∀ k', k' ≠ k → Dojo.rooms_of k' res.2 = Dojo.rooms_of k' d)
      ∧ Dojo.people res.2 = Dojo.people d
      ∧ Dojo.staff res.2 = Dojo.staff d
      ∧ Dojo.fellows res.2 = Dojo.fellows d
      ∧ Forall (λ r, Room.room_type r = k
                     ∧ Room.capacity r = room_capacity k
                     ∧ Room.occupants r = []
                     ∧ requested names (Room.name r)
                     ∧ blank (Room.name r) = false) new
      ∧ (res.1 = true ↔ new ≠ [])).
  { intros l Hreq.
    destruct (create_room_loop_appends k l false d) as (new & Heq & Hnew).
    simpl. rewrite Heq. simpl. exists new.
    split; [by rewrite rooms_of_set_rooms_eq |].
    split; [intros k' Hne; by rewrite rooms_of_set_rooms, decide_False |].
    split; [by rewrite people_set_rooms |].
    split; [by destruct k, d |]. split; [by destruct k, d |].
    split; [| by rewrite bool_decide_eq_true].
    eapply Forall_impl; [exact Hnew |].
    intros r (n & -> & Hin & Hb).
    assert (Room.name (new_room k n) = n) as Hn by by destruct k.
    rewrite Hn. split; [by destruct k |]. split; [by destruct k |].
    split; [by destruct k |]. split; [by apply Hreq | done]. }
  destruct names as [s|l|].
  - apply Hloop. by intros n [= ->]%list_elem_of_singleton.
  - by apply Hloop.
  - exists []. rewrite app_nil_r. simpl.
    split; [done |]. split; [done |]. split; [done |]. split; [done |].
    split; [done |]. split; [constructor | done].
Qed.

Lemma name_exists_true (d : Dojo.t) (name : string) :
  Dojo.name_exists d name = true ↔
  ∃ k r, r ∈ Dojo.rooms_of k d ∧ lower (Room.name r) = lower name.
Proof.
  unfold Dojo.name_exists. rewrite bool_decide_eq_true, Exists_exists.
  split.
  - intros (r & [Hr | Hr]%elem_of_app & Heq);
      [exists office, r | exists living_space, r]; done.
  - intros (k & r & Hr & Heq). exists r. split; [| done].
    apply elem_of_app. destruct k; [by left | by right].
Qed.

Lemma create_room_loop_keeps_names (k : RoomType) (names : list value)
    (c : bool) (d : Dojo.t) (name : string) :
  Dojo.name_exists d name = true →
  Dojo.name_exists (Dojo.create_room_loop k names c d).2 name = true.
Proof.
  destruct (create_room_loop_appends k names c d) as (new & -> & _). simpl.
  rewrite !name_exists_true. intros (k' & r & Hr & Heq).
  exists k', r. split; [| done]. rewrite rooms_of_set_rooms.
  case_decide; subst; [| done]. apply elem_of_app. by left.
Qed.

Lemma create_room_loop_registers (k : RoomType) (names : list value) (c : bool)
    (d : Dojo.t) (name : string) :
  PStr name ∈ names → blank name = false →
  Dojo.name_exists (Dojo.create_room_loop k names c d).2 name = true.
Proof.
  revert c d. induction names as [|v rest IH]; intros c d Hin Hb.
  { by apply elem_of_nil in Hin. }
  apply elem_of_cons in Hin as [<- | Hin].
  - rewrite create_room_loop_cons. fold (blank name). rewrite Hb.
    destruct (Dojo.name_exists d name) eqn:Hex.
    + by apply create_room_loop_keeps_names.
    + apply create_room_loop_keeps_names, name_exists_true.
      exists k, (new_room k name). rewrite rooms_of_set_rooms_eq.
      split; [| by destruct k]. apply elem_of_app. right.
      by apply list_elem_of_singleton.
  - destruct v as [|n|b]; try by apply IH.
    rewrite create_room_loop_cons.
    destruct (bool_decide (n = "") || strip_is_empty n); [by apply IH |].
    destruct (Dojo.name_exists d n); by apply IH.
Qed.

Lemma create_room_loop_noop (k : RoomType) (names : list value) (c : bool)
    (d : Dojo.t) :
  (∀ name, PStr name ∈ names → blank name = false →
           Dojo.name_exists d name = true) →
  Dojo.create_room_loop k names c d = (c, d).
Proof.
  induction names as [|v rest IH]; intros Hall; [done |].
  assert (Dojo.create_room_loop k rest c d = (c, d)) as Hrest.
  { apply IH. intros n Hn. apply Hall, elem_of_cons. by right. }
  destruct v as [|n|b]; try done.
  rewrite create_room_loop_cons. fold (blank n).
  destruct (blank n) eqn:Hb; [done |].
  rewrite (Hall n); [done | apply elem_of_cons; by left | done].
Qed.

(** X6: calling [create_room] a second time with the same arguments creates
    nothing and returns [False]: every name of the batch is taken by then. *)
Theorem create_room_twice (d : Dojo.t) (room_type : string)
    (names : Dojo.room_names) :
  let d' := (Dojo.create_room d room_type names).2 in
  Dojo.create_room d' room_type names = (false, d').
Proof.
  unfold Dojo.create_room.
  destruct (Dojo.parse_room_type room_type) as [k|]; [| done].
  destruct names as [s|l|]; [| | done]; cbv beta iota zeta;
    apply create_room_loop_noop; intros n Hn Hb;
    by apply create_room_loop_registers.
Qed.

(** ** What the operations leave alone *)

Lemma fmap_alter_same {A B} (p : A → B) (g : A → A) (i : nat) (l : list A) :
  (∀ x, p (g x) = p x) → p <$> alter g i l = p <$> l.
Proof.
  intros Hp. apply list_eq. intros j.
  rewrite !list_lookup_fmap, list_lookup_alter.
  case_decide; subst; [| done].
  destruct (l !! j); simpl; [| done]. by rewrite Hp.
Qed.

Lemma same_registry_refl (d : Dojo.t) : same_registry d d.
Proof. by repeat split. Qed.

Lemma same_registry_trans (d1 d2 d3 : Dojo.t) :
  same_registry d1 d2 → same_registry d2 d3 → same_registry d1 d3.
Proof.
  intros (Hr & Hp & Hs & Hf) (Hr' & Hp' & Hs' & Hf').
  split; [intros k; by rewrite Hr', Hr |]. split; [by rewrite Hp', Hp |].
  split; congruence.
Qed.

Lemma same_registry_alter_room (d : Dojo.t) (k : RoomType) (i : nat)
    (f : Room.t → Room.t) :
  (∀ r, room_identity (f r) = room_identity r) →
  same_registry d (Dojo.alter_room k i f d).
Proof.
  intros Hf. split; [| by destruct k, d].
  intros k'. rewrite rooms_of_alter_room. case_decide; subst; [| done].
  by apply fmap_alter_same.
Qed.

Lemma same_registry_alter_person (d : Dojo.t) (i : nat) (f : Person.t → Person.t) :
  (∀ p, person_identity (f p) = person_identity p) →
  same_registry d (Dojo.alter_person i f d).
Proof.
  intros Hf. split; [intros k; by rewrite rooms_of_alter_person |].
  split; [| by destruct d].
  rewrite people_alter_person. by apply fmap_alter_same.
Qed.

Lemma person_identity_set_allocated (k : RoomType) (v : value) (p : Person.t) :
  person_identity (DojoApp.set_allocated k v p) = person_identity p.
Proof. by destruct k. Qed.

Lemma room_identity_add_occupant (r : Room.t) (person_id : option string) :
  room_identity (Room.add_occupant r person_id).2 = room_identity r.
Proof.
  unfold Room.add_occupant. destruct person_id as [pid|]; [| done].
  repeat case_bool_decide; try done. by destruct (Room.is_full r).
Qed.

Lemma allocate_same_registry (k : RoomType) (d : Dojo.t) (person r : nat) :
  same_registry d (Dojo._allocate k d person r).2.
Proof.
  destruct (allocate_unfold k d person r) as [-> | (i & room & p & _ & _ & ->)];
    [apply same_registry_refl |].
  eapply same_registry_trans.
  - apply same_registry_alter_room. intros x. apply room_identity_add_occupant.
  - apply same_registry_alter_person. intros x.
    apply person_identity_set_allocated.
Qed.

Lemma perform_reallocation_same_registry (d : Dojo.t) (k : RoomType)
    (person : nat) (person_id : string) (current : option (nat * Room.t))
    (ti : nat) (new_room : Room.t) :
  same_registry d
    (DojoApp.perform_reallocation d k person person_id current ti new_room).2.
Proof.
  unfold DojoApp.perform_reallocation.
  assert (Hadd : ∀ d2, same_registry d d2 →
    same_registry d
      (Dojo.alter_person person
         (DojoApp.set_allocated (Room.room_type new_room) (PBool true))
         (Dojo.alter_room k ti
            (λ r, Room.set_occupants r (Room.occupants r ++ [person_id])) d2))).
  { intros d2 H2. eapply same_registry_trans; [exact H2 |].
    eapply same_registry_trans;
      [| apply same_registry_alter_person; intros x;
         apply person_identity_set_allocated].
    by apply same_registry_alter_room. }
  destruct current as [[ci cur]|]; simpl.
  - destruct (list_remove person_id (Room.occupants cur)) as [l|]; simpl;
      [| apply same_registry_refl].
    apply Hadd.
    eapply same_registry_trans;
      [| apply same_registry_alter_person; intros x;
         apply person_identity_set_allocated].
    by apply same_registry_alter_room.
  - apply Hadd, same_registry_refl.
Qed.

Lemma perform_reallocation_other_kind (d : Dojo.t) (k k' : RoomType)
    (person : nat) (person_id : string) (current : option (nat * Room.t))
    (ti : nat) (new_room : Room.t) :
  k' ≠ k →
  Dojo.rooms_of k'
    (DojoApp.perform_reallocation d k person person_id current ti new_room).2
  = Dojo.rooms_of k' d.
Proof.
  intros Hne. unfold DojoApp.perform_reallocation.
  destruct current as [[ci cur]|]; simpl.
  - destruct (list_remove person_id (Room.occupants cur)) as [l|]; simpl; [| done].
    dojo_simpl. by rewrite !decide_False.
  - dojo_simpl. by rewrite !decide_False.
Qed.

Lemma reallocate_person_frame (d : Dojo.t)
    (person_id new_room_name : string) :
  let d' := (DojoApp.reallocate_person d person_id new_room_name).2 in
  same_registry d d'
  ∧ ∃ k, ∀ k', k' ≠ k → Dojo.rooms_of k' d' = Dojo.rooms_of k' d.
Proof.
  unfold DojoApp.reallocate_person.
  assert (Hsame : same_registry d d
                  ∧ ∃ k : RoomType, ∀ k', k' ≠ k →
                      Dojo.rooms_of k' d = Dojo.rooms_of k' d).
  { split; [apply same_registry_refl | by exists office]. }
  destruct (list_find _ (Dojo.people d)) as [[pi person]|]; [| done].
  destruct (DojoApp.find_new_room d person new_room_name)
    as [k ti new_room| |]; try done.
  case_bool_decide; [done |].
  assert (∀ current,
    same_registry d
      (DojoApp.perform_reallocation d k pi person_id current ti new_room).2
    ∧ ∃ k0, ∀ k', k' ≠ k0 →
        Dojo.rooms_of k'
          (DojoApp.perform_reallocation d k pi person_id current ti new_room).2
        = Dojo.rooms_of k' d) as Hperf.
  { intros current. split; [apply perform_reallocation_same_registry |].
    exists k. intros k' Hne. by apply perform_reallocation_other_kind. }
  destruct (list_find _ (Dojo.rooms_of k d)) as [[ci cur]|]; [| apply Hperf].
  case_bool_decide; [done | apply Hperf].
Qed.

(** X7: [reallocate_person] never creates, deletes, renames or resizes a
    room, never adds, drops or alters the identity of a person, and touches
    the rooms of one kind at most. *)
Theorem reallocate_person_keeps_registry (d : Dojo.t)
    (person_id new_room_name : string) :
  let d' := (DojoApp.reallocate_person d person_id new_room_name).2 in
  same_registry d d'
  ∧ ∃ k, ∀ k', k' ≠ k → Dojo.rooms_of k' d' = Dojo.rooms_of k' d.
Proof. apply reallocate_person_frame. Qed.

(** ** Unique room names *)

Lemma names_unique_same (d d' : Dojo.t) :
  (∀ k, room_identity <$> Dojo.rooms_of k d'
        = room_identity <$> Dojo.rooms_of k d) →
  names_unique d → names_unique d'.
Proof.
  intros Hsame. unfold names_unique.
  assert (∀ l : list Room.t,
            (λ r, lower (Room.name r)) <$> l
            = (λ t : string * RoomType * nat, lower t.1.1) <$> (room_identity <$> l))
    as Hc.
  { intros l. by rewrite <- list_fmap_compose. }
  pose proof (Hsame office) as Ho. pose proof (Hsame living_space) as Hl.
  simpl in Ho, Hl. rewrite !fmap_app, !Hc. by rewrite Ho, Hl.
Qed.

Lemma names_unique_append (d : Dojo.t) (k : RoomType) (name : string) :
  names_unique d → Dojo.name_exists d name = false →
  names_unique (Dojo.set_rooms k (Dojo.rooms_of k d ++ [new_room k name]) d).
Proof.
  unfold names_unique, Dojo.name_exists.
  intros Hnd Hex%bool_decide_eq_false.
  assert (lower name ∉ (λ r, lower (Room.name r))
                       <$> (Dojo.offices d ++ Dojo.living_spaces d)) as Hnew.
  { intros (r & Heq & Hr)%list_elem_of_fmap. apply Hex, Exists_exists. eauto. }
  assert (Room.name (new_room k name) = name) as Hnm by by destruct k.
  assert ((λ r, lower (Room.name r))
            <$> (Dojo.offices
                   (Dojo.set_rooms k (Dojo.rooms_of k d ++ [new_room k name]) d)
                 ++ Dojo.living_spaces
                      (Dojo.set_rooms k (Dojo.rooms_of k d ++ [new_room k name]) d))
          ≡ₚ lower name :: ((λ r, lower (Room.name r))
                            <$> (Dojo.offices d ++ Dojo.living_spaces d)))
    as Hperm.
  { destruct k, d as [o l p s f]; simpl; rewrite !fmap_app; simpl.
    - rewrite <- app_assoc. simpl. symmetry. apply Permutation_middle.
    - rewrite app_assoc. apply Permutation_app_comm. }
  rewrite Hperm. by apply NoDup_cons.
Qed.

Lemma create_room_loop_names_unique (k : RoomType) (names : list value)
    (c : bool) (d : Dojo.t) :
  names_unique d → names_unique (Dojo.create_room_loop k names c d).2.
Proof.
  revert c d. induction names as [|v rest IH]; intros c d Hd; [done |].
  destruct v as [|name|b]; try by apply IH.
  rewrite create_room_loop_cons.
  destruct (bool_decide (name = "") || strip_is_empty name); [by apply IH |].
  destruct (Dojo.name_exists d name) eqn:Hex; [by apply IH |].
  by apply IH, names_unique_append.
Qed.

Lemma add_person_try_same_rooms (d : Dojo.t) (name : string) (k : PersonType)
    (wants : value) (uuid : string) (r1 r2 : nat) (k' : RoomType) :
  room_identity <$> Dojo.rooms_of k' (Dojo.add_person_try d name k wants uuid r1 r2).2
  = room_identity <$> Dojo.rooms_of k' d.
Proof.
  unfold Dojo.add_person_try.
  match goal with |- context [match ?c with Some _ => _ | None => _ end] =>
    destruct c as [person|] end; [| done].
  destruct (people_add_person_to_lists d person) as [Heq _].
  rewrite Heq. clear Heq.
  pose proof (rooms_of_add_person_to_lists k' d person) as H0.
  remember (Dojo._add_person_to_lists d person).2 as d1 eqn:Hd1. clear Hd1.
  unfold Dojo._allocate_office, Dojo._allocate_living_space.
  pose proof (allocate_same_registry office d1 (length (Dojo.people d)) r1)
    as [H1 _].
  destruct (Dojo._allocate office d1 _ r1) as [o d2]. simpl in H1.
  assert (room_identity <$> Dojo.rooms_of k' d2
          = room_identity <$> Dojo.rooms_of k' d) as H2.
  { by rewrite H1, H0. }
  destruct (split name); [done |].
  destruct (Person.fellow_wanting person); [| done]. simpl.
  pose proof (allocate_same_registry living_space d2
                (length (Dojo.people d)) r2) as [H3 _].
  by rewrite H3.
Qed.

Lemma step_same_rooms (d : Dojo.t) (o : Op) (k : RoomType) :
  match o with CreateRoom _ _ => False | _ => True end →
  room_identity <$> Dojo.rooms_of k (step d o)
  = room_identity <$> Dojo.rooms_of k d.
Proof.
  destruct o as [rt names | name pt w uuid r1 r2 | pid nm]; simpl; [done | |];
    intros _.
  - unfold Dojo.add_person.
    destruct (Dojo.parse_person_type _) as [k'|]; [| done].
    pose proof (add_person_try_same_rooms d name k' w uuid r1 r2 k) as H.
    by destruct (Dojo.add_person_try d name k' w uuid r1 r2) as [[b|e] d'].
  - by destruct (reallocate_person_frame d pid nm) as [[H _] _].
Qed.

Lemma step_names_unique (d : Dojo.t) (o : Op) :
  names_unique d → names_unique (step d o).
Proof.
  intros Hd. destruct o as [rt names | name pt w uuid r1 r2 | pid nm].
  - simpl. unfold Dojo.create_room.
    destruct (Dojo.parse_room_type rt) as [k|]; [| done].
    destruct names; try done; by apply create_room_loop_names_unique.
  - eapply names_unique_same; [| exact Hd]. intros k. by apply step_same_rooms.
  - eapply names_unique_same; [| exact Hd]. intros k. by apply step_same_rooms.
Qed.

Lemma run_names_unique (ops : list Op) : names_unique (run ops).
Proof.
  unfold run. assert (names_unique Dojo.init) as H by constructor.
  revert H. generalize Dojo.init.
  induction ops as [|o ops IH]; intros d Hd; simpl; [done |].
  by apply IH, step_names_unique.
Qed.

(** X8: after any sequence of calls, whatever the identifiers drawn, no two
    rooms bear the same name up to case, offices and living spaces taken
    together. *)
Theorem room_names_stay_unique (ops : list Op) : names_unique (run ops).
Proof. apply run_names_unique. Qed.

(** ** Admission of a person *)

Lemma parse_person_type_Some (s : string) (k : PersonType) :
  Dojo.parse_person_type s = Some k ↔
  s = match k with FELLOW => "FELLOW" | STAFF => "STAFF" end.
Proof.
  unfold Dojo.parse_person_type. repeat case_bool_decide; subst;
    destruct k; split; try done; congruence.
Qed.

Lemma accepted_new_person (person_type : string) (wants : value)
    (name uuid : string) :
  accepted person_type wants ↔
  ∃ k person, Dojo.parse_person_type (upper person_type) = Some k
              ∧ new_person name k wants uuid = Some person.
Proof.
  unfold accepted. split.
  - intros [Hf | [Hs Hw]].
    + exists FELLOW. eexists. by rewrite parse_person_type_Some.
    + exists STAFF, (Person.Staff name uuid).
      split; [by apply parse_person_type_Some |].
      destruct wants as [|s|b]; [done | | done].
      unfold new_person. rewrite bool_decide_eq_false_2; [done | by apply Hw].
  - intros (k & person & Hk%parse_person_type_Some & Hn).
    destruct k; [by left | right]. split; [done |].
    intros s ->. simpl in Hn. by case_bool_decide.
Qed.

Lemma new_person_fields (name : string) (k : PersonType) (wants : value)
    (uuid : string) (person : Person.t) :
  new_person name k wants uuid = Some person →
  person_identity person
  = (name, uuid, k,
     match k with FELLOW => Some (wants_yes wants) | STAFF => None end)
  ∧ Person.office_allocated person = PNone
  ∧ Person.living_space_allocated person
    = match k with FELLOW => Some PNone | STAFF => None end
  ∧ Person.fellow_wanting person
    = bool_decide (k = FELLOW) && wants_yes wants.
Proof.
  destruct k, wants as [|s|b]; simpl; try case_bool_decide;
    intros [= <-]; try done;
    unfold person_identity, Person.fellow_wanting; simpl;
    by rewrite ?bool_decide_eq_true_2, ?bool_decide_eq_false_2 by done.
Qed.

Lemma classic_accepted (person_type : string) (wants : value) :
  accepted person_type wants ∨ ¬ accepted person_type wants.
Proof.
  unfold accepted.
  destruct (decide (upper person_type = "FELLOW")) as [Hf | Hf]; [by left; left |].
  destruct (decide (upper person_type = "STAFF")) as [Hs | Hs].
  - destruct wants as [|s|b];
      try (left; right; split; [done | by intros s' [=]]).
    destruct (decide (upper s = "Y")) as [Hy | Hy].
    + right. intros [? | [_ Hw]]; [done |]. by apply (Hw s).
    + left. right. split; [done |]. by intros s' [= <-].
  - right. by intros [? | [? _]].
Qed.

Lemma add_person_unfold (d : Dojo.t) (name person_type : string) (wants : value)
    (uuid : string) (r1 r2 : nat) (k : PersonType) (person : Person.t) :
  Dojo.parse_person_type (upper person_type) = Some k →
  new_person name k wants uuid = Some person →
  Dojo.add_person d name person_type wants uuid r1 r2
  = let ref := length (Dojo.people d) in
    let d2 := (Dojo._allocate office (Dojo._add_person_to_lists d person).2
                 ref r1).2 in
    match split name with
    | [] => (Raise NameError, d2)
    | _ :: _ =>
        (Ret true,
         if Person.fellow_wanting person
         then (Dojo._allocate living_space d2 ref r2).2 else d2)
    end.
Proof.
  intros Hk Hn. unfold Dojo.add_person, Dojo.add_person_try. rewrite Hk.
  fold (new_person name k wants uuid). rewrite Hn.
  destruct (people_add_person_to_lists d person) as [Heq _]. rewrite Heq.
  unfold Dojo._allocate_office, Dojo._allocate_living_space. cbv zeta.
  destruct (Dojo._allocate office _ _ r1) as [o d2].
  cbv beta iota. destruct (split name); [done |].
  by destruct (Person.fellow_wanting person).
Qed.

Lemma add_person_rejected (d : Dojo.t) (name person_type : string) (wants : value)
    (uuid : string) (r1 r2 : nat) :
  ¬ accepted person_type wants →
  Dojo.add_person d name person_type wants uuid r1 r2 = (Ret false, d).
Proof.
  intros Hna. unfold Dojo.add_person, Dojo.add_person_try.
  destruct (Dojo.parse_person_type (upper person_type)) as [k|] eqn:Hk; [| done].
  fold (new_person name k wants uuid).
  destruct (new_person name k wants uuid) as [person|] eqn:Hn; [| done].
  exfalso. apply Hna. apply (accepted_new_person _ _ name uuid). eauto.
Qed.

(** X9: the result of [add_person] depends on its arguments only: [True]
    when they are accepted and the name has a word, [NameError] when they
    are accepted and the name has none, [False], with nothing written,
    when they are refused (unknown kind, or staff asking for
    accommodation). *)
Theorem add_person_outcome (d : Dojo.t) (name person_type : string)
    (wants : value) (uuid : string) (r1 r2 : nat) :
  let res := Dojo.add_person d name person_type wants uuid r1 r2 in
  (res.1 = Ret true ↔ accepted person_type wants ∧ split name ≠ [])
  ∧ (res.1 = Raise NameError ↔ accepted person_type wants ∧ split name = [])
  ∧ (res = (Ret false, d) ↔ ¬ accepted person_type wants)
  ∧ (∀ e, res.1 = Raise e → e = NameError).
Proof.
  destruct (classic_accepted person_type wants) as [Ha | Hna].
  - destruct (proj1 (accepted_new_person person_type wants name uuid) Ha)
      as (k & person & Hk & Hn).
    rewrite (add_person_unfold d name person_type wants uuid r1 r2 k person Hk Hn).
    cbv zeta. destruct (split name) as [|w ws]; simpl.
    + split; [split; [done | by intros [_ ?]] |].
      split; [done |]. split; [split; [done | by intros ?] |].
      by intros e [= <-].
    + split; [done |]. split; [split; [done | by intros [_ ?]] |].
      split; [split; [done | by intros ?] |]. done.
  - rewrite (add_person_rejected d name person_type wants uuid r1 r2 Hna). simpl.
    split; [split; [done | by intros [? _]] |].
    split; [split; [done | by intros [? _]] |].
    split; done.
Qed.

Lemma available_from_nil (i : nat) (rooms : list Room.t) :
  Dojo.available_from i rooms = [] →
  Forall (λ o, Room.is_full o = true) rooms.
Proof.
  revert i. induction rooms as [|r rest IH]; intros i; simpl; [constructor |].
  destruct (Room.is_full r) eqn:Hf; [| done].
  intros H. constructor; [done | by eapply IH].
Qed.

(** An allocation finds every room of the kind full and writes nothing, or
    picks a room that is not full, adds the id there and records the name of
    the room on the person. *)
Lemma allocate_spec (k : RoomType) (d : Dojo.t) (ref r : nat) (p : Person.t) :
  Dojo.people d !! ref = Some p →
  (Forall (λ o, Room.is_full o = true) (Dojo.rooms_of k d)
   ∧ Dojo._allocate k d ref r = (None, d))
  ∨ ∃ i room,
      Dojo.rooms_of k d !! i = Some room
      ∧ Room.is_full room = false
      ∧ (Dojo._allocate k d ref r).2
        = Dojo.alter_person ref
            (DojoApp.set_allocated k (PStr (Room.name room)))
            (Dojo.alter_room k i
               (λ o, (Room.add_occupant o (Some (Person.person_id p))).2) d).
Proof.
  intros Hp. unfold Dojo._allocate.
  destruct (Dojo.available_from 0 (Dojo.rooms_of k d)) as [|a av] eqn:Hav.
  { left. split; [by eapply available_from_nil | done]. }
  right.
  destruct (choice r (a :: av)) as [i|] eqn:Hc.
  2: { unfold choice in Hc. apply lookup_ge_None in Hc.
       pose proof (Nat.mod_upper_bound r (length (a :: av))) as Hlt.
       simpl in *. lia. }
  apply choice_elem_of in Hc. rewrite <- Hav in Hc.
  apply available_from_lookup in Hc as (room & _ & Hroom & Hfull).
  rewrite Nat.sub_0_r in Hroom. rewrite Hroom, Hp.
  exists i, room. split; [done |]. split; [done |]. by destruct k.
Qed.

Lemma alter_snoc {A} (f : A → A) (l : list A) (x : A) :
  alter f (length l) (l ++ [x]) = l ++ [f x].
Proof. induction l as [|y l IH]; simpl; [done |]. by rewrite <- IH. Qed.

(** The admission of a fresh id [pid = person_id p] to a room of kind [k]. *)
Lemma allocate_new_person (k : RoomType) (d : Dojo.t) (r : nat)
    (l : list Person.t) (p : Person.t) :
  Dojo.people d = l ++ [p] →
  Person.person_id p ≠ "" →
  Forall (λ o, Person.person_id p ∉ Room.occupants o) (Dojo.rooms_of k d) →
  let d' := (Dojo._allocate k d (length l) r).2 in
  (∀ k', k' ≠ k → Dojo.rooms_of k' d' = Dojo.rooms_of k' d)
  ∧ ((Forall (λ o, Room.is_full o = true) (Dojo.rooms_of k d) ∧ d' = d)
     ∨ ∃ i room,
         Dojo.rooms_of k d !! i = Some room
         ∧ Room.is_full room = false
         ∧ Dojo.rooms_of k d'
           = alter (λ o, Room.set_occupants o
                           (Room.occupants o ++ [Person.person_id p]))
                   i (Dojo.rooms_of k d)
         ∧ Dojo.people d'
           = l ++ [DojoApp.set_allocated k (PStr (Room.name room)) p]).
Proof.
  intros Hpeople Hne Hout d'.
  split; [apply (allocate_frame k d (length l) r) |].
  assert (Dojo.people d !! length l = Some p) as Hp.
  { rewrite Hpeople. by apply list_lookup_middle. }
  destruct (allocate_spec k d (length l) r p Hp)
    as [[Hfull Heq] | (i & room & Hi & Hfull & Heq)].
  { left. split; [done |]. unfold d'. by rewrite Heq. }
  right. exists i, room. split; [done |]. split; [done |].
  unfold d'. rewrite Heq. dojo_simpl. split.
  - apply list_alter_ext; [| done]. intros x Hx.
    assert (x = room) as -> by congruence.
    unfold Room.add_occupant.
    rewrite bool_decide_eq_false_2 by done.
    rewrite bool_decide_eq_false_2 by exact (Forall_lookup_1 _ _ _ _ Hout Hi).
    by rewrite Hfull.
  - by rewrite Hpeople, alter_snoc.
Qed.

Lemma add_person_to_lists_fields (d : Dojo.t) (p : Person.t) :
  let d1 := (Dojo._add_person_to_lists d p).2 in
  (∀ k, Dojo.rooms_of k d1 = Dojo.rooms_of k d)
  ∧ Dojo.people d1 = Dojo.people d ++ [p]
  ∧ (Dojo.staff d1, Dojo.fellows d1)
    = match Person.person_type p with
      | FELLOW => (Dojo.staff d, Dojo.fellows d ++ [length (Dojo.people d)])
      | STAFF => (Dojo.staff d ++ [length (Dojo.people d)], Dojo.fellows d)
      end.
Proof.
  split; [intros k; apply rooms_of_add_person_to_lists |].
  by destruct d, p as [? ? [] ? ? ?].
Qed.

(** The last person of [people], after an allocation for that person. *)
Lemma allocate_last_person (k : RoomType) (d : Dojo.t) (r : nat)
    (l : list Person.t) (p : Person.t) :
  Dojo.people d = l ++ [p] →
  ∃ p', Dojo.people (Dojo._allocate k d (length l) r).2 = l ++ [p']
        ∧ person_identity p' = person_identity p
        ∧ Person.fellow_wanting p' = Person.fellow_wanting p
        ∧ (k = living_space →
           Person.office_allocated p' = Person.office_allocated p)
        ∧ (k = office →
           Person.living_space_allocated p' = Person.living_space_allocated p).
Proof.
  intros Hpeople.
  destruct (allocate_unfold k d (length l) r)
    as [-> | (i & room & q & _ & _ & ->)].
  { exists p. by repeat split. }
  dojo_simpl. rewrite Hpeople, alter_snoc. eexists. split; [done |].
  by destruct k.
Qed.

Lemma add_person_state (d : Dojo.t) (name person_type : string)
    (wants : value) (uuid : string) (r1 r2 : nat) :
  accepted person_type wants →
  let d' := (Dojo.add_person d name person_type wants uuid r1 r2).2 in
  ∃ k p,
    Dojo.parse_person_type (upper person_type) = Some k
    ∧ Dojo.people d' = Dojo.people d ++ [p]
    ∧ person_identity p
      = (name, uuid, k,
         match k with FELLOW => Some (wants_yes wants) | STAFF => None end)
    ∧ (Dojo.staff d', Dojo.fellows d')
      = match k with
        | FELLOW => (Dojo.staff d, Dojo.fellows d ++ [length (Dojo.people d)])
        | STAFF => (Dojo.staff d ++ [length (Dojo.people d)], Dojo.fellows d)
        end
    ∧ ∀ k', room_identity <$> Dojo.rooms_of k' d'
            = room_identity <$> Dojo.rooms_of k' d.
Proof.
  intros Ha d'.
  destruct (proj1 (accepted_new_person person_type wants name uuid) Ha)
    as (k & person & Hk & Hn).
  exists k.
  destruct (new_person_fields _ _ _ _ _ Hn) as (Hid & _ & _ & _).
  assert (Person.person_type person = k) as Hty by by injection Hid.
  destruct (add_person_to_lists_fields d person) as (Hr1 & Hp1 & Hs1).
  rewrite Hty in Hs1.
  remember (Dojo._add_person_to_lists d person).2 as d1 eqn:Ed1.
  destruct (allocate_last_person office d1 r1 _ _ Hp1)
    as (p2 & Hp2 & Hid2 & _).
  pose proof (allocate_same_registry office d1 (length (Dojo.people d)) r1)
    as (Hrm2 & _ & Hst2 & Hfe2).
  remember (Dojo._allocate office d1 (length (Dojo.people d)) r1).2 as d2 eqn:Ed2.
  destruct (allocate_last_person living_space d2 r2 _ _ Hp2)
    as (p3 & Hp3 & Hid3 & _).
  pose proof (allocate_same_registry living_space d2 (length (Dojo.people d)) r2)
    as (Hrm3 & _ & Hst3 & Hfe3).
  assert (d' = d2 ∨ d' = (Dojo._allocate living_space d2
                            (length (Dojo.people d)) r2).2) as [-> | ->].
  { unfold d'.
    rewrite (add_person_unfold d name person_type wants uuid r1 r2 k person Hk Hn).
    cbv zeta. rewrite <- Ed1, <- Ed2.
    destruct (split name); [by left |].
    destruct (Person.fellow_wanting person); [by right | by left]. }
  - exists p2. split; [done |]. split; [done |].
    split; [by rewrite Hid2 |]. split; [by rewrite Hst2, Hfe2 |].
    intros k'. by rewrite Hrm2, Hr1.
  - exists p3. split; [done |]. split; [done |].
    split; [by rewrite Hid3, Hid2 |].
    split; [by rewrite Hst3, Hfe3, Hst2, Hfe2 |].
    intros k'. by rewrite Hrm3, Hrm2, Hr1.
Qed.

(** X10: when its arguments are accepted, [add_person] registers one person
    and no more: the people are those before, unchanged, followed by the new
    person, who has the given name, the identifier drawn and the kind asked
    for; the reference of the person joins [fellows] or [staff]; no room is
    created, deleted or renamed. *)
Theorem add_person_registers (d : Dojo.t) (name person_type : string)
    (wants : value) (uuid : string) (r1 r2 : nat) :
  accepted person_type wants →
  let d' := (Dojo.add_person d name person_type wants uuid r1 r2).2 in
  ∃ k p,
    Dojo.parse_person_type (upper person_type) = Some k
    ∧ Dojo.people d' = Dojo.people d ++ [p]
    ∧ person_identity p
      = (name, uuid, k,
         match k with FELLOW => Some (wants_yes wants) | STAFF => None end)
    ∧ (Dojo.staff d', Dojo.fellows d')
      = match k with
        | FELLOW => (Dojo.staff d, Dojo.fellows d ++ [length (Dojo.people d)])
        | STAFF => (Dojo.staff d ++ [length (Dojo.people d)], Dojo.fellows d)
        end
    ∧ ∀ k', room_identity <$> Dojo.rooms_of k' d'
            = room_identity <$> Dojo.rooms_of k' d.
Proof. apply add_person_state. Qed.

Lemma add_person_registers_witness :
  let d := run [CreateRoom "office" (Dojo.NamesStr "Blue")] in
  let d' := (Dojo.add_person d "Ann Lee" "fellow" (PStr "y") "a1" 0 0).2 in
  ∃ k p,
    Dojo.parse_person_type (upper "fellow") = Some k
    ∧ Dojo.people d' = Dojo.people d ++ [p]
    ∧ person_identity p
      = ("Ann Lee", "a1", k,
         match k with FELLOW => Some (wants_yes (PStr "y")) | STAFF => None end)
    ∧ (Dojo.staff d', Dojo.fellows d')
      = match k with
        | FELLOW => (Dojo.staff d, Dojo.fellows d ++ [length (Dojo.people d)])
        | STAFF => (Dojo.staff d ++ [length (Dojo.people d)], Dojo.fellows d)
        end
    ∧ ∀ k', room_identity <$> Dojo.rooms_of k' d'
            = room_identity <$> Dojo.rooms_of k' d.
Proof.
  intros d.
  apply (add_person_registers d "Ann Lee" "fellow" (PStr "y") "a1" 0 0).
  left. reflexivity.
Defined.

(** X11: the office of a new person.  When the arguments are accepted, the
    identifier drawn is not empty and is in no office yet: if every office
    is full (or there is none) the offices are left as they were and the
    person records no office; otherwise the id is appended to one office
    that was not full, no other office changes, and the person records the
    name of that office. *)
Theorem add_person_office (d : Dojo.t) (name person_type : string)
    (wants : value) (uuid : string) (r1 r2 : nat) :
  accepted person_type wants →
  uuid ≠ "" →
  Forall (λ o, uuid ∉ Room.occupants o) (Dojo.offices d) →
  let d' := (Dojo.add_person d name person_type wants uuid r1 r2).2 in
  ∃ p,
    Dojo.people d' = Dojo.people d ++ [p]
    ∧ ((Forall (λ o, Room.is_full o = true) (Dojo.offices d)
        ∧ Dojo.offices d' = Dojo.offices d
        ∧ Person.office_allocated p = PNone)
       ∨ ∃ i room,
           Dojo.offices d !! i = Some room
           ∧ Room.is_full room = false
           ∧ Dojo.offices d'
             = alter (λ o, Room.set_occupants o (Room.occupants o ++ [uuid]))
                     i (Dojo.offices d)
           ∧ Person.office_allocated p = PStr (Room.name room)).
Proof.
  intros Ha Hne Hout d'.
  destruct (proj1 (accepted_new_person person_type wants name uuid) Ha)
    as (k & person & Hk & Hn).
  destruct (new_person_fields _ _ _ _ _ Hn) as (Hid & Hoff & _ & _).
  assert (Person.person_id person = uuid) as Hpid by by injection Hid.
  destruct (add_person_to_lists_fields d person) as (Hr1 & Hp1 & _).
  remember (Dojo._add_person_to_lists d person).2 as d1 eqn:Ed1.
  destruct (allocate_new_person office d1 r1 _ _ Hp1) as [_ Hcase].
  { by rewrite Hpid. }
  { rewrite Hr1, Hpid. exact Hout. }
  remember (Dojo._allocate office d1 (length (Dojo.people d)) r1).2 as d2 eqn:Ed2.
  assert (∃ p2, Dojo.people d2 = Dojo.people d ++ [p2]
    ∧ ((Forall (λ o, Room.is_full o = true) (Dojo.offices d)
        ∧ Dojo.offices d2 = Dojo.offices d
        ∧ Person.office_allocated p2 = PNone)
       ∨ ∃ i room,
           Dojo.offices d !! i = Some room
           ∧ Room.is_full room = false
           ∧ Dojo.offices d2
             = alter (λ o, Room.set_occupants o (Room.occupants o ++ [uuid]))
                     i (Dojo.offices d)
           ∧ Person.office_allocated p2 = PStr (Room.name room)))
    as (p2 & Hp2 & H2).
  { pose proof (Hr1 office) as Ho1. simpl in Ho1.
    destruct Hcase as [[Hfull ->] | (i & room & Hi & Hfull & Hrooms & Hpeople)].
    - exists person. split; [done |]. left. simpl in Hfull.
      by rewrite <- Ho1.
    - eexists. split; [exact Hpeople |]. right. exists i, room.
      simpl in Hi, Hrooms. rewrite Ho1, Hpid in *. done. }
  assert (d' = d2 ∨ d' = (Dojo._allocate living_space d2
                            (length (Dojo.people d)) r2).2) as [-> | ->].
  { unfold d'.
    rewrite (add_person_unfold d name person_type wants uuid r1 r2 k person Hk Hn).
    cbv zeta. rewrite <- Ed1, <- Ed2.
    destruct (split name); [by left |].
    destruct (Person.fellow_wanting person); [by right | by left]. }
  { by exists p2. }
  destruct (allocate_last_person living_space d2 r2 _ _ Hp2)
    as (p3 & Hp3 & _ & _ & Hoff3 & _).
  destruct (allocate_frame living_space d2 (length (Dojo.people d)) r2)
    as [Hfr _].
  specialize (Hfr office ltac:(done)). simpl in Hfr.
  exists p3. split; [done |]. rewrite Hfr, Hoff3 by done. exact H2.
Qed.

Lemma add_person_office_witness :
  let d := run [CreateRoom "office" (Dojo.NamesList [PStr "Blue"; PStr "Red"])] in
  let d' := (Dojo.add_person d "Ann Lee" "FELLOW" (PStr "N") "a1" 1 0).2 in
  ∃ p,
    Dojo.people d' = Dojo.people d ++ [p]
    ∧ ((Forall (λ o, Room.is_full o = true) (Dojo.offices d)
        ∧ Dojo.offices d' = Dojo.offices d
        ∧ Person.office_allocated p = PNone)
       ∨ ∃ i room,
           Dojo.offices d !! i = Some room
           ∧ Room.is_full room = false
           ∧ Dojo.offices d'
             = alter (λ o, Room.set_occupants o (Room.occupants o ++ ["a1"]))
                     i (Dojo.offices d)
           ∧ Person.office_allocated p = PStr (Room.name room)).
Proof.
  intros d.
  apply (add_person_office d "Ann Lee" "FELLOW" (PStr "N") "a1" 1 0).
  - left. reflexivity.
  - discriminate.
  - repeat constructor; simpl; by intros ?%elem_of_nil.
Defined.

(** X12: [add_person] gives no living space to staff, to a fellow who did not
    ask for one, or when the name has no word: the living spaces are left as
    they were and the person, if registered, records none. *)
Theorem add_person_no_living_space (d : Dojo.t) (name person_type : string)
    (wants : value) (uuid : string) (r1 r2 : nat) :
  upper person_type ≠ "FELLOW" ∨ wants_yes wants = false ∨ split name = [] →
  let d' := (Dojo.add_person d name person_type wants uuid r1 r2).2 in
  Dojo.living_spaces d' = Dojo.living_spaces d
  ∧ ∀ p, Dojo.people d' !! length (Dojo.people d) = Some p →
         from_option truthy false (Person.living_space_allocated p) = false.
Proof.
  intros Hno d'.
  destruct (classic_accepted person_type wants) as [Ha | Hna].
  2: { unfold d'.
       rewrite (add_person_rejected d name person_type wants uuid r1 r2 Hna).
       simpl. split; [done |]. intros p Hp.
       apply lookup_lt_Some in Hp. lia. }
  destruct (proj1 (accepted_new_person person_type wants name uuid) Ha)
    as (k & person & Hk & Hn).
  destruct (new_person_fields _ _ _ _ _ Hn) as (_ & _ & Hliv & Hw).
  destruct (add_person_to_lists_fields d person) as (Hr1 & Hp1 & _).
  remember (Dojo._add_person_to_lists d person).2 as d1 eqn:Ed1.
  destruct (allocate_last_person office d1 r1 _ _ Hp1)
    as (p2 & Hp2 & _ & _ & _ & Hliv2).
  destruct (allocate_frame office d1 (length (Dojo.people d)) r1) as [Hfr _].
  specialize (Hfr living_space ltac:(done)). simpl in Hfr.
  remember (Dojo._allocate office d1 (length (Dojo.people d)) r1).2 as d2 eqn:Ed2.
  assert (d' = d2) as ->.
  { unfold d'.
    rewrite (add_person_unfold d name person_type wants uuid r1 r2 k person Hk Hn).
    cbv zeta. rewrite <- Ed1, <- Ed2.
    destruct (split name) eqn:Hsplit; [done |].
    rewrite Hw. apply parse_person_type_Some in Hk.
    destruct Hno as [Hf | [Hy | Hs]]; [| | done].
    - destruct k; [done | by rewrite bool_decide_eq_false_2].
    - by rewrite Hy, andb_false_r. }
  split.
  - rewrite Hfr. apply (Hr1 living_space).
  - intros p. rewrite Hp2, list_lookup_middle by done. intros [= <-].
    rewrite Hliv2, Hliv by done. by destruct k.
Qed.

Lemma add_person_no_living_space_witness :
  let d := run [CreateRoom "living_space" (Dojo.NamesStr "Python")] in
  let d' := (Dojo.add_person d "Bo" "STAFF" (PStr "N") "b2" 0 0).2 in
  Dojo.living_spaces d' = Dojo.living_spaces d
  ∧ ∀ p, Dojo.people d' !! length (Dojo.people d) = Some p →
         from_option truthy false (Person.living_space_allocated p) = false.
Proof.
  intros d.
  apply (add_person_no_living_space d "Bo" "STAFF" (PStr "N") "b2" 0 0).
  left. discriminate.
Defined.

(** X13: the living space of a fellow who asks for one (and whose name has a
    word), for an identifier that is not empty and in no living space yet:
    if every living space is full the living spaces are left as they were
    and the fellow records none; otherwise the id is appended to one living
    space that was not full and the fellow records its name. *)
Theorem add_person_living_space (d : Dojo.t) (name person_type : string)
    (wants : value) (uuid : string) (r1 r2 : nat) :
  upper person_type = "FELLOW" →
  wants_yes wants = true →
  split name ≠ [] →
  uuid ≠ "" →
  Forall (λ o, uuid ∉ Room.occupants o) (Dojo.living_spaces d) →
  let res := Dojo.add_person d name person_type wants uuid r1 r2 in
  res.1 = Ret true
  ∧ ∃ p,
      Dojo.people res.2 = Dojo.people d ++ [p]
      ∧ ((Forall (λ o, Room.is_full o = true) (Dojo.living_spaces d)
          ∧ Dojo.living_spaces res.2 = Dojo.living_spaces d
          ∧ Person.living_space_allocated p = Some PNone)
         ∨ ∃ i room,
             Dojo.living_spaces d !! i = Some room
             ∧ Room.is_full room = false
             ∧ Dojo.living_spaces res.2
               = alter (λ o, Room.set_occupants o (Room.occupants o ++ [uuid]))
                       i (Dojo.living_spaces d)
             ∧ Person.living_space_allocated p = Some (PStr (Room.name room))).
Proof.
  intros Hf Hy Hsplit Hne Hout res.
  assert (Dojo.parse_person_type (upper person_type) = Some FELLOW) as Hk
    by by apply parse_person_type_Some.
  assert (new_person name FELLOW wants uuid
          = Some (Person.Fellow name wants uuid)) as Hn by done.
  set (person := Person.Fellow name wants uuid) in *.
  destruct (new_person_fields _ _ _ _ _ Hn) as (Hid & _ & Hliv & Hw).
  assert (Person.person_id person = uuid) as Hpid by done.
  destruct (add_person_to_lists_fields d person) as (Hr1 & Hp1 & _).
  remember (Dojo._add_person_to_lists d person).2 as d1 eqn:Ed1.
  destruct (allocate_last_person office d1 r1 _ _ Hp1)
    as (p2 & Hp2 & Hid2 & _ & _ & Hliv2).
  destruct (allocate_frame office d1 (length (Dojo.people d)) r1) as [Hfr _].
  specialize (Hfr living_space ltac:(done)). simpl in Hfr.
  remember (Dojo._allocate office d1 (length (Dojo.people d)) r1).2 as d2 eqn:Ed2.
  assert (res = (Ret true, (Dojo._allocate living_space d2
                              (length (Dojo.people d)) r2).2)) as ->.
  { unfold res.
    rewrite (add_person_unfold d name person_type wants uuid r1 r2 FELLOW person
               Hk Hn).
    cbv zeta. rewrite <- Ed1, <- Ed2.
    destruct (split name); [done |]. by rewrite Hw, Hy. }
  split; [done |]. simpl.
  assert (Person.person_id p2 = uuid) as Hpid2.
  { unfold person_identity in Hid2. by injection Hid2 as _ -> _ _. }
  pose proof (Hr1 living_space) as Hl1. simpl in Hl1.
  destruct (allocate_new_person living_space d2 r2 _ _ Hp2) as [_ Hcase].
  { by rewrite Hpid2. }
  { simpl. rewrite Hfr, Hl1, Hpid2. exact Hout. }
  simpl in Hcase. rewrite Hfr, Hl1, Hpid2 in Hcase.
  destruct Hcase as [[Hfull ->] | (i & room & Hi & Hfull & Hrooms & Hpeople)].
  - exists p2. split; [done |]. left. split; [done |].
    split; [by rewrite Hfr |]. by rewrite Hliv2, Hliv.
  - eexists. split; [exact Hpeople |]. right. exists i, room.
    split; [done |]. split; [done |]. split; [| done].
    by rewrite Hrooms.
Qed.

Lemma add_person_living_space_witness :
  let d := run [CreateRoom "living_space" (Dojo.NamesStr "Python")] in
  let res := Dojo.add_person d "Ann Lee" "fellow" (PStr "y") "a1" 0 0 in
  res.1 = Ret true
  ∧ ∃ p,
      Dojo.people res.2 = Dojo.people d ++ [p]
      ∧ ((Forall (λ o, Room.is_full o = true) (Dojo.living_spaces d)
          ∧ Dojo.living_spaces res.2 = Dojo.living_spaces d
          ∧ Person.living_space_allocated p = Some PNone)
         ∨ ∃ i room,
             Dojo.living_spaces d !! i = Some room
             ∧ Room.is_full room = false
             ∧ Dojo.living_spaces res.2
               = alter (λ o, Room.set_occupants o (Room.occupants o ++ ["a1"]))
                       i (Dojo.living_spaces d)
             ∧ Person.living_space_allocated p = Some (PStr (Room.name room))).
Proof.
  intros d.
  apply (add_person_living_space d "Ann Lee" "fellow" (PStr "y") "a1" 0 0).
  - reflexivity.
  - reflexivity.
  - discriminate.
  - discriminate.
  - repeat constructor; simpl; by intros ?%elem_of_nil.
Defined.

(** ** Invariants of the occupancy *)

(** X14: in an instance built with fresh identifiers, the ids of the people
    are pairwise distinct, no room lists an occupant twice, an id is among
    the occupants of at most one room of each kind, and every occupant is
    the id of a registered person. *)
Theorem occupancy_invariants (ops : list Op) :
  fresh ops = true →
  let d := run ops in
  NoDup (Person.person_id <$> Dojo.people d)
  ∧ ∀ k,
      Forall (λ r, NoDup (Room.occupants r)
                   ∧ Forall (λ pid, pid ∈ Person.person_id <$> Dojo.people d)
                            (Room.occupants r))
             (Dojo.rooms_of k d)
      ∧ ∀ i j ri rj pid,
          Dojo.rooms_of k d !! i = Some ri → Dojo.rooms_of k d !! j = Some rj →
          pid ∈ Room.occupants ri → pid ∈ Room.occupants rj → i = j.
Proof.
  intros Hd%run_wf d. split; [apply (wf_ids _ Hd) |].
  intros k. split; [| apply (wf_exclusive _ Hd)].
  apply Forall_lookup. intros i r Hr.
  split; [apply (Forall_lookup_1 _ _ _ _ (wf_rooms _ Hd k) Hr) |].
  apply Forall_forall. intros pid Hin.
  destruct (wf_known _ Hd k i r pid Hr Hin) as (j & p & Hp & <- & _).
  apply list_elem_of_fmap_2. by eapply list_elem_of_lookup_2.
Qed.

Lemma occupancy_invariants_witness :
  let d := run [CreateRoom "office" (Dojo.NamesList [PStr "Blue"; PStr "Red"]);
                AddPerson "John Doe" "STAFF" (PStr "N") "a1" 0 0;
                AddPerson "Jane Smith" "FELLOW" (PStr "N") "b2" 1 0;
                ReallocatePerson "a1" "Red"] in
  NoDup (Person.person_id <$> Dojo.people d)
  ∧ ∀ k,
      Forall (λ r, NoDup (Room.occupants r)
                   ∧ Forall (λ pid, pid ∈ Person.person_id <$> Dojo.people d)
                            (Room.occupants r))
             (Dojo.rooms_of k d)
      ∧ ∀ i j ri rj pid,
          Dojo.rooms_of k d !! i = Some ri → Dojo.rooms_of k d !! j = Some rj →
          pid ∈ Room.occupants ri → pid ∈ Room.occupants rj → i = j.
Proof.
  apply (occupancy_invariants
           [CreateRoom "office" (Dojo.NamesList [PStr "Blue"; PStr "Red"]);
            AddPerson "John Doe" "STAFF" (PStr "N") "a1" 0 0;
            AddPerson "Jane Smith" "FELLOW" (PStr "N") "b2" 1 0;
            ReallocatePerson "a1" "Red"]).
  reflexivity.
Defined.

(** X15: in an instance built with fresh identifiers, the occupants of the
    living spaces are fellows who asked for accommodation: the id of a
    person who is not one (staff, or a fellow who did not ask) is in no
    living space. *)
Theorem living_spaces_house_wanting_fellows (ops : list Op) (i : nat)
    (p : Person.t) :
  fresh ops = true →
  Dojo.people (run ops) !! i = Some p →
  Person.fellow_wanting p = false →
  Forall (λ r, Person.person_id p ∉ Room.occupants r)
         (Dojo.living_spaces (run ops)).
Proof.
  intros Hd%run_wf Hp Hw.
  apply Forall_lookup. intros j r Hr Hin.
  destruct (wf_known _ Hd living_space j r _ Hr Hin) as (a & q & Hq & Hid & Hwq).
  assert (a = i) as ->.
  { apply (NoDup_lookup _ _ _ (Person.person_id p) (wf_ids _ Hd));
      rewrite list_lookup_fmap; [by rewrite Hq, <- Hid | by rewrite Hp]. }
  assert (q = p) as -> by congruence.
  rewrite Hwq in Hw; done.
Qed.

Lemma living_spaces_house_wanting_fellows_witness :
  let ops := [CreateRoom "living_space" (Dojo.NamesStr "Python");
              AddPerson "Jane Smith" "FELLOW" (PStr "N") "b2" 0 0;
              AddPerson "Ann Lee" "FELLOW" (PStr "Y") "a1" 0 0;
              ReallocatePerson "b2" "Python"] in
  let jane := Person.mk "Jane Smith" "b2" FELLOW (Some false) PNone (Some PNone) in
  Forall (λ r, Person.person_id jane ∉ Room.occupants r)
         (Dojo.living_spaces (run ops)).
Proof.
  intros ops jane.
  apply (living_spaces_house_wanting_fellows ops 0 jane); reflexivity.
Defined.

(** ** Allocation attributes and occupancy *)

Lemma room_agrees_refl (pid : string) (r : Room.t) : room_agrees pid r r.
Proof. by split. Qed.

Lemma rooms_agree_refl (pid : string) (d : Dojo.t) : rooms_agree pid d d.
Proof.
  intros k. apply Forall_Forall2_diag, Forall_forall. intros r _.
  apply room_agrees_refl.
Qed.

Lemma rooms_agree_eq (pid : string) (d d' : Dojo.t) :
  (∀ k, Dojo.rooms_of k d' = Dojo.rooms_of k d) → rooms_agree pid d d'.
Proof. intros H k. rewrite H. apply rooms_agree_refl. Qed.

Lemma rooms_agree_trans (pid : string) (d1 d2 d3 : Dojo.t) :
  rooms_agree pid d1 d2 → rooms_agree pid d2 d3 → rooms_agree pid d1 d3.
Proof.
  intros H12 H23 k. specialize (H12 k). specialize (H23 k).
  apply Forall2_same_length_lookup. split.
  { by rewrite (Forall2_length _ _ _ H12), (Forall2_length _ _ _ H23). }
  intros i x z Hx Hz.
  destruct (Forall2_lookup_l _ _ _ _ _ H12 Hx) as (y & Hy & [Hn1 Hm1]).
  destruct (Forall2_lookup_lr _ _ _ _ _ _ H23 Hy Hz) as [Hn2 Hm2].
  split; [congruence |]. intros w Hw. by rewrite Hm2, Hm1.
Qed.

Lemma rooms_agree_alter_room (pid : string) (d : Dojo.t) (k : RoomType)
    (i : nat) (f : Room.t → Room.t) :
  (∀ r, Dojo.rooms_of k d !! i = Some r → room_agrees pid r (f r)) →
  rooms_agree pid d (Dojo.alter_room k i f d).
Proof.
  intros Hf k'. rewrite rooms_of_alter_room.
  case_decide; subst; [| apply rooms_agree_refl].
  apply Forall2_alter_r; [apply rooms_agree_refl |].
  intros x y Hx Hy _. assert (y = x) as -> by congruence. by apply Hf.
Qed.

Lemma rooms_agree_alter_person (pid : string) (d : Dojo.t) (i : nat)
    (f : Person.t → Person.t) :
  rooms_agree pid d (Dojo.alter_person i f d).
Proof. apply rooms_agree_eq. intros k. apply rooms_of_alter_person. Qed.

Lemma housed_in_agree (pid : string) (d d' : Dojo.t) (k : RoomType)
    (x n : string) :
  rooms_agree pid d d' → x ≠ pid →
  housed_in k d' x n ↔ housed_in k d x n.
Proof.
  intros Hag Hx. specialize (Hag k). split.
  - intros (j & r' & Hr' & Hn & Hin).
    destruct (Forall2_lookup_r _ _ _ _ _ Hag Hr') as (r & Hr & [Hnm Hm]).
    exists j, r. split; [done |]. split; [congruence | by apply Hm].
  - intros (j & r & Hr & Hn & Hin).
    destruct (Forall2_lookup_l _ _ _ _ _ Hag Hr) as (r' & Hr' & [Hnm Hm]).
    exists j, r'. split; [done |]. split; [congruence | by apply Hm].
Qed.

Lemma alloc_ok_agree (pid : string) (d d' : Dojo.t) (k : RoomType)
    (p : Person.t) :
  rooms_agree pid d d' → Person.person_id p ≠ pid →
  alloc_ok k d p → alloc_ok k d' p.
Proof.
  intros Hag Hp. unfold alloc_ok, housed.
  assert (∀ n, housed_in k d' (Person.person_id p) n
               ↔ housed_in k d (Person.person_id p) n) as Hh.
  { intros n. by apply (housed_in_agree pid). }
  destruct (alloc k p) as [|n|[]]; try (by rewrite Hh);
    by setoid_rewrite Hh.
Qed.

(** [alloc_ok] looks at the rooms of the kind, at the attribute for the kind
    and at the id, at nothing else. *)
Lemma alloc_ok_ext (k : RoomType) (d d' : Dojo.t) (p p' : Person.t) :
  Dojo.rooms_of k d' = Dojo.rooms_of k d →
  alloc k p' = alloc k p →
  Person.person_id p' = Person.person_id p →
  alloc_ok k d p → alloc_ok k d' p'.
Proof.
  intros Hr Ha Hid. unfold alloc_ok, housed, housed_in.
  by rewrite Hr, Ha, Hid.
Qed.

Lemma room_agrees_append (r : Room.t) (pid : string) :
  room_agrees pid r (Room.set_occupants r (Room.occupants r ++ [pid])).
Proof.
  split; [done |]. intros x Hx. simpl.
  rewrite elem_of_app, list_elem_of_singleton.
  split; [by intros [? | ?] | by left].
Qed.

Lemma room_agrees_add_occupant (r : Room.t) (pid : string) :
  room_agrees pid r (Room.add_occupant r (Some pid)).2.
Proof.
  destruct (add_occupant_spec r pid) as (Hn & _ & [Ho | [_ Ho]]).
  - split; [done |]. intros x _. by rewrite Ho.
  - split; [done |]. intros x Hx. rewrite Ho.
    apply (room_agrees_append r pid); done.
Qed.

Lemma room_agrees_remove (r : Room.t) (pid : string) (l : list string) :
  list_remove pid (Room.occupants r) = Some l →
  room_agrees pid r (Room.set_occupants r l).
Proof.
  intros Hl%list_remove_Permutation. split; [done |]. intros x Hx. simpl.
  rewrite Hl, elem_of_cons. split; [by right | by intros [? | ?]].
Qed.

Lemma allocate_rooms_agree (k : RoomType) (d : Dojo.t) (ref r : nat)
    (p : Person.t) :
  Dojo.people d !! ref = Some p →
  rooms_agree (Person.person_id p) d (Dojo._allocate k d ref r).2.
Proof.
  intros Hp.
  destruct (allocate_unfold k d ref r) as [-> | (i & room & q & _ & Hq & ->)];
    [apply rooms_agree_refl |].
  assert (q = p) as -> by congruence.
  eapply rooms_agree_trans; [| apply rooms_agree_alter_person].
  apply rooms_agree_alter_room. intros x _. apply room_agrees_add_occupant.
Qed.

Lemma perform_reallocation_rooms_agree (d : Dojo.t) (k : RoomType) (pi : nat)
    (pid : string) (current : option (nat * Room.t)) (ti : nat)
    (new_room : Room.t) :
  (∀ ci cur, current = Some (ci, cur) → Dojo.rooms_of k d !! ci = Some cur) →
  rooms_agree pid d
    (DojoApp.perform_reallocation d k pi pid current ti new_room).2.
Proof.
  intros Hcur. unfold DojoApp.perform_reallocation.
  assert (Hadd : ∀ d2, rooms_agree pid d d2 →
    rooms_agree pid d
      (Dojo.alter_person pi
         (DojoApp.set_allocated (Room.room_type new_room) (PBool true))
         (Dojo.alter_room k ti
            (λ r, Room.set_occupants r (Room.occupants r ++ [pid])) d2))).
  { intros d2 H2. eapply rooms_agree_trans; [exact H2 |].
    eapply rooms_agree_trans; [| apply rooms_agree_alter_person].
    apply rooms_agree_alter_room. intros x _. apply room_agrees_append. }
  destruct current as [[ci cur]|]; simpl; [| apply Hadd, rooms_agree_refl].
  destruct (list_remove pid (Room.occupants cur)) as [l|] eqn:Hl; simpl;
    [| apply rooms_agree_refl].
  apply Hadd.
  eapply rooms_agree_trans; [| apply rooms_agree_alter_person].
  apply rooms_agree_alter_room. intros x Hx.
  assert (x = cur) as -> by (specialize (Hcur ci cur eq_refl); congruence).
  by apply room_agrees_remove.
Qed.

(** The people after [perform_reallocation]: the person moved has its
    attribute for the kind of the new room set to [True], the others are
    untouched. *)
Lemma perform_reallocation_people (d : Dojo.t) (k : RoomType) (pi : nat)
    (pid : string) (current : option (nat * Room.t)) (ti : nat)
    (new_room : Room.t) :
  let res := DojoApp.perform_reallocation d k pi pid current ti new_room in
  res = (Ret false, d)
  ∨ (res.1 = Ret true
     ∧ ∃ g, Dojo.people res.2
            = alter (DojoApp.set_allocated (Room.room_type new_room) (PBool true)
                     ∘ g) pi (Dojo.people d)
            ∧ (g = id
               ∨ ∃ ci cur, current = Some (ci, cur)
                           ∧ g = DojoApp.set_allocated (Room.room_type cur)
                                   (PBool false))).
Proof.
  unfold DojoApp.perform_reallocation.
  destruct current as [[ci cur]|]; simpl.
  - destruct (list_remove pid (Room.occupants cur)) as [l|]; simpl; [| by left].
    right. split; [done |].
    exists (DojoApp.set_allocated (Room.room_type cur) (PBool false)).
    dojo_simpl. rewrite list_alter_alter_eq. split; [done |]. right. by eauto.
  - right. split; [done |]. exists id. dojo_simpl. split; [done | by left].
Qed.

Lemma perform_reallocation_housed (d : Dojo.t) (k : RoomType) (pi : nat)
    (pid : string) (current : option (nat * Room.t)) (ti : nat)
    (new_room : Room.t) :
  let res := DojoApp.perform_reallocation d k pi pid current ti new_room in
  res.1 = Ret true →
  Dojo.rooms_of k d !! ti = Some new_room →
  housed k res.2 pid.
Proof.
  unfold DojoApp.perform_reallocation. intros Hres Hti.
  assert (Hadd : ∀ d2, is_Some (Dojo.rooms_of k d2 !! ti) →
    housed k
      (Dojo.alter_person pi
         (DojoApp.set_allocated (Room.room_type new_room) (PBool true))
         (Dojo.alter_room k ti
            (λ r, Room.set_occupants r (Room.occupants r ++ [pid])) d2)) pid).
  { intros d2 [r Hr]. eexists _, ti, _. dojo_simpl.
    rewrite list_lookup_alter_eq, Hr. split; [done |]. split; [done |].
    simpl. apply elem_of_app. right. by apply list_elem_of_singleton. }
  destruct current as [[ci cur]|]; simpl in *; [| by apply Hadd].
  destruct (list_remove pid (Room.occupants cur)) as [l|]; simpl in *; [| done].
  apply Hadd. dojo_simpl. rewrite list_lookup_alter.
  case_decide; subst; rewrite Hti; by eexists.
Qed.

Lemma Forall_room_identity (Q : string * RoomType * nat → Prop)
    (l l' : list Room.t) :
  room_identity <$> l' = room_identity <$> l →
  Forall (λ r, Q (room_identity r)) l → Forall (λ r, Q (room_identity r)) l'.
Proof.
  intros Heq Hl.
  apply (Forall_fmap room_identity Q l'). rewrite Heq.
  by apply (Forall_fmap room_identity Q l).
Qed.

Lemma names_nonempty_same (l l' : list Room.t) :
  room_identity <$> l' = room_identity <$> l →
  Forall (λ r, Room.name r ≠ "") l → Forall (λ r, Room.name r ≠ "") l'.
Proof.
  apply (Forall_room_identity (λ t, t.1.1 ≠ "")).
Qed.

Lemma alloc_set_allocated (k k' : RoomType) (v : value) (p : Person.t) :
  alloc k' (DojoApp.set_allocated k v p) = if decide (k = k') then v else alloc k' p.
Proof. by destruct k, k'. Qed.

Lemma class_ok_set_allocated (k : RoomType) (v : value) (p : Person.t) :
  (k = living_space → Person.person_type p = FELLOW) →
  class_ok p → class_ok (DojoApp.set_allocated k v p).
Proof.
  intros Hk. destruct k; [done |]. unfold class_ok. simpl.
  rewrite Hk by done. intros [? _]. by split.
Qed.

Lemma create_room_loop_allocs_ok (k : RoomType) (names : list value) (c : bool)
    (d : Dojo.t) :
  allocs_ok d → allocs_ok (Dojo.create_room_loop k names c d).2.
Proof.
  intros (Ha & Hc & Hn).
  destruct (create_room_loop_appends k names c d) as (new & -> & Hnew). simpl.
  assert (Hrooms : ∀ k' j r,
    Dojo.rooms_of k' (Dojo.set_rooms k (Dojo.rooms_of k d ++ new) d) !! j = Some r →
    Dojo.rooms_of k' d !! j = Some r
    ∨ (Room.occupants r = [] ∧ Room.name r ≠ "")).
  { intros k' j r. rewrite rooms_of_set_rooms. case_decide; subst; [| by left].
    intros [? | [_ Hr]]%lookup_app_Some; [by left | right].
    apply list_elem_of_lookup_2 in Hr.
    rewrite Forall_forall in Hnew.
    destruct (Hnew r Hr) as (n & -> & _ & Hb). split; [by destruct k' |].
    assert (Room.name (new_room k' n) = n) as -> by by destruct k'.
    intros ->. done. }
  assert (Hkeep : ∀ k' j r, Dojo.rooms_of k' d !! j = Some r →
    Dojo.rooms_of k' (Dojo.set_rooms k (Dojo.rooms_of k d ++ new) d) !! j = Some r).
  { intros k' j r Hr. rewrite rooms_of_set_rooms. case_decide; subst; [| done].
    by apply lookup_app_l_Some. }
  assert (Hh : ∀ k' x n,
    housed_in k' (Dojo.set_rooms k (Dojo.rooms_of k d ++ new) d) x n
    ↔ housed_in k' d x n).
  { intros k' x n. split.
    - intros (j & r & Hr & Hnm & Hin).
      apply Hrooms in Hr as [Hr | [He _]]; [by exists j, r |].
      rewrite He in Hin. by apply elem_of_nil in Hin.
    - intros (j & r & Hr & Hnm & Hin). exists j, r. auto. }
  split; [| split].
  - intros i p k'. rewrite people_set_rooms. intros Hp.
    specialize (Ha i p k' Hp). unfold alloc_ok, housed in *.
    destruct (alloc k' p) as [|n|[]]; try (by rewrite Hh);
      by setoid_rewrite Hh.
  - by rewrite people_set_rooms.
  - intros k'. apply Forall_lookup. intros j r Hr.
    apply Hrooms in Hr as [Hr | [_ ?]]; [| done].
    by apply (Forall_lookup_1 _ _ _ _ (Hn k') Hr).
Qed.

(** An allocation for the last person registered, whose id is in no room
    of the kind yet, keeps the attributes of that person in agreement with
    the occupancy. *)
Lemma allocate_alloc_ok (k : RoomType) (d : Dojo.t) (r : nat)
    (l : list Person.t) (p : Person.t) :
  Dojo.people d = l ++ [p] →
  Person.person_id p ≠ "" →
  Forall (λ o, Person.person_id p ∉ Room.occupants o) (Dojo.rooms_of k d) →
  (k = living_space → Person.person_type p = FELLOW) →
  class_ok p →
  (∀ k', alloc_ok k' d p) →
  ∃ p', Dojo.people (Dojo._allocate k d (length l) r).2 = l ++ [p']
        ∧ person_identity p' = person_identity p
        ∧ class_ok p'
        ∧ ∀ k', alloc_ok k' (Dojo._allocate k d (length l) r).2 p'.
Proof.
  intros Hpeople Hne Hout Hk Hc Ha.
  destruct (allocate_new_person k d r l p Hpeople Hne Hout) as [Hfr Hcase].
  destruct Hcase as [[_ Heq] | (i & room & Hi & _ & Hrooms & Hp')].
  { rewrite Heq. exists p. by repeat split. }
  eexists. split; [exact Hp' |].
  split; [apply person_identity_set_allocated |].
  split; [by apply class_ok_set_allocated |].
  intros k'. destruct (decide (k = k')) as [<- | Hne'].
  - unfold alloc_ok. rewrite alloc_set_allocated, decide_True by done.
    exists i, (Room.set_occupants room
                 (Room.occupants room ++ [Person.person_id p])).
    rewrite Hrooms, list_lookup_alter_eq, Hi. split; [done |].
    split; [done |]. simpl. apply elem_of_app. right.
    apply list_elem_of_singleton. by destruct k.
  - apply (alloc_ok_ext k' d _ p); [by apply Hfr | | by destruct k | done].
    by rewrite alloc_set_allocated, decide_False.
Qed.

Lemma allocs_ok_snoc (d d' : Dojo.t) (p : Person.t) :
  allocs_ok d →
  Person.person_id p ∉ Person.person_id <$> Dojo.people d →
  Dojo.people d' = Dojo.people d ++ [p] →
  rooms_agree (Person.person_id p) d d' →
  class_ok p →
  (∀ k, alloc_ok k d' p) →
  (∀ k, room_identity <$> Dojo.rooms_of k d'
        = room_identity <$> Dojo.rooms_of k d) →
  allocs_ok d'.
Proof.
  intros (Ha & Hc & Hn) Hfresh Hpeople Hag Hcp Hap Hid. split; [| split].
  - intros i q k. rewrite Hpeople.
    intros [Hq | [_ Hq]]%lookup_app_Some.
    + apply (alloc_ok_agree (Person.person_id p) d); [done | | by eapply Ha].
      intros Heq. apply Hfresh. rewrite <- Heq.
      apply list_elem_of_fmap_2. by eapply list_elem_of_lookup_2.
    + apply list_lookup_singleton_Some in Hq as [_ <-]. apply Hap.
  - rewrite Hpeople. apply Forall_app. split; [done | by apply Forall_singleton].
  - intros k. eapply names_nonempty_same; [apply Hid | apply Hn].
Qed.

Lemma add_person_allocs_ok (d : Dojo.t) (name person_type : string)
    (wants : value) (uuid : string) (r1 r2 : nat) :
  well_formed d → allocs_ok d →
  uuid ≠ "" →
  uuid ∉ Person.person_id <$> Dojo.people d →
  allocs_ok (Dojo.add_person d name person_type wants uuid r1 r2).2.
Proof.
  intros Hd Hok Hne Hfresh.
  destruct (classic_accepted person_type wants) as [Ha | Hna].
  2: { by rewrite (add_person_rejected d name person_type wants uuid r1 r2 Hna). }
  destruct (proj1 (accepted_new_person person_type wants name uuid) Ha)
    as (k & person & Hk & Hn).
  destruct (new_person_fields _ _ _ _ _ Hn) as (Hid & Hoff & Hliv & Hw).
  assert (Person.person_id person = uuid) as Hpid by by injection Hid.
  assert (Person.person_type person = k) as Hty by by injection Hid.
  assert (class_ok person) as Hclass.
  { unfold class_ok. rewrite Hty, Hliv.
    assert (Person.wants_accommodation person
            = match k with FELLOW => Some (wants_yes wants) | STAFF => None end)
      as -> by by injection Hid.
    destruct k; split; by eauto. }
  destruct (add_person_to_lists_fields d person) as (Hr1 & Hp1 & _).
  pose proof (step_same_rooms d
                (AddPerson name person_type wants uuid r1 r2)) as Hsame.
  simpl in Hsame.
  remember (Dojo._add_person_to_lists d person).2 as d1 eqn:Ed1.
  assert (∀ k', Forall (λ o, Person.person_id person ∉ Room.occupants o)
                       (Dojo.rooms_of k' d1)) as Hout.
  { intros k'. rewrite Hr1, Hpid. apply Forall_lookup. intros j rj Hj Hin.
    destruct (wf_known d Hd _ _ _ _ Hj Hin) as (a & q & Hq & Hqid & _).
    apply Hfresh. rewrite <- Hqid.
    apply list_elem_of_fmap_2. by eapply list_elem_of_lookup_2. }
  assert (∀ k', alloc_ok k' d1 person) as Hok1.
  { intros k'. unfold alloc_ok.
    assert (alloc k' person = PNone) as ->.
    { destruct k'; simpl; [done |]. rewrite Hliv. by destruct k. }
    intros (n & j & rj & Hj & _ & Hin).
    by apply (Forall_lookup_1 _ _ _ _ (Hout k') Hj). }
  destruct (allocate_alloc_ok office d1 r1 _ _ Hp1) as (p2 & Hp2 & Hid2 & Hc2 & Hok2);
    [by rewrite Hpid | apply Hout | done | done | done |].
  assert (Dojo.people d1 !! length (Dojo.people d) = Some person) as Hl1.
  { rewrite Hp1. by apply list_lookup_middle. }
  pose proof (allocate_rooms_agree office d1 _ r1 person Hl1) as Hag2.
  destruct (allocate_frame office d1 (length (Dojo.people d)) r1) as [Hfr2 _].
  remember (Dojo._allocate office d1 (length (Dojo.people d)) r1).2 as d2 eqn:Ed2.
  assert (Person.person_id p2 = uuid) as Hpid2.
  { unfold person_identity in Hid2. injection Hid2 as _ Hx _ _. congruence. }
  assert (rooms_agree uuid d d2) as Hagree2.
  { eapply rooms_agree_trans; [by apply rooms_agree_eq |]. by rewrite <- Hpid. }
  rewrite (add_person_unfold d name person_type wants uuid r1 r2 k person Hk Hn)
    in *.
  cbv zeta in *. rewrite <- Ed1, <- Ed2 in *.
  assert (allocs_ok d2) as Hfin2.
  { apply (allocs_ok_snoc d d2 p2); try done; try by rewrite Hpid2.
    intros k'. destruct (allocate_same_registry office d1
                           (length (Dojo.people d)) r1) as [Hs _].
    rewrite <- Ed2 in Hs. by rewrite Hs, Hr1. }
  destruct (split name); [done |].
  destruct (Person.fellow_wanting person) eqn:Hfw; [| done]. simpl.
  assert (Person.person_type p2 = FELLOW) as Hty2.
  { unfold person_identity in Hid2. injection Hid2 as _ _ Hx _.
    rewrite Hx. by apply fellow_wanting_FELLOW. }
  destruct (allocate_alloc_ok living_space d2 r2 _ _ Hp2)
    as (p3 & Hp3 & Hid3 & Hc3 & Hok3); try done.
  { by rewrite Hpid2. }
  { rewrite Hfr2 by done. rewrite Hpid2, <- Hpid. apply Hout. }
  assert (Dojo.people d2 !! length (Dojo.people d) = Some p2) as Hl2.
  { rewrite Hp2. by apply list_lookup_middle. }
  pose proof (allocate_rooms_agree living_space d2 _ r2 p2 Hl2) as Hag3.
  assert (Person.person_id p3 = uuid) as Hpid3.
  { unfold person_identity in Hid3. injection Hid3 as _ Hx _ _. congruence. }
  apply (allocs_ok_snoc d _ p3); try done; try by rewrite Hpid3.
  - rewrite Hpid3. eapply rooms_agree_trans; [exact Hagree2 |].
    by rewrite <- Hpid2.
  - intros k'. destruct (allocate_same_registry living_space d2
                           (length (Dojo.people d)) r2) as [Hs3 _].
    destruct (allocate_same_registry office d1
                (length (Dojo.people d)) r1) as [Hs2 _].
    rewrite <- Ed2 in Hs2. by rewrite Hs3, Hs2, Hr1.
Qed.

Lemma perform_reallocation_allocs_ok (d : Dojo.t) (k : RoomType) (pi : nat)
    (person : Person.t) (pid : string) (ti : nat) (new_room : Room.t) :
  well_formed d → allocs_ok d →
  Dojo.people d !! pi = Some person →
  Person.person_id person = pid →
  Dojo.rooms_of k d !! ti = Some new_room →
  (k = living_space → Person.fellow_wanting person = true) →
  allocs_ok
    (DojoApp.perform_reallocation d k pi pid
       (list_find (λ room, pid ∈ Room.occupants room) (Dojo.rooms_of k d))
       ti new_room).2.
Proof.
  intros Hd (Ha & Hc & Hn) Hp Hid Hti Hw.
  set (current := list_find (λ room, pid ∈ Room.occupants room)
                            (Dojo.rooms_of k d)).
  assert (Hcur : ∀ ci cur, current = Some (ci, cur) →
                           Dojo.rooms_of k d !! ci = Some cur).
  { intros ci cur Hc'. by apply list_find_Some in Hc' as (? & _). }
  pose proof (perform_reallocation_rooms_agree d k pi pid current ti new_room Hcur)
    as Hag.
  pose proof (perform_reallocation_same_registry d k pi pid current ti new_room)
    as (Hsame & _).
  pose proof (perform_reallocation_housed d k pi pid current ti new_room) as Hh.
  pose proof (λ k', perform_reallocation_other_kind d k k' pi pid current ti
                      new_room) as Hother.
  pose proof (Forall_lookup_1 _ _ _ _ (wf_rooms d Hd k) Hti) as [Htn _].
  destruct (perform_reallocation_people d k pi pid current ti new_room)
    as [-> | (Hres & g & Hpeople & Hg)]; [done |].
  remember (DojoApp.perform_reallocation d k pi pid current ti new_room).2
    as d' eqn:Ed'.
  simpl in Hpeople, Hh. rewrite <- Ed' in *. rewrite Htn in Hpeople.
  assert (Hgk : g = id ∨ g = DojoApp.set_allocated k (PBool false)).
  { destruct Hg as [? | (ci & cur & Hc' & ->)]; [by left | right].
    apply Hcur in Hc'.
    by destruct (Forall_lookup_1 _ _ _ _ (wf_rooms d Hd k) Hc') as [-> _]. }
  assert (Hfellow : k = living_space → Person.person_type person = FELLOW).
  { intros Hk. by apply fellow_wanting_FELLOW, Hw. }
  split; [| split].
  - intros i q k'. rewrite Hpeople.
    intros (x & Hx & [[-> ->] | [Hne ->]])%lookup_alter_Some.
    + assert (x = person) as -> by congruence. simpl.
      destruct (decide (k = k')) as [<- | Hne].
      * unfold alloc_ok. rewrite alloc_set_allocated, decide_True by done.
        assert (Person.person_id
                  (DojoApp.set_allocated k (PBool true) (g person)) = pid) as ->.
        { destruct Hgk as [-> | ->]; by destruct k. }
        by apply Hh.
      * apply (alloc_ok_ext k' d _ person); [by apply Hother | | | by eapply Ha].
        -- rewrite alloc_set_allocated, decide_False by done.
           destruct Hgk as [-> | ->]; [done |].
           by rewrite alloc_set_allocated, decide_False.
        -- destruct Hgk as [-> | ->]; by destruct k.
    + apply (alloc_ok_agree pid d); [done | | by eapply Ha].
      intros Heq. apply Hne.
      apply (NoDup_lookup _ _ _ pid (wf_ids d Hd));
        rewrite list_lookup_fmap; [by rewrite Hx, <- Heq | by rewrite Hp, <- Hid].
  - rewrite Hpeople. apply Forall_alter; [done |].
    intros x Hx Hcx. assert (x = person) as -> by congruence. simpl.
    apply class_ok_set_allocated.
    + destruct Hgk as [-> | ->]; [done |]. intros Hk. simpl.
      rewrite <- (Hfellow Hk). by destruct k.
    + destruct Hgk as [-> | ->]; [done |]. by apply class_ok_set_allocated.
  - intros k'. eapply names_nonempty_same; [apply Hsame | apply Hn].
Qed.

Lemma reallocate_person_allocs_ok (d : Dojo.t) (person_id new_room_name : string) :
  well_formed d → allocs_ok d →
  allocs_ok (DojoApp.reallocate_person d person_id new_room_name).2.
Proof.
  intros Hd Hok. unfold DojoApp.reallocate_person.
  destruct (list_find _ (Dojo.people d)) as [[pi person]|] eqn:Hp; [| done].
  apply list_find_Some in Hp as (Hp & Hid & _).
  destruct (DojoApp.find_new_room d person new_room_name)
    as [k ti new_room| |] eqn:Hf; try done.
  apply find_new_room_Found in Hf as (Hti & _ & _ & Hw).
  case_bool_decide; [done |].
  pose proof (perform_reallocation_allocs_ok d k pi person person_id ti new_room
                Hd Hok Hp Hid Hti (λ e, proj1 (Hw e))) as H'.
  destruct (list_find _ (Dojo.rooms_of k d)) as [[ci cur]|]; [| done].
  by case_bool_decide.
Qed.

Lemma foldl_step_allocs_ok (ops : list Op) (d : Dojo.t) :
  well_formed d → allocs_ok d →
  fresh_from d ops = true → nonempty_ids ops = true →
  well_formed (foldl step d ops) ∧ allocs_ok (foldl step d ops).
Proof.
  revert d. induction ops as [|o ops IH]; intros d Hd Hok Hf Hne; simpl in *;
    [done |].
  apply andb_prop in Hf as [Ho Hrest]. apply andb_prop in Hne as [Hno Hnrest].
  apply IH; [by apply step_wf | | done | done].
  destruct o as [rt names | name pt w uuid r1 r2 | pid nm]; simpl in *.
  - unfold Dojo.create_room.
    destruct (Dojo.parse_room_type rt) as [k|]; [| done].
    destruct names; try done; by apply create_room_loop_allocs_ok.
  - apply add_person_allocs_ok; [done | done | |].
    + apply negb_true_iff in Hno. by apply bool_decide_eq_false in Hno.
    + apply negb_true_iff in Ho. by apply bool_decide_eq_false in Ho.
  - by apply reallocate_person_allocs_ok.
Qed.

Lemma run_allocs_ok (ops : list Op) :
  fresh ops = true → nonempty_ids ops = true → allocs_ok (run ops).
Proof.
  intros Hf Hne. apply foldl_step_allocs_ok; try done; [apply wf_init |].
  split; [by intros [] |]. split; [constructor | intros []; constructor].
Qed.

Lemma allocs_ok_flag (d : Dojo.t) (i : nat) (p : Person.t) (k : RoomType) :
  allocs_ok d →
  Dojo.people d !! i = Some p →
  truthy (alloc k p) = true ↔
  ∃ j r, Dojo.rooms_of k d !! j = Some r ∧ Person.person_id p ∈ Room.occupants r.
Proof.
  intros (Ha & _ & Hn) Hp.
  specialize (Ha i p k Hp). unfold alloc_ok, housed, housed_in in Ha.
  destruct (alloc k p) as [|n|[]]; simpl.
  - split; [done |]. intros (j & r & Hr & Hin). exfalso. apply Ha.
    by exists (Room.name r), j, r.
  - destruct Ha as (j & r & Hr & Hnm & Hin).
    split; [intros _; by exists j, r |]. intros _.
    apply negb_true_iff, bool_decide_eq_false. rewrite <- Hnm.
    by apply (Forall_lookup_1 _ _ _ _ (Hn k) Hr).
  - destruct Ha as (n & j & r & Hr & _ & Hin). split; [| done].
    intros _. by exists j, r.
  - split; [done |]. intros (j & r & Hr & Hin). exfalso. apply Ha.
    by exists (Room.name r), j, r.
Qed.

(** X16: in an instance built with fresh, non-empty identifiers, the
    allocation attribute of a person for a kind of room is truthy exactly
    when the id of that person is among the occupants of a room of that
    kind; this holds across reallocations, which store [True] there. *)
Theorem allocation_flag_iff_housed (ops : list Op) (i : nat) (p : Person.t)
    (k : RoomType) :
  fresh ops = true →
  nonempty_ids ops = true →
  Dojo.people (run ops) !! i = Some p →
  truthy (alloc k p) = true ↔
  ∃ j r, Dojo.rooms_of k (run ops) !! j = Some r
         ∧ Person.person_id p ∈ Room.occupants r.
Proof.
  intros Hf Hne Hp. apply (allocs_ok_flag _ i); [| done].
  by apply run_allocs_ok.
Qed.

Lemma allocation_flag_iff_housed_witness :
  let ops := [CreateRoom "office" (Dojo.NamesList [PStr "Blue"; PStr "Red"]);
              AddPerson "John Doe" "STAFF" (PStr "N") "a1" 0 0;
              ReallocatePerson "a1" "Red"] in
  let john := Person.mk "John Doe" "a1" STAFF None (PBool true) None in
  truthy (alloc office john) = true ↔
  ∃ j r, Dojo.rooms_of office (run ops) !! j = Some r
         ∧ Person.person_id john ∈ Room.occupants r.
Proof.
  intros ops john.
  apply (allocation_flag_iff_housed ops 0 john office); reflexivity.
Defined.

(** ** The report of unallocated people *)

Lemma misses_living_space_class (p : Person.t) :
  class_ok p →
  Reports.misses_living_space p
  = Some (default false (Person.wants_accommodation p)
          && negb (from_option truthy false (Person.living_space_allocated p))).
Proof.
  unfold class_ok, Reports.misses_living_space.
  destruct (Person.person_type p).
  - intros [[w ->] [v ->]]. by destruct w.
  - by intros [-> ->].
Qed.

Lemma is_unallocated_class (p : Person.t) :
  class_ok p → Reports.is_unallocated p = Some (lacks_room p).
Proof.
  intros Hc. unfold Reports.is_unallocated, lacks_room.
  rewrite misses_living_space_class by done.
  by destruct (truthy (Person.office_allocated p)).
Qed.

Lemma collect_unallocated_class (l : list Person.t) :
  Forall class_ok l →
  ∃ u, Reports.collect_unallocated l = Some u
       ∧ Forall class_ok u
       ∧ (u = [] ↔ Forall (λ p, lacks_room p = false) l).
Proof.
  induction 1 as [|p l Hp Hl (u & Hu & Hcu & Hiff)]; simpl.
  { exists []. by repeat split. }
  rewrite is_unallocated_class, Hu by done. simpl.
  destruct (lacks_room p) eqn:Hlack.
  - exists (p :: u). split; [done |]. split; [by constructor |].
    split; [done |]. intros Hall. apply Forall_cons in Hall as [? _]. congruence.
  - exists u. split; [done |]. split; [done |].
    rewrite Hiff. split; [by constructor | by intros [_ ?]%Forall_cons].
Qed.

Lemma unallocated_lines_class (u : list Person.t) :
  Forall class_ok u → is_Some (mapM Reports.unallocated_line u).
Proof.
  intros Hu. destruct (mapM Reports.unallocated_line u) eqn:Hm; [by eexists |].
  apply mapM_None_1, Exists_exists in Hm as (p & Hp & Hnone).
  rewrite Forall_forall in Hu. specialize (Hu p Hp).
  unfold Reports.unallocated_line, Reports.reasons in Hnone.
  by rewrite misses_living_space_class in Hnone.
Qed.

Lemma lacks_room_false (d : Dojo.t) (i : nat) (p : Person.t) :
  allocs_ok d → Dojo.people d !! i = Some p →
  lacks_room p = false ↔
  housed office d (Person.person_id p)
  ∧ (Person.fellow_wanting p = true → housed living_space d (Person.person_id p)).
Proof.
  intros Hok Hp.
  assert (∀ k, truthy (alloc k p) = true ↔ housed k d (Person.person_id p)) as Hflag.
  { intros k. rewrite (allocs_ok_flag d i p k Hok Hp). unfold housed, housed_in.
    split.
    - intros (j & r & Hr & Hin). by exists (Room.name r), j, r.
    - intros (n & j & r & Hr & _ & Hin). by exists j, r. }
  destruct Hok as (_ & Hc & _).
  pose proof (Forall_lookup_1 _ _ _ _ Hc Hp) as Hcp.
  assert (default false (Person.wants_accommodation p) = Person.fellow_wanting p)
    as Hw.
  { unfold class_ok, Person.fellow_wanting in *.
    destruct (Person.person_type p); [done |]. by destruct Hcp as [-> _]. }
  assert (from_option truthy false (Person.living_space_allocated p)
          = truthy (alloc living_space p)) as Hl.
  { simpl. by destruct (Person.living_space_allocated p). }
  unfold lacks_room. rewrite Hw, Hl, <- !Hflag. simpl.
  destruct (truthy (Person.office_allocated p)),
    (Person.fellow_wanting p), (truthy _); simpl; intuition congruence.
Qed.

(** X17: on an instance built with fresh, non-empty identifiers,
    [print_unallocated] raises nothing; it returns [False] exactly when
    every person is an occupant of an office and every fellow who asked for
    accommodation is an occupant of a living space, and the report then
    reads "No unallocated people.". *)
Theorem print_unallocated_reports (ops : list Op) :
  fresh ops = true →
  nonempty_ids ops = true →
  let d := run ops in
  ∃ lines b,
    Reports.print_unallocated d = Some (lines, b)
    ∧ (b = false ↔
       ∀ i p, Dojo.people d !! i = Some p →
              housed office d (Person.person_id p)
              ∧ (Person.fellow_wanting p = true →
                 housed living_space d (Person.person_id p)))
    ∧ (b = false →
       lines = ["Unallocated People"; Reports.rule; "No unallocated people."]).
Proof.
  intros Hf Hne d.
  pose proof (run_allocs_ok ops Hf Hne) as Hok. fold d in Hok.
  pose proof Hok as (_ & Hc & _).
  destruct (collect_unallocated_class _ Hc) as (u & Hu & Hcu & Hiff).
  assert (Hall : Forall (λ p, lacks_room p = false) (Dojo.people d) ↔
    ∀ i p, Dojo.people d !! i = Some p →
           housed office d (Person.person_id p)
           ∧ (Person.fellow_wanting p = true →
              housed living_space d (Person.person_id p))).
  { rewrite Forall_lookup. split.
    - intros H i p Hp. apply (lacks_room_false d i p Hok Hp). by eapply H.
    - intros H i p Hp. apply (lacks_room_false d i p Hok Hp). by eapply H. }
  unfold Reports.print_unallocated. rewrite Hu. simpl.
  destruct u as [|p u].
  - simpl. eexists _, _. split; [done |].
    split; [| done]. split; [intros _; by apply Hall, Hiff |done].
  - destruct (unallocated_lines_class _ Hcu) as [lines Hlines].
    rewrite Hlines. simpl. eexists _, _. split; [done |].
    split; [| done]. split; [done |].
    intros H. by apply Hall, Hiff in H.
Qed.

Lemma print_unallocated_reports_witness :
  let d := run [CreateRoom "office" (Dojo.NamesStr "Blue");
                AddPerson "John Doe" "STAFF" (PStr "N") "a1" 0 0;
                AddPerson "Ann Lee" "FELLOW" (PStr "Y") "b2" 0 0] in
  ∃ lines b,
    Reports.print_unallocated d = Some (lines, b)
    ∧ (b = false ↔
       ∀ i p, Dojo.people d !! i = Some p →
              housed office d (Person.person_id p)
              ∧ (Person.fellow_wanting p = true →
                 housed living_space d (Person.person_id p)))
    ∧ (b = false →
       lines = ["Unallocated People"; Reports.rule; "No unallocated people."]).
Proof.
  apply (print_unallocated_reports
           [CreateRoom "office" (Dojo.NamesStr "Blue");
            AddPerson "John Doe" "STAFF" (PStr "N") "a1" 0 0;
            AddPerson "Ann Lee" "FELLOW" (PStr "Y") "b2" 0 0]);
    reflexivity.
Defined.

(** ** Recorded names, without reallocation *)

Lemma allocate_named (k : RoomType) (d : Dojo.t) (r : nat) (l : list Person.t)
    (p : Person.t) :
  Dojo.people d = l ++ [p] →
  (∀ k', named (alloc k' p)) →
  ∃ p', Dojo.people (Dojo._allocate k d (length l) r).2 = l ++ [p']
        ∧ ∀ k', named (alloc k' p').
Proof.
  intros Hpeople Hn.
  destruct (allocate_unfold k d (length l) r)
    as [-> | (i & room & q & _ & _ & ->)]; [by exists p |].
  dojo_simpl. rewrite Hpeople, alter_snoc. eexists. split; [done |].
  intros k'. rewrite alloc_set_allocated. case_decide; [right; by eexists | done].
Qed.

Lemma add_person_names_recorded (d : Dojo.t) (name person_type : string)
    (wants : value) (uuid : string) (r1 r2 : nat) :
  names_recorded d →
  names_recorded (Dojo.add_person d name person_type wants uuid r1 r2).2.
Proof.
  intros Hd.
  destruct (classic_accepted person_type wants) as [Ha | Hna].
  2: { by rewrite (add_person_rejected d name person_type wants uuid r1 r2 Hna). }
  destruct (proj1 (accepted_new_person person_type wants name uuid) Ha)
    as (k & person & Hk & Hn).
  destruct (new_person_fields _ _ _ _ _ Hn) as (_ & Hoff & Hliv & _).
  destruct (add_person_to_lists_fields d person) as (_ & Hp1 & _).
  rewrite (add_person_unfold d name person_type wants uuid r1 r2 k person Hk Hn).
  cbv zeta.
  remember (Dojo._add_person_to_lists d person).2 as d1 eqn:Ed1.
  destruct (allocate_named office d1 r1 _ _ Hp1) as (p2 & Hp2 & Hn2).
  { intros k'. left. destruct k'; simpl; [done |]. rewrite Hliv. by destruct k. }
  remember (Dojo._allocate office d1 (length (Dojo.people d)) r1).2 as d2 eqn:Ed2.
  destruct (allocate_named living_space d2 r2 _ _ Hp2 Hn2) as (p3 & Hp3 & Hn3).
  assert (names_recorded d2) as H2.
  { unfold names_recorded. rewrite Hp2. apply Forall_app. split; [done |].
    by apply Forall_singleton. }
  destruct (split name); [done |].
  destruct (Person.fellow_wanting person); [| done]. simpl.
  unfold names_recorded. rewrite Hp3. apply Forall_app. split; [done |].
  by apply Forall_singleton.
Qed.

Lemma run_names_recorded (ops : list Op) :
  no_reallocation ops = true → names_recorded (run ops).
Proof.
  unfold run. assert (names_recorded Dojo.init) as H by constructor.
  revert H. generalize Dojo.init.
  induction ops as [|o ops IH]; intros d Hd Hno; simpl in *; [done |].
  apply andb_prop in Hno as [Ho Hrest]. apply IH; [| done].
  destruct o as [rt names | name pt w uuid r1 r2 | pid nm]; simpl; [| | done].
  - unfold Dojo.create_room.
    destruct (Dojo.parse_room_type rt) as [k|]; [| done].
    destruct names as [s|l|]; try done;
      match goal with |- context [Dojo.create_room_loop ?k ?l ?c ?d] =>
        destruct (create_room_loop_appends k l c d) as (new & -> & _) end;
      unfold names_recorded; simpl; by rewrite people_set_rooms.
  - by apply add_person_names_recorded.
Qed.

(** X18: as long as no reallocation has taken place, on an instance built
    with fresh, non-empty identifiers, the id of a person is among the
    occupants of a room exactly when the person records the name of that
    room in the attribute for its kind. *)
Theorem allocation_records_the_room (ops : list Op) (i j : nat) (p : Person.t)
    (k : RoomType) (r : Room.t) :
  fresh ops = true →
  nonempty_ids ops = true →
  no_reallocation ops = true →
  Dojo.people (run ops) !! i = Some p →
  Dojo.rooms_of k (run ops) !! j = Some r →
  Person.person_id p ∈ Room.occupants r ↔ alloc k p = PStr (Room.name r).
Proof.
  intros Hf Hne Hno Hp Hr.
  pose proof (run_wf ops Hf) as Hd.
  destruct (run_allocs_ok ops Hf Hne) as (Ha & _ & _).
  pose proof (Forall_lookup_1 _ _ _ _ (run_names_recorded ops Hno) Hp k) as Hnamed.
  specialize (Ha i p k Hp). unfold alloc_ok in Ha. split.
  - intros Hin. destruct Hnamed as [Hnone | [n Hn]].
    + rewrite Hnone in Ha. exfalso. apply Ha. by exists (Room.name r), j, r.
    + rewrite Hn in *. destruct Ha as (j' & r' & Hr' & <- & Hin').
      assert (j' = j) as -> by by eapply (wf_exclusive _ Hd).
      congruence.
  - intros Heq. rewrite Heq in Ha. destruct Ha as (j' & r' & Hr' & Hnm & Hin').
    destruct (wf_names _ Hd k k j' j r' r Hr' Hr) as [_ ->]; [by rewrite Hnm |].
    congruence.
Qed.

Lemma allocation_records_the_room_witness :
  let ops := [CreateRoom "office" (Dojo.NamesList [PStr "Blue"; PStr "Red"]);
              AddPerson "John Doe" "STAFF" (PStr "N") "a1" 1 0] in
  let john := Person.mk "John Doe" "a1" STAFF None (PStr "Red") None in
  let red := Room.mk "Red" office 6 ["a1"] in
  Person.person_id john ∈ Room.occupants red
  ↔ alloc office john = PStr (Room.name red).
Proof.
  intros ops john red.
  apply (allocation_records_the_room ops 0 1 john office red); reflexivity.
Defined.

(** ** The lists of staff and fellows *)

Lemma refs_from_snoc (t : PersonType) (i : nat) (l : list Person.t)
    (p : Person.t) :
  refs_from t i (l ++ [p])
  = refs_from t i l
    ++ if decide (Person.person_type p = t) then [i + length l] else [].
Proof.
  revert i. induction l as [|q l IH]; intros i; simpl.
  - rewrite Nat.add_0_r. by case_decide.
  - rewrite IH. replace (S i + length l) with (i + S (length l)) by lia.
    by destruct (decide (Person.person_type q = t)).
Qed.

Lemma refs_from_identity (t : PersonType) (i : nat) (l l' : list Person.t) :
  person_identity <$> l' = person_identity <$> l →
  refs_from t i l' = refs_from t i l.
Proof.
  revert i l'. induction l as [|q l IH]; intros i [|q' l']; simpl; try done.
  intros [= Hn Hi Ht Hw Hrest]. rewrite Ht. by rewrite (IH (S i) l' Hrest).
Qed.

Lemma step_registers (d : Dojo.t) (o : Op) :
  Dojo.staff d = refs_from STAFF 0 (Dojo.people d)
  ∧ Dojo.fellows d = refs_from FELLOW 0 (Dojo.people d) →
  Dojo.staff (step d o) = refs_from STAFF 0 (Dojo.people (step d o))
  ∧ Dojo.fellows (step d o) = refs_from FELLOW 0 (Dojo.people (step d o)).
Proof.
  intros [Hs Hf].
  destruct o as [rt names | name pt w uuid r1 r2 | pid nm]; simpl.
  - unfold Dojo.create_room.
    destruct (Dojo.parse_room_type rt) as [k|]; [| done].
    destruct names as [s|l|]; try done;
      match goal with |- context [Dojo.create_room_loop ?k ?l ?c ?d] =>
        destruct (create_room_loop_appends k l c d) as (new & -> & _) end;
      simpl; by destruct k, d.
  - destruct (classic_accepted pt w) as [Ha | Hna].
    2: { by rewrite (add_person_rejected d name pt w uuid r1 r2 Hna). }
    destruct (add_person_state d name pt w uuid r1 r2 Ha)
      as (k & p & _ & Hp & Hid & Hreg & _).
    assert (Person.person_type p = k) as Hty by by injection Hid.
    rewrite Hp, !refs_from_snoc, Hty.
    destruct k; injection Hreg as -> ->; simpl;
      rewrite ?app_nil_r; by rewrite <- ?Hs, <- ?Hf.
  - destruct (reallocate_person_frame d pid nm) as [(_ & Hp & -> & ->) _].
    by rewrite !(refs_from_identity _ _ _ _ Hp).
Qed.

(** X19: after any sequence of calls, [staff] and [fellows] hold the
    references of the people of each kind, each once, in the order of
    registration. *)
Theorem staff_and_fellows_partition (ops : list Op) :
  Dojo.staff (run ops) = refs_from STAFF 0 (Dojo.people (run ops))
  ∧ Dojo.fellows (run ops) = refs_from FELLOW 0 (Dojo.people (run ops)).
Proof.
  unfold run.
  assert (Dojo.staff Dojo.init = refs_from STAFF 0 (Dojo.people Dojo.init)
          ∧ Dojo.fellows Dojo.init = refs_from FELLOW 0 (Dojo.people Dojo.init))
    as H by done.
  revert H. generalize Dojo.init.
  induction ops as [|o ops IH]; intros d Hd; simpl; [done |].
  by apply IH, step_registers.
Qed.

(** ** When a reallocation succeeds, and what it does *)

Lemma find_new_room_lower (d : Dojo.t) (person : Person.t) (nm nm' : string) :
  lower nm = lower nm' →
  DojoApp.find_new_room d person nm = DojoApp.find_new_room d person nm'.
Proof. intros H. unfold DojoApp.find_new_room. by rewrite H. Qed.

Lemma list_find_person (d : Dojo.t) (i : nat) (p : Person.t) :
  well_formed d →
  Dojo.people d !! i = Some p →
  list_find (λ q, Person.person_id q = Person.person_id p) (Dojo.people d)
  = Some (i, p).
Proof.
  intros Hd Hp. apply list_find_unique; [done | done |].
  intros b y Hb Hy.
  apply (NoDup_lookup _ _ _ (Person.person_id p) (wf_ids d Hd));
    rewrite list_lookup_fmap; [by rewrite Hb, <- Hy | by rewrite Hp].
Qed.

Lemma reallocate_person_true_iff (d : Dojo.t) (pid nm : string) :
  well_formed d →
  (DojoApp.reallocate_person d pid nm).1 = Ret true ↔ can_move d pid nm.
Proof.
  intros Hd. split.
  - unfold DojoApp.reallocate_person.
    destruct (list_find _ (Dojo.people d)) as [[pi person]|] eqn:Hp; [| done].
    apply list_find_Some in Hp as (Hp & Hid & _).
    destruct (DojoApp.find_new_room d person nm) as [k ti room| |] eqn:Hf;
      try done.
    apply find_new_room_Found in Hf as (Hti & Hname & _ & Hw).
    case_bool_decide as Hfull; [done |].
    assert (pid ∉ Room.occupants room →
            can_move d pid nm) as Hmove.
    { intros Hnin. exists pi, person, k, ti, room.
      split; [done |]. split; [done |]. split; [done |]. split; [done |].
      split; [intros Hk; by apply Hw |]. split; [| done].
      unfold Room.is_full. by apply bool_decide_eq_false_2. }
    destruct (list_find _ (Dojo.rooms_of k d)) as [[ci cur]|] eqn:Hc.
    + apply list_find_Some in Hc as (Hci & Hcin & _).
      case_bool_decide as Hnm; [done |]. intros _. apply Hmove. intros Hin.
      assert (ci = ti) as -> by by eapply (wf_exclusive d Hd).
      apply Hnm. congruence.
    + intros _. apply Hmove.
      apply list_find_None in Hc. by apply (Forall_lookup_1 _ _ _ _ Hc Hti).
  - intros (i & p & k & j & room & Hp & Hid & Hj & Hname & Hw & Hfull & Hnin).
    unfold DojoApp.reallocate_person. subst pid.
    rewrite (list_find_person d i p Hd Hp).
    rewrite (find_new_room_lower d p nm (Room.name room)) by done.
    rewrite (find_new_room_by_name d p k j room Hd Hj Hw).
    unfold Room.is_full in Hfull. rewrite Hfull.
    destruct (list_find _ (Dojo.rooms_of k d)) as [[ci cur]|] eqn:Hc; [| done].
    apply list_find_Some in Hc as (Hci & Hcin & _).
    rewrite bool_decide_eq_false_2.
    2: { intros Heq. destruct (wf_names d Hd k k ci j cur room Hci Hj Heq)
           as [_ ->]. congruence. }
    unfold DojoApp.perform_reallocation.
    by destruct (list_remove_is_Some _ _ Hcin) as [l ->].
Qed.

(** X20: on an instance built with fresh identifiers, [reallocate_person]
    returns [True] exactly when the id is that of a registered person, the
    name is, ignoring case, that of a room the person may occupy (a living
    space asks for a fellow who wants accommodation), the room has a free
    place and the person is not already in it; otherwise it returns [False]
    and leaves the instance as it was. *)
Theorem reallocate_person_succeeds_iff (ops : list Op) (pid nm : string) :
  fresh ops = true →
  ((DojoApp.reallocate_person (run ops) pid nm).1 = Ret true
   ↔ can_move (run ops) pid nm)
  ∧ (¬ can_move (run ops) pid nm →
     DojoApp.reallocate_person (run ops) pid nm = (Ret false, run ops)).
Proof.
  intros Hf. pose proof (run_wf ops Hf) as Hd.
  split; [by apply reallocate_person_true_iff |].
  intros Hno.
  destruct (reallocate_person_false_unchanged (run ops) pid nm) as [Ht | Hr];
    [| done].
  by apply reallocate_person_true_iff in Ht.
Qed.

Lemma reallocate_person_succeeds_iff_witness :
  let ops := [CreateRoom "living_space" (Dojo.NamesStr "Ruby");
              AddPerson "John Doe" "STAFF" (PStr "N") "a1" 0 0] in
  ((DojoApp.reallocate_person (run ops) "a1" "ruby").1 = Ret true
   ↔ can_move (run ops) "a1" "ruby")
  ∧ (¬ can_move (run ops) "a1" "ruby" →
     DojoApp.reallocate_person (run ops) "a1" "ruby" = (Ret false, run ops)).
Proof.
  intros ops. apply (reallocate_person_succeeds_iff ops "a1" "ruby").
  reflexivity.
Defined.

Lemma perform_reallocation_target (d : Dojo.t) (k : RoomType) (pi : nat)
    (pid : string) (current : option (nat * Room.t)) (ti : nat)
    (new_room : Room.t) :
  let res := DojoApp.perform_reallocation d k pi pid current ti new_room in
  res.1 = Ret true →
  Dojo.rooms_of k d !! ti = Some new_room →
  (∀ ci cur, current = Some (ci, cur) → ci ≠ ti) →
  Dojo.rooms_of k res.2 !! ti
  = Some (Room.set_occupants new_room (Room.occupants new_room ++ [pid])).
Proof.
  unfold DojoApp.perform_reallocation. intros Hres Hti Hne.
  destruct current as [[ci cur]|]; simpl in *.
  - destruct (list_remove pid (Room.occupants cur)) as [l|]; simpl in *;
      [| done].
    dojo_simpl.
    rewrite list_lookup_alter_eq, list_lookup_alter_ne, Hti by by eapply Hne.
    done.
  - dojo_simpl. by rewrite list_lookup_alter_eq, Hti.
Qed.

(** X21: a successful reallocation, on an instance built with fresh
    identifiers, appends the id to the occupants of the room named; the id
    is then in no other room of that kind, every room keeps its name and its
    other occupants, and the rooms of the other kind are untouched. *)
Theorem reallocate_person_effect (ops : list Op) (pid nm : string)
    (d' : Dojo.t) :
  fresh ops = true →
  DojoApp.reallocate_person (run ops) pid nm = (Ret true, d') →
  ∃ k j room,
    Dojo.rooms_of k (run ops) !! j = Some room
    ∧ lower (Room.name room) = lower nm
    ∧ Dojo.rooms_of k d' !! j
      = Some (Room.set_occupants room (Room.occupants room ++ [pid]))
    ∧ (∀ j' r', Dojo.rooms_of k d' !! j' = Some r' →
                pid ∈ Room.occupants r' ↔ j' = j)
    ∧ rooms_agree pid (run ops) d'
    ∧ ∀ k', k' ≠ k → Dojo.rooms_of k' d' = Dojo.rooms_of k' (run ops).
Proof.
  intros Hf Hres. pose proof (run_wf ops Hf) as Hd.
  pose proof (reallocate_person_wf _ pid nm Hd) as Hd'.
  rewrite Hres in Hd'. simpl in Hd'.
  revert Hres. generalize dependent (run ops). intros d Hd.
  unfold DojoApp.reallocate_person.
  destruct (list_find _ (Dojo.people d)) as [[pi person]|] eqn:Hp; [| done].
  destruct (DojoApp.find_new_room d person nm) as [k ti room| |] eqn:Hfd;
    try done.
  apply find_new_room_Found in Hfd as (Hti & Hname & _ & _).
  case_bool_decide as Hfull; [done |].
  assert (∀ current,
    (∀ ci cur, current = Some (ci, cur) →
               Dojo.rooms_of k d !! ci = Some cur ∧ ci ≠ ti) →
    DojoApp.perform_reallocation d k pi pid current ti room = (Ret true, d') →
    ∃ k j room,
      Dojo.rooms_of k d !! j = Some room
      ∧ lower (Room.name room) = lower nm
      ∧ Dojo.rooms_of k d' !! j
        = Some (Room.set_occupants room (Room.occupants room ++ [pid]))
      ∧ (∀ j' r', Dojo.rooms_of k d' !! j' = Some r' →
                  pid ∈ Room.occupants r' ↔ j' = j)
      ∧ rooms_agree pid d d'
      ∧ ∀ k', k' ≠ k → Dojo.rooms_of k' d' = Dojo.rooms_of k' d) as Hperf.
  { intros current Hcur Hres.
    pose proof (perform_reallocation_target d k pi pid current ti room) as Ht.
    pose proof (perform_reallocation_rooms_agree d k pi pid current ti room)
      as Hag.
    pose proof (λ k', perform_reallocation_other_kind d k k' pi pid current
                        ti room) as Hother.
    rewrite Hres in Ht, Hag, Hother. simpl in Ht, Hag, Hother.
    assert (Dojo.rooms_of k d' !! ti
            = Some (Room.set_occupants room (Room.occupants room ++ [pid])))
      as Hti'.
    { apply Ht; [done | done |]. intros ci cur Hc. by apply (Hcur ci cur). }
    exists k, ti, room.
    split; [done |]. split; [done |]. split; [done |]. split.
    { intros j' r' Hj'. split.
      - intros Hin. eapply (wf_exclusive d' Hd' k j' ti); [done | done | done |].
        simpl. apply elem_of_app. right. by apply list_elem_of_singleton.
      - intros ->. rewrite Hti' in Hj'. injection Hj' as <-. simpl.
        apply elem_of_app. right. by apply list_elem_of_singleton. }
    split; [| done].
    apply Hag. intros ci cur Hc. by apply (Hcur ci cur). }
  destruct (list_find _ (Dojo.rooms_of k d)) as [[ci cur]|] eqn:Hc.
  - apply list_find_Some in Hc as (Hci & Hcin & _).
    case_bool_decide as Hnm; [done |].
    apply Hperf. intros ci' cur' [= -> ->]. split; [done |].
    intros ->. apply Hnm. congruence.
  - apply Hperf. by intros ci cur.
Qed.

Lemma reallocate_person_effect_witness :
  let ops := [CreateRoom "living_space" (Dojo.NamesStr "Ruby");
              AddPerson "Ann Lee" "FELLOW" (PStr "N") "a1" 0 0;
              CreateRoom "office" (Dojo.NamesStr "Blue")] in
  let d' := (DojoApp.reallocate_person (run ops) "a1" "blue").2 in
  ∃ k j room,
    Dojo.rooms_of k (run ops) !! j = Some room
    ∧ lower (Room.name room) = lower "blue"
    ∧ Dojo.rooms_of k d' !! j
      = Some (Room.set_occupants room (Room.occupants room ++ ["a1"]))
    ∧ (∀ j' r', Dojo.rooms_of k d' !! j' = Some r' →
                "a1" ∈ Room.occupants r' ↔ j' = j)
    ∧ rooms_agree "a1" (run ops) d'
    ∧ ∀ k', k' ≠ k → Dojo.rooms_of k' d' = Dojo.rooms_of k' (run ops).
Proof.
  intros ops d'.
  apply (reallocate_person_effect ops "a1" "blue" d'); reflexivity.
Defined.

(** ** The mapper, there and back *)

(** X22: a room turned into a row and back, in an instance that has no room
    of that name, is appended to the rooms of its kind as a new room of the
    same name and kind, with the capacity of the kind and no occupant. *)
Theorem room_round_trip (r : Room.t) (d : Dojo.t) :
  Room.name r ∉ Room.name <$> (Dojo.offices d ++ Dojo.living_spaces d) →
  let k := Room.room_type r in
  DB.to_domain_room (DB.to_db_room r) d
  = (Ret (new_room k (Room.name r)),
     Dojo.set_rooms k (Dojo.rooms_of k d ++ [new_room k (Room.name r)]) d)
  ∧ (Room.capacity r = room_capacity k →
     room_identity (new_room k (Room.name r)) = room_identity r).
Proof.
  intros Hnin k. split.
  2: { intros Hc. unfold room_identity. rewrite Hc. by destruct r as [? [] ? ?]. }
  assert (∀ l, Room.name r ∉ Room.name <$> l →
               list_find (λ o, Room.name o = Room.name r) l = None) as Hnone.
  { intros l Hl. apply list_find_None, Forall_forall. intros o Ho Heq.
    apply Hl. rewrite <- Heq. by apply list_elem_of_fmap_2. }
  rewrite fmap_app in Hnin. apply not_elem_of_app in Hnin as [Ho Hl].
  unfold DB.to_domain_room, DB.to_db_room. subst k.
  destruct r as [n [] c occ]; simpl in *; by rewrite !Hnone.
Qed.

Lemma room_round_trip_witness :
  let blue := Room.mk "Blue" office 6 ["a1"; "b2"] in
  let d := run [CreateRoom "office" (Dojo.NamesStr "Red")] in
  DB.to_domain_room (DB.to_db_room blue) d
  = (Ret (new_room office "Blue"),
     Dojo.set_rooms office (Dojo.rooms_of office d ++ [new_room office "Blue"]) d)
  ∧ (Room.capacity blue = room_capacity office →
     room_identity (new_room office "Blue") = room_identity blue).
Proof.
  intros blue d. apply (room_round_trip blue d).
  simpl. intros [=]%list_elem_of_singleton.
Defined.

(** X23: a person as the classes build it, whose allocation attributes hold
    nothing or the name of a room, comes back from its row as it was, and is
    appended to the people of the instance. *)
Theorem person_round_trip (p : Person.t) (d : Dojo.t) :
  storable p →
  DB.to_domain_person (DB.to_db_person p) d
  = (length (Dojo.people d), Dojo.set_people (Dojo.people d ++ [p]) d).
Proof.
  intros [Hc Ha]. pose proof (Ha office) as Ho. pose proof (Ha living_space) as Hl.
  unfold DB.to_domain_person, DB.to_db_person.
  destruct p as [nm pid k w oa la]. unfold class_ok in Hc. simpl in *.
  destruct k; simpl in Hc.
  - destruct Hc as [[b ->] [v ->]]. simpl in Hl.
    destruct Ho as [-> | (n & -> & Hn)], Hl as [-> | (n' & -> & Hn')]; simpl;
      rewrite ?bool_decide_eq_false_2 by done; simpl;
      rewrite ?bool_decide_eq_false_2 by done; simpl;
      by destruct b.
  - destruct Hc as [-> ->]. clear Hl.
    destruct Ho as [-> | (n & -> & Hn)]; simpl;
      rewrite ?bool_decide_eq_false_2 by done; simpl;
      rewrite ?bool_decide_eq_false_2 by done; by simpl.
Qed.

Lemma person_round_trip_witness :
  let ann := Person.mk "Ann Lee" "a1" FELLOW (Some true) (PStr "Blue")
                       (Some (PStr "Ruby")) in
  DB.to_domain_person (DB.to_db_person ann) Dojo.init
  = (0, Dojo.set_people [ann] Dojo.init).
Proof.
  intros ann. apply (person_round_trip ann Dojo.init). split.
  - split; by eexists.
  - intros []; right; eexists; (split; [reflexivity | discriminate]).
Defined.

(** ** What a load leaves *)

Lemma loaded_ok_init : loaded_ok Dojo.init.
Proof.
  split; try done; try apply NoDup_nil_2.
  - intros []; constructor.
  - intros []; constructor.
Qed.

Lemma foldl_add_occupant_ok (k : RoomType) (occs : list string) (r : Room.t) :
  room_ok k r → within_capacity k r →
  room_ok k (foldl (λ r o, (Room.add_occupant r (Some o)).2) r occs)
  ∧ within_capacity k (foldl (λ r o, (Room.add_occupant r (Some o)).2) r occs)
  ∧ Room.name (foldl (λ r o, (Room.add_occupant r (Some o)).2) r occs)
    = Room.name r.
Proof.
  revert r. induction occs as [|o occs IH]; intros r Hok Hcap; [done |].
  cbn [foldl].
  destruct (add_occupant_spec r o) as (Hn & Ht & Hocc).
  destruct (add_occupant_length r (Some o)) as [Hc Hlen].
  destruct Hok as [Hty Hnd]. destruct Hcap as [Hcap Hle].
  destruct (IH (Room.add_occupant r (Some o)).2) as (? & ? & Hn').
  - split; [congruence |]. destruct Hocc as [-> | [Hnin ->]]; [done |].
    apply NoDup_app. split; [done |]. split; [| apply NoDup_singleton].
    by intros x Hx ->%list_elem_of_singleton.
  - split; [congruence |]. rewrite <- Hcap. apply Hlen. lia.
  - split; [done |]. split; [done |]. by rewrite Hn'.
Qed.

Lemma NoDup_fmap_append_room {B} (f : Room.t → B) (d : Dojo.t) (k : RoomType)
    (r : Room.t) :
  NoDup (f <$> (Dojo.offices d ++ Dojo.living_spaces d)) →
  f r ∉ f <$> (Dojo.offices d ++ Dojo.living_spaces d) →
  NoDup (f <$> (Dojo.offices (Dojo.set_rooms k (Dojo.rooms_of k d ++ [r]) d)
                ++ Dojo.living_spaces
                     (Dojo.set_rooms k (Dojo.rooms_of k d ++ [r]) d))).
Proof.
  intros Hnd Hnew.
  assert (f <$> (Dojo.offices (Dojo.set_rooms k (Dojo.rooms_of k d ++ [r]) d)
                 ++ Dojo.living_spaces
                      (Dojo.set_rooms k (Dojo.rooms_of k d ++ [r]) d))
          ≡ₚ f r :: (f <$> (Dojo.offices d ++ Dojo.living_spaces d)))
    as Hperm.
  { destruct k, d as [o l p s fl]; simpl; rewrite !fmap_app; simpl.
    - rewrite <- app_assoc. simpl. symmetry. apply Permutation_middle.
    - rewrite app_assoc. apply Permutation_app_comm. }
  rewrite Hperm. by apply NoDup_cons.
Qed.

Lemma loaded_ok_append_room (d : Dojo.t) (k : RoomType) (r : Room.t) :
  loaded_ok d →
  Room.name r ∉ Room.name <$> (Dojo.offices d ++ Dojo.living_spaces d) →
  room_ok k r → within_capacity k r →
  loaded_ok (Dojo.set_rooms k (Dojo.rooms_of k d ++ [r]) d).
Proof.
  intros Hd Hnew Hok Hcap. split.
  - by apply NoDup_fmap_append_room; [apply (lo_names d Hd) |].
  - intros k'. dojo_simpl. case_decide; [subst | apply (lo_rooms d Hd)].
    apply Forall_app. split; [apply (lo_rooms d Hd) | by apply Forall_singleton].
  - intros k'. dojo_simpl. case_decide; [subst | apply (lo_capacity d Hd)].
    apply Forall_app. split; [apply (lo_capacity d Hd) | by apply Forall_singleton].
  - dojo_simpl. apply (lo_ids d Hd).
  - dojo_simpl. rewrite <- (lo_staff d Hd). by destruct k, d.
  - dojo_simpl. rewrite <- (lo_fellows d Hd). by destruct k, d.
Qed.

Lemma to_domain_room_loaded (row : RoomDB.t) (d : Dojo.t) :
  loaded_ok d →
  loaded_ok (DB.to_domain_room row d).2
  ∧ ∀ room, (DB.to_domain_room row d).1 = Ret room →
      room ∈ Dojo.rooms_of (Room.room_type room) (DB.to_domain_room row d).2.
Proof.
  intros Hd. unfold DB.to_domain_room.
  assert (∀ k i o, Dojo.rooms_of k d !! i = Some o →
                   o ∈ Dojo.rooms_of (Room.room_type o) d) as Hold.
  { intros k i o Hi.
    destruct (Forall_lookup_1 _ _ _ _ (lo_rooms d Hd k) Hi) as [-> _].
    by eapply list_elem_of_lookup_2. }
  destruct (list_find _ (Dojo.offices d)) as [[i o]|] eqn:Ho.
  { apply list_find_Some in Ho as (Hi & _). split; [done |].
    intros room [= <-]. by apply (Hold office i). }
  destruct (list_find _ (Dojo.living_spaces d)) as [[i o]|] eqn:Hl.
  { apply list_find_Some in Hl as (Hi & _). split; [done |].
    intros room [= <-]. by apply (Hold living_space i). }
  destruct (DB.room_kind_of_row row) as [k|]; [| done].
  apply list_find_None in Ho, Hl.
  destruct (foldl_add_occupant_ok k (RoomDB.occupants row)
              (new_room k (RoomDB.name row))) as (Hok & Hcap & Hn).
  { split; destruct k; simpl; try done; apply NoDup_nil_2. }
  { split; destruct k; simpl; [done | done | lia | lia]. }
  fold (new_room k (RoomDB.name row)).
  remember (foldl (λ r o, (Room.add_occupant r (Some o)).2)
                  (new_room k (RoomDB.name row)) (RoomDB.occupants row))
    as room eqn:Eroom.
  assert (Room.name room = RoomDB.name row) as Hname.
  { rewrite Hn. by destruct k. }
  cbn [fst snd]. split.
  - apply loaded_ok_append_room; [done | | done | done].
    rewrite Hname. intros (o & Heq & Hin)%list_elem_of_fmap.
    apply elem_of_app in Hin as [Hin | Hin].
    + by apply (proj1 (Forall_forall _ _) Ho o Hin).
    + by apply (proj1 (Forall_forall _ _) Hl o Hin).
  - intros ? [= <-]. destruct Hok as [-> _]. dojo_simpl.
    apply elem_of_app. right. by apply list_elem_of_singleton.
Qed.

Lemma load_rooms_loaded (rows : list RoomDB.t) (loaded : list string)
    (d : Dojo.t) :
  loaded_ok d → loaded_ok (DB.load_rooms rows loaded d).2.
Proof.
  revert loaded d. induction rows as [|row rest IH]; intros loaded d Hd; [done |].
  cbn [DB.load_rooms].
  case_bool_decide; [by apply IH |].
  destruct (to_domain_room_loaded row d Hd) as [Hd1 Hin].
  destruct (DB.to_domain_room row d) as [[room|e] d1]; cbn [fst snd] in *;
    [| done].
  rewrite bool_decide_eq_true_2; [by apply IH |].
  apply Exists_exists. exists room. split; [by apply Hin | done].
Qed.

Lemma refs_from_bound (t : PersonType) (i : nat) (l : list Person.t) (x : nat) :
  x ∈ refs_from t i l → i ≤ x < i + length l.
Proof.
  revert i. induction l as [|p l IH]; intros i; simpl.
  - by intros ?%elem_of_nil.
  - destruct (decide (Person.person_type p = t)).
    + intros [-> | Hx%IH]%elem_of_cons; lia.
    + intros Hx%IH. lia.
Qed.

Lemma to_domain_person_fields (row : PersonDB.t) (d : Dojo.t) :
  ∃ person,
    DB.to_domain_person row d
    = (length (Dojo.people d), Dojo.set_people (Dojo.people d ++ [person]) d)
    ∧ Person.person_id person = PersonDB.id row.
Proof.
  unfold DB.to_domain_person. eexists. split; [done |].
  destruct (PersonDB.fellow row); repeat case_bool_decide;
    destruct (truthy (PersonDB.office_id row)),
             (truthy (PersonDB.living_space_id row)); done.
Qed.

Lemma load_person_loaded (d : Dojo.t) (row : PersonDB.t) :
  loaded_ok d → loaded_ok (DB.load_person d row).
Proof.
  intros Hd. unfold DB.load_person.
  destruct (list_find _ (Dojo.people d)) as [?|] eqn:Hfind; [done |].
  apply list_find_None in Hfind.
  destruct (to_domain_person_fields row d) as (person & -> & Hid).
  assert (NoDup (Person.person_id <$> (Dojo.people d ++ [person]))) as Hids.
  { rewrite fmap_app. apply NoDup_app. split; [apply (lo_ids d Hd) |].
    split; [| apply NoDup_singleton].
    intros x (q & Hx & Hq)%list_elem_of_fmap Heq%list_elem_of_singleton.
    apply (proj1 (Forall_forall _ _) Hfind q Hq). congruence. }
  assert (∀ t, length (Dojo.people d) ∉ refs_from t 0 (Dojo.people d)) as Hnew.
  { intros t Hin%refs_from_bound. lia. }
  pose proof (lo_staff d Hd) as Hs. pose proof (lo_fellows d Hd) as Hf.
  pose proof (lo_names d Hd) as Hn. pose proof (lo_rooms d Hd) as Hr.
  pose proof (lo_capacity d Hd) as Hc.
  destruct d as [o l p s f]. simpl in *.
  rewrite (list_lookup_middle p [] person (length p) eq_refl). simpl.
  destruct (Person.person_type person) eqn:Hty.
  - rewrite bool_decide_eq_false_2 by (rewrite Hf; apply Hnew).
    split; simpl.
    + done.
    + intros k. destruct k; [apply (Hr office) | apply (Hr living_space)].
    + intros k. destruct k; [apply (Hc office) | apply (Hc living_space)].
    + done.
    + rewrite refs_from_snoc, Hty, Hs. simpl. by rewrite app_nil_r.
    + rewrite refs_from_snoc, Hty, Hf. by simpl.
  - rewrite bool_decide_eq_false_2 by (rewrite Hs; apply Hnew).
    split; simpl.
    + done.
    + intros k. destruct k; [apply (Hr office) | apply (Hr living_space)].
    + intros k. destruct k; [apply (Hc office) | apply (Hc living_space)].
    + done.
    + rewrite refs_from_snoc, Hty, Hs. by simpl.
    + rewrite refs_from_snoc, Hty, Hf. simpl. by rewrite app_nil_r.
Qed.

Lemma foldl_load_person_loaded (rows : list PersonDB.t) (d : Dojo.t) :
  loaded_ok d → loaded_ok (foldl DB.load_person d rows).
Proof.
  revert d. induction rows as [|row rest IH]; intros d Hd; [done |].
  by apply IH, load_person_loaded.
Qed.

(** X24: whatever the file holds, an instance that [load_state] has filled
    has pairwise distinct room names, rooms of the kind of their list with
    the capacity of that kind, no more occupants than that and none twice,
    pairwise distinct person ids, and [staff] and [fellows] listing the
    people of each kind.  A load that fails returns the instance it was
    given or such an instance, filled in part. *)
Theorem load_state_result (d d' : Dojo.t) (fs : DB.filesystem)
    (db_path : string) (b : bool) :
  DB.load_state d fs db_path = (b, d') →
  (b = true →
   loaded_ok d' ∧ DojoApp.load_state d fs db_path = (true, d'))
  ∧ (b = false → d' = d ∨ loaded_ok d').
Proof.
  unfold DojoApp.load_state, DB.load_state.
  destruct (fs db_path) as [nd|] eqn:Hfs.
  2: { intros [= <- <-]. split; [done | by left]. }
  destruct (DB._is_valid_sqlite_db fs db_path) eqn:Hv; simpl.
  2: { intros [= <- <-]. split; [done | by left]. }
  destruct nd as [|h st].
  { intros [= <- <-]. split; [done | by left]. }
  destruct (DB.rooms st) as [rows|e].
  2: { intros [= <- <-]. split; [done |]. intros _. right. apply loaded_ok_init. }
  pose proof (load_rooms_loaded rows [] Dojo.init loaded_ok_init) as H1.
  destruct (DB.load_rooms rows [] Dojo.init) as [[[]|e] d1]; simpl in H1.
  2: { intros [= <- <-]. split; [done |]. intros _. by right. }
  destruct (DB.persons st) as [prows|e].
  2: { intros [= <- <-]. split; [done |]. intros _. by right. }
  intros [= <- <-]. split; [| done]. intros _.
  split; [by apply foldl_load_person_loaded | done].
Qed.

Lemma load_state_result_witness :
  let d := run [CreateRoom "office" (Dojo.NamesStr "Blue");
                AddPerson "John Doe" "STAFF" (PStr "N") "a1" 0 0] in
  let fs : DB.filesystem :=
    λ _, Some (DB.File (Some DB.sqlite_header) (DB.saved_store d)) in
  let d' := (DB.load_state Dojo.init fs "test_dojo.db").2 in
  (true = true →
   loaded_ok d' ∧ DojoApp.load_state Dojo.init fs "test_dojo.db" = (true, d'))
  ∧ (true = false → d' = Dojo.init ∨ loaded_ok d').
Proof.
  intros d fs d'.
  apply (load_state_result Dojo.init d' fs "test_dojo.db" true). reflexivity.
Defined.

(** ** The keys of the rows *)

Lemma lower_char_underscore (c : ascii) :
  bool_decide (lower_char c = "_"%char) = bool_decide (c = "_"%char).
Proof. by destruct c as [[] [] [] [] [] [] [] []]. Qed.

Lemma has_char_lower (s : string) :
  has_char "_" (lower s) = has_char "_" s.
Proof.
  induction s as [|c s IH]; [done |].
  simpl. fold (lower s). by rewrite IH, lower_char_underscore.
Qed.

Lemma replace_space_inj (s1 s2 : string) :
  has_char "_" s1 = false → has_char "_" s2 = false →
  replace_space s1 = replace_space s2 → s1 = s2.
Proof.
  revert s2. induction s1 as [|c1 s1 IH]; intros [|c2 s2]; simpl; try done.
  intros [H1 Hs1]%orb_false_elim [H2 Hs2]%orb_false_elim [= Hc Hs].
  apply bool_decide_eq_false in H1, H2.
  f_equal; [| by apply IH].
  repeat case_bool_decide; congruence.
Qed.

Lemma to_db_room_id (r : Room.t) :
  RoomDB.id (DB.to_db_room r) = replace_space (lower (Room.name r)).
Proof. by destruct r as [? [] ? ?]. Qed.

Lemma to_db_person_id (p : Person.t) :
  PersonDB.id (DB.to_db_person p) = Person.person_id p.
Proof.
  unfold DB.to_db_person.
  destruct p as [nm pid [] w oa [v|]]; simpl;
    repeat match goal with |- context [truthy ?x] => destruct (truthy x) end;
    done.
Qed.

(** X25: on an instance built with fresh identifiers whose room names hold
    no underscore, the rows [save_state] builds have pairwise distinct
    primary keys, for the rooms and for the people. *)
Theorem saved_rows_have_distinct_ids (ops : list Op) :
  fresh ops = true →
  Forall (λ r, has_char "_" (Room.name r) = false)
         (Dojo.offices (run ops) ++ Dojo.living_spaces (run ops)) →
  ∃ rows prows,
    DB.saved_store (run ops) = DB.mkStore (Ret rows) (Ret prows)
    ∧ NoDup (RoomDB.id <$> rows) ∧ NoDup (PersonDB.id <$> prows).
Proof.
  intros Hf Hus. eexists _, _. split; [done |]. split.
  - rewrite <- list_fmap_compose.
    rewrite (list_fmap_ext _ (replace_space ∘ (λ r, lower (Room.name r))) _)
      by (intros; apply to_db_room_id).
    rewrite list_fmap_compose.
    apply NoDup_fmap_2_strong; [| apply run_names_unique].
    intros x y (rx & -> & Hx)%list_elem_of_fmap (ry & -> & Hy)%list_elem_of_fmap.
    apply replace_space_inj; rewrite has_char_lower.
    + apply (proj1 (Forall_forall _ _) Hus rx Hx).
    + apply (proj1 (Forall_forall _ _) Hus ry Hy).
  - rewrite <- list_fmap_compose.
    rewrite (list_fmap_ext _ Person.person_id _)
      by (intros; apply to_db_person_id).
    apply (wf_ids _ (run_wf ops Hf)).
Qed.

Lemma saved_rows_have_distinct_ids_witness :
  let ops := [CreateRoom "office" (Dojo.NamesList [PStr "Blue Room"; PStr "Red"]);
              AddPerson "John Doe" "STAFF" (PStr "N") "a1" 0 0] in
  ∃ rows prows,
    DB.saved_store (run ops) = DB.mkStore (Ret rows) (Ret prows)
    ∧ NoDup (RoomDB.id <$> rows) ∧ NoDup (PersonDB.id <$> prows).
Proof.
  intros ops. apply (saved_rows_have_distinct_ids ops); [reflexivity |].
  repeat constructor.
Defined.

Lemma replace_space_lower_replace_space (s : string) :
  replace_space (lower (replace_space s)) = replace_space (lower s).
Proof.
  induction s as [|c s IH]; [done |].
  unfold replace_space, lower in *. simpl. rewrite IH. f_equal.
  by destruct c as [[] [] [] [] [] [] [] []].
Qed.

(** X26: a name that is not blank and the same name with its spaces turned
    into underscores are two names for [create_room], which builds a room
    for each; the two rooms get the same key in [to_db_room]. *)
Theorem room_ids_collide (n : string) :
  blank n = false →
  blank (replace_space n) = false →
  lower (replace_space n) ≠ lower n →
  Dojo.create_room Dojo.init "office"
    (Dojo.NamesList [PStr n; PStr (replace_space n)])
  = (true, Dojo.mk [Room.Office n; Room.Office (replace_space n)] [] [] [] [])
  ∧ RoomDB.id (DB.to_db_room (Room.Office n))
    = RoomDB.id (DB.to_db_room (Room.Office (replace_space n))).
Proof.
  intros Hb Hb' Hne. split.
  - unfold Dojo.create_room.
    change (Dojo.parse_room_type "office") with (Some office). cbv iota.
    rewrite create_room_loop_cons. unfold blank in Hb, Hb'. rewrite Hb.
    change (Dojo.name_exists Dojo.init n) with false. cbv iota.
    rewrite create_room_loop_cons, Hb'.
    assert (Dojo.name_exists
              (Dojo.set_rooms office
                 (Dojo.rooms_of office Dojo.init ++ [new_room office n])
                 Dojo.init) (replace_space n) = false) as ->; [| done].
    apply bool_decide_eq_false_2. simpl.
    intros [H | H%Exists_nil]%Exists_cons; [| done]. by apply Hne.
  - rewrite !to_db_room_id. simpl. by rewrite replace_space_lower_replace_space.
Qed.

Lemma room_ids_collide_witness :
  Dojo.create_room Dojo.init "office"
    (Dojo.NamesList [PStr "Blue Room"; PStr (replace_space "Blue Room")])
  = (true, Dojo.mk [Room.Office "Blue Room";
                    Room.Office (replace_space "Blue Room")] [] [] [] [])
  ∧ RoomDB.id (DB.to_db_room (Room.Office "Blue Room"))
    = RoomDB.id (DB.to_db_room (Room.Office (replace_space "Blue Room"))).
Proof.
  apply (room_ids_collide "Blue Room"); [reflexivity | reflexivity |].
  by vm_compute.
Defined.

(** ** The application layer in front of [add_person] *)

Lemma upper_char_idem (c : ascii) : upper_char (upper_char c) = upper_char c.
Proof. by destruct c as [[] [] [] [] [] [] [] []]. Qed.

Lemma upper_idem (s : string) : upper (upper s) = upper s.
Proof.
  induction s as [|c s IH]; [done |].
  unfold upper in *. simpl. by rewrite IH, upper_char_idem.
Qed.

Lemma add_person_upper (d : Dojo.t) (name person_type wants : string)
    (uuid : string) (r1 r2 : nat) :
  Dojo.add_person d name (upper person_type) (PStr (upper wants)) uuid r1 r2
  = Dojo.add_person d name person_type (PStr wants) uuid r1 r2.
Proof.
  unfold Dojo.add_person, Dojo.add_person_try, Person.Fellow.
  by rewrite !upper_idem.
Qed.

Lemma app_accepts_accepted (person_type wants : string) :
  app_accepts person_type wants → accepted person_type (PStr wants).
Proof.
  intros [[Hf _] | [Hs Hn]]; [by left | right].
  split; [done |]. intros s [= <-]. by rewrite Hn.
Qed.

Lemma app_add_person_cases (d : Dojo.t) (name person_type wants : string)
    (uuid : string) (r1 r2 : nat) :
  (app_accepts person_type wants
   ∧ DojoApp.add_person d name person_type wants uuid r1 r2
     = Dojo.add_person d name person_type (PStr wants) uuid r1 r2)
  ∨ (¬ app_accepts person_type wants
     ∧ DojoApp.add_person d name person_type wants uuid r1 r2 = (Ret false, d)).
Proof.
  unfold DojoApp.add_person, app_accepts.
  destruct (Dojo.parse_person_type (upper person_type)) as [k|] eqn:Hk.
  - apply parse_person_type_Some in Hk.
    destruct (decide (upper wants = "Y")) as [Hy | Hy],
             (decide (upper wants = "N")) as [Hn | Hn];
      try (rewrite Hy in Hn; discriminate Hn).
    + rewrite (bool_decide_eq_true_2 _ Hy). simpl.
      destruct k; simpl.
      * left. split; [left; by auto | apply add_person_upper].
      * right. split; [| done].
        intros [[Hf _] | [_ Hn']]; [by rewrite Hk in Hf | by rewrite Hy in Hn'].
    + rewrite (bool_decide_eq_false_2 _ Hy), (bool_decide_eq_true_2 _ Hn). simpl.
      rewrite andb_false_r.
      left. split; [| apply add_person_upper].
      destruct k; [left | right]; by auto.
    + rewrite (bool_decide_eq_false_2 _ Hy), (bool_decide_eq_false_2 _ Hn). simpl.
      right. split; [| done]. intros [[_ [? | ?]] | [_ ?]]; done.
  - right. split; [| done].
    unfold Dojo.parse_person_type in Hk. repeat case_bool_decide; try done.
    intros [[? _] | [? _]]; done.
Qed.

Lemma add_person_true_iff (d : Dojo.t) (name person_type : string)
    (wants : value) (uuid : string) (r1 r2 : nat) :
  (Dojo.add_person d name person_type wants uuid r1 r2).1 = Ret true
  ↔ accepted person_type wants ∧ split name ≠ [].
Proof.
  destruct (classic_accepted person_type wants) as [Ha | Hna].
  - destruct (proj1 (accepted_new_person person_type wants name uuid) Ha)
      as (k & person & Hk & Hn).
    rewrite (add_person_unfold d name person_type wants uuid r1 r2 k person Hk Hn).
    cbv zeta. destruct (split name) as [|w ws]; simpl.
    + split; [done | by intros [_ ?]].
    + done.
  - rewrite (add_person_rejected d name person_type wants uuid r1 r2 Hna). simpl.
    split; [done | by intros [? _]].
Qed.

(** X27: [DojoApp.add_person] refuses, writing nothing, whatever is not a
    fellow with [Y] or [N] or a staff member with [N], the case of the
    letters put aside; what it lets through it does as [Dojo.add_person],
    which accepts it; so it returns [True] exactly for such arguments with a
    name of one word at least. *)
Theorem app_add_person_validates (d : Dojo.t) (name person_type wants : string)
    (uuid : string) (r1 r2 : nat) :
  let res := DojoApp.add_person d name person_type wants uuid r1 r2 in
  (¬ app_accepts person_type wants → res = (Ret false, d))
  ∧ (app_accepts person_type wants →
     res = Dojo.add_person d name person_type (PStr wants) uuid r1 r2
     ∧ accepted person_type (PStr wants))
  ∧ (res.1 = Ret true ↔ app_accepts person_type wants ∧ split name ≠ []).
Proof.
  intros res. subst res.
  destruct (app_add_person_cases d name person_type wants uuid r1 r2)
    as [[Ha ->] | [Hna ->]].
  - split; [done |]. split; [by auto using app_accepts_accepted |].
    rewrite add_person_true_iff. split; [by intros [_ ?] |].
    intros [? ?]. by auto using app_accepts_accepted.
  - split; [done |]. split; [done |]. simpl. split; [done | by intros [? _]].
Qed.

(** ** The listings of rooms *)

Lemma occupant_lines_bearers (fmt : Person.t → string) (d : Dojo.t)
    (room : Room.t) :
  Forall (λ pid, pid ∈ Person.person_id <$> Dojo.people d)
         (Room.occupants room) →
  ∃ persons, bearers d (Room.occupants room) persons
             ∧ Reports.occupant_lines fmt d room = fmt <$> persons.
Proof.
  unfold Reports.occupant_lines, bearers. generalize (Room.occupants room).
  intros l. induction l as [|pid l IH]; intros Hl.
  - exists []. split; [constructor | done].
  - apply Forall_cons in Hl as [Hpid Hl]. destruct (IH Hl) as (ps & Hps & Heq).
    apply list_elem_of_fmap in Hpid as (q & Hq & Hin).
    destruct (list_find_elem_of (λ p, Person.person_id p = pid)
                (Dojo.people d) q Hin (eq_sym Hq)) as [[i p] Hfind].
    pose proof Hfind as (Hi & Hp & _)%list_find_Some.
    exists (p :: ps). split.
    + constructor; [| done]. split; [by eapply list_elem_of_lookup_2 | done].
    + rewrite bind_cons, Heq. unfold Reports.find_person. by rewrite Hfind.
Qed.

Lemma occupants_registered (d : Dojo.t) (k : RoomType) (j : nat)
    (room : Room.t) :
  well_formed d →
  Dojo.rooms_of k d !! j = Some room →
  Forall (λ pid, pid ∈ Person.person_id <$> Dojo.people d)
         (Room.occupants room).
Proof.
  intros Hd Hj. apply Forall_forall. intros pid Hin.
  destruct (wf_known d Hd k j room pid Hj Hin) as (a & q & Hq & <- & _).
  apply list_elem_of_fmap_2. by eapply list_elem_of_lookup_2.
Qed.

Lemma rooms_occupants_registered (d : Dojo.t) (k : RoomType) :
  well_formed d →
  Forall (λ room, Forall (λ pid, pid ∈ Person.person_id <$> Dojo.people d)
                         (Room.occupants room))
         (Dojo.rooms_of k d).
Proof.
  intros Hd. apply Forall_lookup. intros j room Hj.
  by eapply occupants_registered.
Qed.

Lemma room_entries_bearers (d : Dojo.t) (rooms : list Room.t) :
  Forall (λ room, Forall (λ pid, pid ∈ Person.person_id <$> Dojo.people d)
                         (Room.occupants room)) rooms →
  ∃ persons,
    Forall2 (λ room ps, bearers d (Room.occupants room) ps) rooms persons
    ∧ (room ← rooms; Reports.room_entry d room)
      = concat (zip_with entry_of rooms persons).
Proof.
  induction rooms as [|room rooms IH]; intros Hall.
  { exists []. split; [constructor | done]. }
  apply Forall_cons in Hall as [Hroom Hrest].
  destruct (IH Hrest) as (pss & Hpss & Heq).
  destruct (occupant_lines_bearers Reports.allocation_line d room Hroom)
    as (ps & Hps & Hlines).
  exists (ps :: pss). split; [by constructor |].
  rewrite bind_cons, Heq.
  change (zip_with entry_of (room :: rooms) (ps :: pss))
    with (entry_of room ps :: zip_with entry_of rooms pss).
  rewrite concat_cons. f_equal.
  unfold Reports.room_entry, entry_of, Reports.room_header.
  rewrite Hlines. unfold bearers in Hps.
  by rewrite (Forall2_length _ _ _ Hps).
Qed.

(** X28: on an instance built with fresh identifiers, what
    [print_allocations] outputs is "No room allocations to display." when
    there is no room; otherwise it is the offices, if any, under their
    title, then the living spaces, if any, under theirs, each room with its
    heading, which gives the number of its occupants and its capacity,
    followed by one line for each occupant, in order, with the name of a
    registered person who bears that id: no occupant is passed over. *)
Theorem print_allocations_lists_occupants (ops : list Op) :
  fresh ops = true →
  let d := run ops in
  ∃ in_offices in_living_spaces,
    Forall2 (λ room persons, bearers d (Room.occupants room) persons)
            (Dojo.offices d) in_offices
    ∧ Forall2 (λ room persons, bearers d (Room.occupants room) persons)
              (Dojo.living_spaces d) in_living_spaces
    ∧ Reports.print_allocations d
      = match Dojo.offices d, Dojo.living_spaces d with
        | [], [] => ["No room allocations to display."]
        | _, _ =>
            section_of "OFFICES" (Dojo.offices d) in_offices
            ++ section_of (Reports.newline +:+ "LIVING SPACES")
                          (Dojo.living_spaces d) in_living_spaces
        end.
Proof.
  intros Hf d. pose proof (run_wf ops Hf) as Hd. fold d in Hd.
  destruct (room_entries_bearers d (Dojo.offices d)
              (rooms_occupants_registered d office Hd)) as (po & Hpo & Ho).
  destruct (room_entries_bearers d (Dojo.living_spaces d)
              (rooms_occupants_registered d living_space Hd))
    as (pl & Hpl & Hl).
  exists po, pl. split; [done |]. split; [done |]. clear Hpo Hpl.
  unfold Reports.print_allocations, section_of. revert Ho Hl.
  destruct (Dojo.offices d) as [|o os], (Dojo.living_spaces d) as [|l ls];
    intros Ho Hl; rewrite ?Ho, ?Hl; done.
Qed.

Lemma print_allocations_lists_occupants_witness :
  let ops := [CreateRoom "office" (Dojo.NamesStr "Blue");
              AddPerson "John Doe" "STAFF" (PStr "N") "a1" 0 0] in
  let d := run ops in
  ∃ in_offices in_living_spaces,
    Forall2 (λ room persons, bearers d (Room.occupants room) persons)
            (Dojo.offices d) in_offices
    ∧ Forall2 (λ room persons, bearers d (Room.occupants room) persons)
              (Dojo.living_spaces d) in_living_spaces
    ∧ Reports.print_allocations d
      = match Dojo.offices d, Dojo.living_spaces d with
        | [], [] => ["No room allocations to display."]
        | _, _ =>
            section_of "OFFICES" (Dojo.offices d) in_offices
            ++ section_of (Reports.newline +:+ "LIVING SPACES")
                          (Dojo.living_spaces d) in_living_spaces
        end.
Proof.
  intros ops. apply (print_allocations_lists_occupants ops). reflexivity.
Defined.

(** X29: on an instance built with fresh identifiers, [print_room], given
    the name of a room in any case of the letters, prints the name and the
    kind of that room, then one line for each occupant, in order, with the
    name and the kind of a registered person who bears that id. *)
Theorem print_room_lists_occupants (ops : list Op) (k : RoomType) (j : nat)
    (room : Room.t) (room_name : string) :
  fresh ops = true →
  Dojo.rooms_of k (run ops) !! j = Some room →
  lower (Room.name room) = lower room_name →
  ∃ persons,
    bearers (run ops) (Room.occupants room) persons
    ∧ Reports.print_room (run ops) room_name
      = ["Room: " +:+ Room.name room;
         "Type: " +:+ match k with
                      | office => "Office"
                      | living_space => "Living Space"
                      end;
         "Occupants:"]
        ++ (Reports.room_line <$> persons).
Proof.
  intros Hf Hj Hname. pose proof (run_wf ops Hf) as Hd.
  revert Hd Hj. generalize (run ops). intros d Hd Hj.
  destruct (occupant_lines_bearers Reports.room_line d room)
    as (persons & Hb & Heq); [by eapply occupants_registered |].
  exists persons. split; [done |].
  destruct (Forall_lookup_1 _ _ _ _ (wf_rooms d Hd k) Hj) as [Hty _].
  assert (list_find (λ o, lower (Room.name o) = lower room_name)
                    (Dojo.rooms_of k d) = Some (j, room)) as Hfind.
  { apply list_find_unique; [done | done |].
    intros a y Ha Hy. rewrite <- Hname in Hy.
    by destruct (wf_names d Hd k k a j y room Ha Hj Hy). }
  unfold Reports.print_room.
  destruct k; simpl in Hfind.
  - by rewrite Hfind, Hty, Heq.
  - destruct (list_find _ (Dojo.offices d)) as [[a o]|] eqn:Ho.
    + apply list_find_Some in Ho as (Ha & Hy & _). rewrite <- Hname in Hy.
      by destruct (wf_names d Hd office living_space a j o room Ha Hj Hy).
    + rewrite Hfind. simpl. by rewrite Hty, Heq.
Qed.

Lemma print_room_lists_occupants_witness :
  let ops := [CreateRoom "office" (Dojo.NamesStr "Blue");
              AddPerson "John Doe" "STAFF" (PStr "N") "a1" 0 0] in
  let blue := Room.mk "Blue" office 6 ["a1"] in
  ∃ persons,
    bearers (run ops) (Room.occupants blue) persons
    ∧ Reports.print_room (run ops) "BLUE"
      = ["Room: " +:+ Room.name blue; "Type: " +:+ "Office"; "Occupants:"]
        ++ (Reports.room_line <$> persons).
Proof.
  intros ops blue.
  apply (print_room_lists_occupants ops office 0 blue "BLUE"); reflexivity.
Defined.

(** ** People read from a file *)

Lemma app_add_person_frame (d : Dojo.t) (name person_type wants : string)
    (uuid : string) (r1 r2 : nat) :
  let res := DojoApp.add_person d name person_type wants uuid r1 r2 in
  ∃ added,
    Dojo.people res.2 = Dojo.people d ++ added
    ∧ (∀ k, room_identity <$> Dojo.rooms_of k res.2
            = room_identity <$> Dojo.rooms_of k d)
    ∧ (res.1 = Ret true → added ≠ []).
Proof.
  intros res. subst res.
  destruct (app_add_person_cases d name person_type wants uuid r1 r2)
    as [[Ha ->] | [Hna ->]].
  - destruct (add_person_state d name person_type (PStr wants) uuid r1 r2
                (app_accepts_accepted _ _ Ha)) as (k & p & _ & Hp & _ & _ & Hr).
    exists [p]. split; [done |]. split; [done | by intros _].
  - exists []. simpl. rewrite app_nil_r. split; [done |]. split; done.
Qed.

Lemma load_people_loop_frame (lines : list string)
    (gen : nat → string * nat * nat) (calls added_count : nat) (d : Dojo.t) :
  ∃ added,
    Dojo.people (Loader.load_people_loop lines gen calls added_count d).2
    = Dojo.people d ++ added
    ∧ (∀ k, room_identity
              <$> Dojo.rooms_of k
                    (Loader.load_people_loop lines gen calls added_count d).2
            = room_identity <$> Dojo.rooms_of k d)
    ∧ ∀ n, (Loader.load_people_loop lines gen calls added_count d).1 = Ret n →
           added_count ≤ n ∧ (added_count < n → added ≠ []).
Proof.
  revert calls added_count d.
  induction lines as [|line rest IH]; intros calls added_count d.
  { exists []. simpl. rewrite app_nil_r. split; [done |]. split; [done |].
    intros n [= <-]. split; lia. }
  cbn [Loader.load_people_loop].
  destruct (Loader.parse_line line) as [[[name pt] w]|]; [| apply IH].
  destruct (gen calls) as [[uuid r1] r2].
  destruct (app_add_person_frame d name pt w uuid r1 r2)
    as (added1 & Hp1 & Hr1 & Hne1).
  destruct (DojoApp.add_person d name pt w uuid r1 r2) as [[success|e] d1];
    simpl in Hp1, Hr1, Hne1.
  2: { exists added1. by simpl. }
  destruct (IH (S calls) (if success then S added_count else added_count) d1)
    as (added2 & Hp2 & Hr2 & Hn2).
  exists (added1 ++ added2). split; [by rewrite Hp2, Hp1, app_assoc |].
  split; [intros k; by rewrite Hr2, Hr1 |].
  intros n Hn. destruct (Hn2 n Hn) as [Hle Hlt]. destruct success.
  - split; [lia |]. intros _. specialize (Hne1 eq_refl).
    by destruct added1.
  - split; [done |]. intros Hc. specialize (Hlt Hc). by destruct added1, added2.
Qed.

Lemma parse_line_kinds (line name person_type wants : string) :
  Loader.parse_line line = Some (name, person_type, wants) →
  (person_type = "FELLOW" ∨ person_type = "STAFF")
  ∧ (wants = "Y" ∨ wants = "N").
Proof.
  unfold Loader.parse_line.
  destruct (bool_decide _ || Loader.startswith_hash _); [done |].
  destruct (bool_decide (length _ < 2)); [done |].
  destruct (bool_decide (_ = "Y") || bool_decide (_ = "N")) eqn:Hyn;
    cbv beta iota;
    destruct (bool_decide (_ = "FELLOW") || bool_decide (_ = "STAFF")) eqn:Hk;
    try done; intros [= <- <- <-];
    apply orb_true_iff in Hk as [Hk%bool_decide_eq_true | Hk%bool_decide_eq_true].
  - split; [by left |].
    by apply orb_true_iff in Hyn
      as [Hyn%bool_decide_eq_true | Hyn%bool_decide_eq_true]; [left | right].
  - split; [by right |].
    by apply orb_true_iff in Hyn
      as [Hyn%bool_decide_eq_true | Hyn%bool_decide_eq_true]; [left | right].
  - split; [by left | by right].
  - split; [by right | by right].
Qed.

Lemma app_accepts_entry (name person_type wants : string) :
  person_type = "FELLOW" ∨ person_type = "STAFF" →
  wants = "Y" ∨ wants = "N" →
  app_accepts person_type wants ↔ admitted (name, person_type, wants) = true.
Proof.
  intros [-> | ->] [-> | ->]; unfold app_accepts, admitted; simpl.
  - split; [done |]. intros _. left. split; [done | by left].
  - split; [done |]. intros _. left. split; [done | by right].
  - split; [| done]. by intros [[? _] | [_ ?]].
  - split; [done |]. intros _. by right.
Qed.

Lemma app_add_person_named (d : Dojo.t) (name person_type wants : string)
    (uuid : string) (r1 r2 : nat) :
  split name ≠ [] →
  let res := DojoApp.add_person d name person_type wants uuid r1 r2 in
  (app_accepts person_type wants →
   res.1 = Ret true ∧ ∃ p, Dojo.people res.2 = Dojo.people d ++ [p])
  ∧ (¬ app_accepts person_type wants → res = (Ret false, d)).
Proof.
  intros Hname res. subst res.
  destruct (app_add_person_cases d name person_type wants uuid r1 r2)
    as [[Ha ->] | [Hna ->]]; [| done].
  split; [| done]. intros _.
  pose proof (app_accepts_accepted _ _ Ha) as Hacc.
  split; [by apply add_person_true_iff |].
  destruct (add_person_state d name person_type (PStr wants) uuid r1 r2 Hacc)
    as (k & p & _ & Hp & _). by exists p.
Qed.

Lemma load_people_loop_counts (lines : list string)
    (gen : nat → string * nat * nat) (calls added_count : nat) (d : Dojo.t) :
  Forall (λ e, split e.1.1 ≠ []) (entries lines) →
  ∃ added,
    (Loader.load_people_loop lines gen calls added_count d).1
    = Ret (added_count + length added)
    ∧ Dojo.people (Loader.load_people_loop lines gen calls added_count d).2
      = Dojo.people d ++ added
    ∧ length added
      = length (filter (λ e, admitted e = true) (entries lines)).
Proof.
  revert calls added_count d.
  induction lines as [|line rest IH]; intros calls added_count d Hn.
  { exists []. simpl. by rewrite app_nil_r, Nat.add_0_r. }
  cbn [Loader.load_people_loop]. unfold entries in *. cbn [omap list_omap] in *.
  destruct (Loader.parse_line line) as [[[name pt] w]|] eqn:Hline;
    [| by apply IH].
  apply Forall_cons in Hn as [Hname Hrest]. simpl in Hname.
  destruct (parse_line_kinds _ _ _ _ Hline) as [Hk Hw].
  pose proof (app_accepts_entry name pt w Hk Hw) as Hiff.
  destruct (gen calls) as [[uuid r1] r2].
  destruct (app_add_person_named d name pt w uuid r1 r2 Hname) as [Hyes Hno].
  rewrite filter_cons.
  destruct (admitted (name, pt, w)) eqn:Hadm.
  - destruct (Hyes (proj2 Hiff eq_refl)) as (Hres & p & Hp).
    destruct (DojoApp.add_person d name pt w uuid r1 r2) as [res1 d1].
    simpl in Hres, Hp. subst res1.
    destruct (IH (S calls) (S added_count) d1 Hrest) as (added & H1 & H2 & H3).
    exists (p :: added). rewrite decide_True by done. simpl.
    split; [rewrite H1; f_equal; lia |].
    split; [| by rewrite H3].
    by rewrite H2, Hp, <- app_assoc.
  - rewrite Hno by (intros Ha%Hiff; done).
    rewrite decide_False by done. by apply IH.
Qed.

(** X30: [load_people] only appends people: the people registered before
    stay as they were, in place, and no room is created, dropped, renamed or
    resized; when it returns [True], one person at least has been appended;
    when the file cannot be read, it returns [False] and writes nothing.
    When every line that is not passed over gives a name, a person is
    appended for each such line, those of staff with [Y] apart, and the
    result is [True] exactly when there is one. *)
Theorem load_people_appends (d : Dojo.t) (files : string → option (list string))
    (filename : string) (gen : nat → string * nat * nat) :
  let res := Loader.load_people d files filename gen in
  ∃ added,
    Dojo.people res.2 = Dojo.people d ++ added
    ∧ (∀ k, room_identity <$> Dojo.rooms_of k res.2
            = room_identity <$> Dojo.rooms_of k d)
    ∧ (res.1 = true → added ≠ [])
    ∧ (files filename = None → res = (false, d))
    ∧ ∀ lines,
        files filename = Some lines →
        Forall (λ e, split e.1.1 ≠ []) (entries lines) →
        length added = length (filter (λ e, admitted e = true) (entries lines))
        ∧ res.1 = bool_decide (0 < length added).
Proof.
  intros res. subst res. unfold Loader.load_people.
  destruct (files filename) as [lines|].
  2: { exists []. simpl. rewrite app_nil_r. done. }
  destruct (load_people_loop_frame lines gen 0 0 d) as (added & Hp & Hr & Hn).
  exists added.
  assert (∀ lines', Some lines = Some lines' →
            Forall (λ e, split e.1.1 ≠ []) (entries lines') →
            (Loader.load_people_loop lines gen 0 0 d).1 = Ret (length added)
            ∧ length added
              = length (filter (λ e, admitted e = true) (entries lines')))
    as Hcount.
  { intros ? [= <-] Hnamed.
    destruct (load_people_loop_counts lines gen 0 0 d Hnamed)
      as (added' & H1 & H2 & H3).
    rewrite Hp in H2. apply app_inv_head in H2 as ->. done. }
  destruct (Loader.load_people_loop lines gen 0 0 d) as [[n|e] d1];
    simpl in Hp, Hr, Hn, Hcount.
  - split; [done |]. split; [done |]. split.
    { simpl. intros Hpos%bool_decide_eq_true. by apply (Hn n eq_refl). }
    split; [done |]. intros lines' Hl Hnamed.
    destruct (Hcount lines' Hl Hnamed) as [[= ->] Hlen]. done.
  - split; [done |]. split; [done |]. split; [done |]. split; [done |].
    intros lines' Hl Hnamed. by destruct (Hcount lines' Hl Hnamed) as [? _].
Qed.
